(** * Fuzzer-evaluation statistics: Vargha-Delaney A12, data validation,
      best-competitor selection and comparison dispatch.

    A shallow embedding of [a12.py], [utils.py] and [statistical_tests.py].

    - Coverage values are Python [int]s: [Z].
    - A [Dict[str, List[int]]] is an association list in insertion order
      (Python dictionaries iterate in insertion order, and the competitor
      search depends on that order).
    - Python exceptions are values of [exn]; a function that may raise
      returns a [result].
    - Numbers computed with [/] ([a12], [statistics.mean],
      [statistics.median]) are kept as exact rationals [Q]; the binary64
      evaluation of [a12] and of the categorization ladder is given besides
      in [Module Binary64], on Rocq's primitive floats.
    - Calls to the statistics providers (SciPy, the R script) are recorded
      as events; what a provider answers is a parameter.
    - The text printed on stdout and stderr is not part of the model: a
      function is its provider calls and its result or exception. *)

From Stdlib Require Import ZArith QArith Qfield Lia Lqa Bool.
From Stdlib Require Import Floats Uint63.
From stdpp Require Import base list sorting gmap strings.

Local Open Scope Z_scope.

(* A decimal literal of type [float] is read, as Python reads it, as the
   nearest binary64 value. *)
Set Warnings "-inexact-float".

(** ** Exceptions and results *)

Inductive exn : Type :=
| AssertionError
| ZeroDivisionError
| ValueError
| KeyError
| IndexError
| TypeError
| StatisticsError.

Inductive result (A : Type) : Type :=
| Ok (a : A)
| Raise (e : exn).

Arguments Ok {A} a.
Arguments Raise {A} e.

(** Sequencing: an exception raised on the way ends the computation. *)
#[global] Instance result_ret : MRet result := fun A a => Ok a.

#[global] Instance result_bind : MBind result := fun A B k r =>
  match r with
  | Ok a => k a
  | Raise e => Raise e
  end.

Definition raises {A : Type} (r : result A) : Prop :=
  match r with
  | Ok _ => False
  | Raise _ => True
  end.

(** [assert c] *)
Definition py_assert (c : bool) : result unit :=
  if c then Ok tt else Raise AssertionError.

(** A sample: the coverage reached in each run of one fuzzer. *)
Definition Sample : Type := list Z.

(** Comparisons on exact rationals, as booleans. *)
Definition Qgtb (x y : Q) : bool := negb (Qle_bool x y).
Definition Qltb (x y : Q) : bool := negb (Qle_bool y x).

(** [len(l)] as a Python integer. *)
Definition len {A : Type} (l : list A) : Z := Z.of_nat (length l).

(** ** a12.py *)

Module A12.

(** The body of the inner loop of [a12]: one comparison of a tweak value
    [x] with a baseline value [y], on the counters [(more, same)]. *)
Definition compare_pair (x y : Z) (c : Z * Z) : Z * Z :=
  let '(more, same) := c in
  if x =? y then (more, same + 1)
  else if x >? y then (more + 1, same)
  else (more, same).

(** The two nested loops, [for x in tweak: for y in baseline: ...], from
    [more = 0; same = 0]. *)
Definition cross_compare (baseline tweak : Sample) : Z * Z :=
  fold_left
    (fun c x => fold_left (fun c y => compare_pair x y c) baseline c)
    tweak (0, 0).

(** [a12(baseline, tweak)]. *)
Definition a12 (baseline tweak : Sample) : result Q :=
  _ ← py_assert (len baseline =? len tweak);
  let '(more, same) := cross_compare baseline tweak in
  let n := len baseline * len tweak in
  if n =? 0 then Raise ZeroDivisionError
  else Ok ((inject_Z more + (1 # 2) * inject_Z same) / inject_Z n)%Q.

(** [effect_size_categorization(effect_size)]: the branches in the order
    of the source. *)
Definition effect_size_categorization (effect_size : Q) : result string :=
  if Qgtb effect_size (71 # 100)%Q then Ok "+L"%string
  else if Qgtb effect_size (64 # 100)%Q then Ok "+M"%string
  else if Qgtb effect_size (56 # 100)%Q then Ok "+S"%string
  else if Qgtb effect_size (50 # 100)%Q then Ok "  "%string
  else if Qeq_bool effect_size (50 # 100)%Q then Ok "  "%string
  else if Qltb effect_size (29 # 100)%Q then Ok "-L"%string
  else if Qltb effect_size (36 # 100)%Q then Ok "-M"%string
  else if Qltb effect_size (44 # 100)%Q then Ok "-S"%string
  else if Qltb effect_size (50 # 100)%Q then Ok "  "%string
  else Raise ValueError.

(** [effect_size_latex_table_field(effect_size)], as the two parts of the
    text: the category, and the value that is printed with two decimals. *)
Definition effect_size_latex_table_field (effect_size : Q)
  : result (string * Q) :=
  category ← effect_size_categorization effect_size;
  Ok (category, effect_size).

End A12.

(** ** a12.py on binary64 floats *)

Module Binary64.

(** [float(n)] for a counter [n]; the counters of [a12] are below [2^63]
    for every pair of lists that fits in memory. *)
Definition float_of_int (n : Z) : float := PrimFloat.of_uint63 (Uint63.of_Z n).

Definition a12 (baseline tweak : Sample) : result float :=
  _ ← py_assert (len baseline =? len tweak);
  let '(more, same) := A12.cross_compare baseline tweak in
  let n := len baseline * len tweak in
  if n =? 0 then Raise ZeroDivisionError
  else Ok ((float_of_int more + 0.5 * float_of_int same) / float_of_int n)%float.

Definition effect_size_categorization (effect_size : float) : result string :=
  if (0.71 <? effect_size)%float then Ok "+L"%string
  else if (0.64 <? effect_size)%float then Ok "+M"%string
  else if (0.56 <? effect_size)%float then Ok "+S"%string
  else if (0.50 <? effect_size)%float then Ok "  "%string
  else if (effect_size =? 0.50)%float then Ok "  "%string
  else if (effect_size <? 0.29)%float then Ok "-L"%string
  else if (effect_size <? 0.36)%float then Ok "-M"%string
  else if (effect_size <? 0.44)%float then Ok "-S"%string
  else if (effect_size <? 0.50)%float then Ok "  "%string
  else Raise ValueError.

End Binary64.

(** ** Python's [statistics] module and built-ins used by the scripts *)

Module Py.

(** [sorted(data)] *)
Definition sorted (data : Sample) : Sample := merge_sort Z.le data.

(** [sum(data)] *)
Definition sum (data : Sample) : Z := fold_left Z.add data 0.

(** [statistics.mean(data)]: the exact quotient; [StatisticsError] on
    empty data. *)
Definition mean (data : Sample) : result Q :=
  match data with
  | [] => Raise StatisticsError
  | _ => Ok (inject_Z (sum data) / inject_Z (len data))%Q
  end.

(** [statistics.median(data)]: the middle value of the sorted data, the
    mean of the two middle values when the length is even;
    [StatisticsError] on empty data. *)
Definition median (data : Sample) : result Q :=
  let data := sorted data in
  let n := length data in
  if (n =? 0)%nat then Raise StatisticsError
  else if (n mod 2 =? 1)%nat then Ok (inject_Z (nth (n / 2) data 0))
  else
    let i := (n / 2)%nat in
    let below := nth (i - 1)%nat data 0 in
    let above := nth i data 0 in
    Ok (inject_Z (below + above) / 2)%Q.

(** [max(values)]: the first of the largest values; [ValueError] on an
    empty sequence. *)
Definition max_from (v : Q) (values : list Q) : Q :=
  fold_left (fun m x => if Qgtb x m then x else m) values v.

Definition max (values : list Q) : result Q :=
  match values with
  | [] => Raise ValueError
  | v :: values => Ok (max_from v values)
  end.

(** [set(data)] *)
Definition set (data : Sample) : gset Z := list_to_set data.

(** [[0] * n]: empty when [n <= 0]. *)
Definition zeros (n : Z) : Sample := replicate (Z.to_nat n) 0.

(** [data.count(e)] *)
Definition count (e : Z) (data : Sample) : Z :=
  len (List.filter (Z.eqb e) data).

(** [enumerate(pool)] *)
Definition enumerate {A : Type} (pool : list A) : list (nat * A) :=
  combine (seq 0 (length pool)) pool.

(** [itertools.permutations(pool, 2)]: the pairs of the items at two
    different positions, in the order of the positions. *)
Definition permutations2 {A : Type} (pool : list A) : list (A * A) :=
  List.flat_map
    (fun ia : nat * A =>
       List.flat_map
         (fun jb : nat * A =>
            if (ia.1 =? jb.1)%nat then [] else [(ia.2, jb.2)])
         (enumerate pool))
    (enumerate pool).

End Py.

(** ** Dictionaries [Dict[str, List[int]]] *)

Definition Dict : Type := list (string * Sample).

(** [d.keys()] *)
Definition keys {V : Type} (d : list (string * V)) : list string := d.*1.

(** [k in d] *)
Definition has_key {V : Type} (k : string) (d : list (string * V)) : bool :=
  bool_decide (k ∈ keys d).

(** [d[k]]: [KeyError] when the key is absent. *)
Fixpoint get {V : Type} (k : string) (d : list (string * V)) : result V :=
  match d with
  | [] => Raise KeyError
  | (k', v) :: d => if String.eqb k k' then Ok v else get k d
  end.

(** [d[k] = v]: a key already present keeps its place, a new key goes to
    the end. *)
Fixpoint dict_set {V : Type} (k : string) (v : V) (d : list (string * V))
  : list (string * V) :=
  match d with
  | [] => [(k, v)]
  | (k', v') :: d =>
      if String.eqb k k' then (k, v) :: d else (k', v') :: dict_set k v d
  end.

(** ** The statistics providers

    SciPy's [mannwhitneyu] and the two functions of the R script. A call
    is recorded as an [event]; the answer comes from a [providers] record. *)

Inductive event : Type :=
| CallMannWhitneyU (x y : Sample)
| CallTwoSampleComparison (f1 f2 : Sample)
| CallAnova (fs : list (string * Sample)).

(** A component of an R answer: a numeric vector, or a list of columns. *)
Inductive rvalue : Type :=
| RVec (xs : list Q)
| RTable (columns : list (list Q)).

Record providers : Type := {
  mannwhitneyu : Sample -> Sample -> result (Q * Q);
  dec_twosamplecomparison : Sample -> Sample -> result (list Q);
  dec_anova : list (string * Sample) -> result (list rvalue)
}.

(** A computation that calls providers: the calls made, in order, and the
    outcome. *)
Inductive io (A : Type) : Type :=
| IO (calls : list event) (r : result A).

Arguments IO {A} calls r.

Definition calls {A : Type} (m : io A) : list event :=
  match m with IO t _ => t end.

Definition outcome {A : Type} (m : io A) : result A :=
  match m with IO _ r => r end.

#[global] Instance io_ret : MRet io := fun A a => IO [] (Ok a).

#[global] Instance io_bind : MBind io := fun A B k m =>
  match m with
  | IO t (Ok a) => match k a with IO t' r => IO (t ++ t') r end
  | IO t (Raise e) => IO t (Raise e)
  end.

(** A step that calls no provider. *)
Definition lift {A : Type} (r : result A) : io A := IO [] r.

(** A provider call. *)
Definition call {A : Type} (ev : event) (answer : result A) : io A :=
  IO [ev] answer.

(** ** utils.py *)

Module Utils.

(** [find_best_competitor]: the loop that fills [ratings]. *)
Fixpoint rate (fn : Sample -> result Q) (tweak : string) (items : Dict)
    (ratings : list (string * Q)) : result (list (string * Q)) :=
  match items with
  | [] => Ok ratings
  | (fuzzer, bbs) :: items =>
      if String.eqb fuzzer tweak then rate fn tweak items ratings
      else r ← fn bbs; rate fn tweak items (dict_set fuzzer r ratings)
  end.

Definition find_best_competitor (tweak : string) (fuzzer_to_bbs : Dict)
    (method : string) : result (list string) :=
  let fn := if String.eqb method "mean" then Py.mean else Py.median in
  ratings ← rate fn tweak fuzzer_to_bbs [];
  max_val ← Py.max ratings.*2;
  Ok (List.filter (fun fv => Qeq_bool fv.2 max_val) ratings).*1.

Definition contains_zero (data : Sample) : bool :=
  bool_decide (0 ∈ data).

Definition contains_ties (data : Sample) : bool :=
  negb (Z.of_nat (size (Py.set data)) =? len data).

Definition num_ties (data : Sample) : Z :=
  len data - Z.of_nat (size (Py.set data)).

Definition contains_overlaps (data_a data_b : Sample) : bool :=
  Z.of_nat (size (Py.set data_a ∩ Py.set data_b)) >? 0.

(** [validate_datasets]: the value returned; the warnings go to stderr. *)
Definition validate_datasets (data_a data_b : Sample) : bool :=
  let is_valid := true in
  let is_valid := if contains_ties data_a then false else is_valid in
  let is_valid := if contains_ties data_b then false else is_valid in
  let is_valid := if contains_ties (data_a ++ data_b) then false else is_valid in
  is_valid.

Definition mann_whitney_u (P : providers) (baseline tweak : Sample)
    (unsafe quiet : bool) : io (Q * Q) :=
  _ ← (if negb unsafe then
         lift (py_assert (negb (contains_ties (baseline ++ tweak))))
       else if negb quiet then
         let _ := validate_datasets baseline tweak in mret tt
       else mret tt);
  mwu_result ← call (CallMannWhitneyU baseline tweak)
                    (mannwhitneyu P baseline tweak);
  let stat := mwu_result.1 in
  let p_value := mwu_result.2 in
  mret (stat, p_value).

(** [validate_data]: the value returned; the warnings go to stdout. The
    inner loop runs over the values of [set(data)]. *)
Definition validate_data (data : Sample) : bool :=
  let is_valid := true in
  let is_valid := if contains_zero data then false else is_valid in
  let is_valid :=
    if contains_ties data then
      fold_left
        (fun is_valid e => if Py.count e data >? 1 then false else is_valid)
        (elements (Py.set data)) is_valid
    else is_valid in
  is_valid.

(** [compare_against_baseline]: the loop over [fuzzer_data.items()]. *)
Fixpoint compare_against_baseline_items (P : providers) (fuzzer_data : Dict)
    (baseline : string) (items : Dict) : io unit :=
  match items with
  | [] => mret tt
  | (fuzzer, values) :: items =>
      if String.eqb fuzzer baseline then
        compare_against_baseline_items P fuzzer_data baseline items
      else
        base ← lift (get baseline fuzzer_data);
        effect_size ← lift (A12.a12 base values);
        _ ← lift (A12.effect_size_latex_table_field effect_size);
        base ← lift (get baseline fuzzer_data);
        _ ← mann_whitney_u P base values true false;
        compare_against_baseline_items P fuzzer_data baseline items
  end.

Definition compare_against_baseline (P : providers) (fuzzer_data : Dict)
    (baseline : string) : io unit :=
  _ ← lift (py_assert (has_key baseline fuzzer_data));
  compare_against_baseline_items P fuzzer_data baseline fuzzer_data.

(** [compare_pairwise]: the loop over the pairs [(tw_tup, bl_tup)]. *)
Fixpoint compare_pairwise_pairs (P : providers)
    (tuples : list ((string * Sample) * (string * Sample))) : io unit :=
  match tuples with
  | [] => mret tt
  | (tw_tup, bl_tup) :: tuples =>
      effect_size ← lift (A12.a12 bl_tup.2 tw_tup.2);
      _ ← lift (A12.effect_size_latex_table_field effect_size);
      _ ← mann_whitney_u P bl_tup.2 tw_tup.2 true false;
      compare_pairwise_pairs P tuples
  end.

Definition compare_pairwise (P : providers) (fuzzer_data : Dict) : io unit :=
  compare_pairwise_pairs P (Py.permutations2 fuzzer_data).

(** [compare_against_best_competitor]: the loop over the best
    competitors, which appends [(comp, p_val, effect_size)]. *)
Fixpoint compare_against_competitors (P : providers) (tweak : string)
    (fuzzer_data : Dict) (best_competitor : list string)
    (best_competitor_data : list (string * Q * Q))
  : io (list (string * Q * Q)) :=
  match best_competitor with
  | [] => mret best_competitor_data
  | comp :: best_competitor =>
      base ← lift (get comp fuzzer_data);
      own ← lift (get tweak fuzzer_data);
      effect_size ← lift (A12.a12 base own);
      _ ← lift (A12.effect_size_latex_table_field effect_size);
      base ← lift (get comp fuzzer_data);
      own ← lift (get tweak fuzzer_data);
      mwu ← mann_whitney_u P base own true false;
      let p_val := mwu.2 in
      compare_against_competitors P tweak fuzzer_data best_competitor
        (best_competitor_data ++ [(comp, p_val, effect_size)])
  end.

Definition compare_against_best_competitor (P : providers) (tweak : string)
    (fuzzer_data : Dict) : io (list (string * Q * Q)) :=
  best_competitor ← lift (find_best_competitor tweak fuzzer_data "median");
  compare_against_competitors P tweak fuzzer_data best_competitor [].

End Utils.

(** ** statistical_tests.py *)

Module StatisticalTests.

(** The command-line options the functions below read. *)
Record Namespace : Type := {
  tweak : string;
  expected_runs : Z;
  use_mean : bool;
  no_effect_size : bool;
  allow_missing_runs : bool
}.

(** [l[i]] on a Python list: a negative index counts from the end. *)
Definition py_index {A : Type} (l : list A) (i : Z) : result A :=
  let i := if i <? 0 then i + len l else i in
  if (0 <=? i) && (i <? len l) then
    match l !! Z.to_nat i with
    | Some a => Ok a
    | None => Raise IndexError
    end
  else Raise IndexError.

(** [int(x)]: truncation towards zero. *)
Definition py_int (x : Q) : Z := Z.quot (Qnum x) (Zpos (Qden x)).

(** [other_ks.pop()]: an element of the set, [KeyError] when it is empty.
    CPython takes an arbitrary element; the callers pass dictionaries of
    at most two keys, so at most one key is left to take. *)
Definition set_pop (ks : list string) : result string :=
  match ks with
  | [] => Raise KeyError
  | k :: _ => Ok k
  end.

(** [len(v)] of a component of an R answer. *)
Definition rlen (v : rvalue) : Z :=
  match v with
  | RVec xs => len xs
  | RTable columns => len columns
  end.

(** One row [i] of the loop of [parse_posthoc_results]. *)
Definition parse_posthoc_row (c0 c1 c2 c3 : list Q) (fuzzers : list string)
    (i : Z) : result unit :=
  x1 ← py_index c2 i;
  let s1_idx := py_int x1 in
  _ ← py_assert (Qeq_bool (inject_Z s1_idx) x1);
  x2 ← py_index c3 i;
  let s2_idx := py_int x2 in
  _ ← py_assert (Qeq_bool (inject_Z s2_idx) x2);
  sample1 ← py_index fuzzers (s1_idx - 1);
  sample2 ← py_index fuzzers (s2_idx - 1);
  _ ← py_index c0 i;
  _ ← py_index c1 i;
  Ok tt.

(** [for x in xs: body(x)] *)
Fixpoint for_each {A : Type} (body : A -> result unit) (xs : list A)
  : result unit :=
  match xs with
  | [] => Ok tt
  | x :: xs => _ ← body x; for_each body xs
  end.

Definition parse_posthoc_results (decisions_posthoc : rvalue)
    (fuzzers : list string) : result unit :=
  _ ← py_assert (rlen decisions_posthoc =? 4);
  match decisions_posthoc with
  | RVec _ => Raise TypeError
  | RTable columns =>
      let c0 := nth 0 columns [] in
      let c1 := nth 1 columns [] in
      let c2 := nth 2 columns [] in
      let c3 := nth 3 columns [] in
      _ ← for_each (fun dec => py_assert (Qeq_bool dec 1 || Qeq_bool dec 0)) c0;
      for_each (parse_posthoc_row c0 c1 c2 c3 fuzzers)
               (Z.of_nat <$> seq 0 (length c0))
  end.

Definition test_twoway (P : providers) (R_Script : option string)
    (data : Dict) (args : Namespace) : io bool :=
  _ ← lift (py_assert (has_key (tweak args) data));
  _ ← lift (py_assert (bool_decide (is_Some R_Script)));
  f1 ← lift (get (tweak args) data);
  let other_ks := List.filter (fun k => negb (String.eqb k (tweak args)))
                              (keys data) in
  other_k ← lift (set_pop other_ks);
  f2 ← lift (get other_k data);
  result ← call (CallTwoSampleComparison f1 f2)
                (dec_twosamplecomparison P f1 f2);
  _ ← lift (py_assert (len result =? 3));
  let test_decision := nth 2 result 0%Q in
  let dec := Qeq_bool test_decision 1 in
  _ ← lift (if negb (no_effect_size args) then
              effect_size ← A12.a12 f2 f1;
              _ ← A12.effect_size_latex_table_field effect_size;
              Ok tt
            else Ok tt);
  mret dec.

(** The body of the search loop shared by [test_best_competitor] and
    [perc_difference], for one item [(k, v)] that is not the primary
    fuzzer: [fmp] is the statistic compared first, [fms] the one compared
    when the first ties. *)
Definition challenge (fmp fms : Sample -> result Q)
    (best_competitor : string * Sample) (k : string) (v : Sample)
  : result (string * Sample) :=
  mv ← fmp v;
  mbc ← fmp best_competitor.2;
  if Qgtb mv mbc then Ok (k, v)
  else if Qeq_bool mv mbc then
    sv ← fms v;
    sbc ← fms best_competitor.2;
    if Qgtb sv sbc then Ok (k, v) else Ok best_competitor
  else Ok best_competitor.

(** [for k, v in data.items(): if k == primary: continue ...] *)
Fixpoint search (fmp fms : Sample -> result Q) (primary : string)
    (items : Dict) (best_competitor : string * Sample)
  : result (string * Sample) :=
  match items with
  | [] => Ok best_competitor
  | (k, v) :: items =>
      if String.eqb k primary then search fmp fms primary items best_competitor
      else
        best_competitor ← challenge fmp fms best_competitor k v;
        search fmp fms primary items best_competitor
  end.

(** The running best before the loop: [("NONE", [0] * args.expected_runs)]. *)
Definition none_competitor (args : Namespace) : string * Sample :=
  ("NONE"%string, Py.zeros (expected_runs args)).

(** [perc_difference] without a baseline: the search for the best
    competitor (the statement [if not baseline:] up to the end of its
    loop). *)
Definition perc_difference_best_competitor (data : Dict) (primary : string)
    (args : Namespace) : result (option (string * Sample)) :=
  if negb (has_key primary data) then Ok None
  else
    let fmp := if use_mean args then Py.mean else Py.median in
    let fms := if use_mean args then Py.median else Py.mean in
    best_competitor ← search fmp fms primary data (none_competitor args);
    Ok (Some best_competitor).

Definition test_best_competitor (P : providers) (R_Script : option string)
    (data : Dict) (primary : string) (args : Namespace)
  : io (option (string * Sample * bool)) :=
  if negb (has_key primary data) then mret None
  else
    best_competitor ← lift (search Py.median Py.mean primary data
                                   (none_competitor args));
    own ← lift (get primary data);
    decision ← test_twoway P R_Script
                 (dict_set best_competitor.1 best_competitor.2
                           (dict_set primary own []))
                 args;
    mret (Some (best_competitor.1, best_competitor.2, decision)).

(** [test_data]: the loop that collects the groups given to the ANOVA. *)
Fixpoint collect_groups (args : Namespace) (items : Dict)
    (fs : list (string * Sample)) : result (list (string * Sample)) :=
  match items with
  | [] => Ok fs
  | (fuzzer, fuzzer_data) :: items =>
      missing ← (if allow_missing_runs args then
                   Ok (len fuzzer_data <? expected_runs args)
                 else
                   _ ← py_assert (len fuzzer_data =? expected_runs args);
                   Ok false);
      if (missing : bool) then collect_groups args items fs
      else if Z.of_nat (size (Py.set fuzzer_data)) <? 3 then
        collect_groups args items fs
      else collect_groups args items (fs ++ [(fuzzer, fuzzer_data)])
  end.

Definition test_data (P : providers) (R_Script : option string)
    (data : Dict) (args : Namespace) : io unit :=
  _ ← lift (py_assert (bool_decide (is_Some R_Script)));
  if len (keys data) =? 2 then
    _ ← test_twoway P R_Script data args; mret tt
  else if len (keys data) >? 2 then
    fs ← lift (collect_groups args data []);
    let fuzzers := keys fs in
    if len fs <? 2 then mret tt
    else
      result ← call (CallAnova fs) (dec_anova P fs);
      _ ← lift (py_assert (len result =? 5));
      let decision_anova_vec := nth 0 result (RVec []) in
      let test_statistics_anova_vec := nth 1 result (RVec []) in
      let decisions_posthoc := nth 3 result (RVec []) in
      let decisions_posthoc_mean := nth 4 result (RVec []) in
      _ ← lift (py_assert (rlen decision_anova_vec =? 1));
      _ ← lift (py_assert (rlen test_statistics_anova_vec =? 1));
      _ ← lift (parse_posthoc_results decisions_posthoc fuzzers);
      lift (parse_posthoc_results decisions_posthoc_mean fuzzers)
  else mret tt.

(** The options read besides by [gen_paper_table], [traditional_MWU_test]
    and [main]. *)
Record Options : Type := {
  namespace :> Namespace;
  subcommand : string;
  baseline : string;
  eval_targets : option (list string);
  only_best_competitor : bool
}.

(** The truth value of an optional string: [None] and the empty string
    are false. *)
Definition truthy (s : option string) : bool :=
  match s with
  | None => false
  | Some s => negb (String.eqb s "")
  end.

(** [perc_difference]. The first number of the pair is given as it is
    before [round(_, 2)]. *)
Definition perc_difference (data : Dict) (primary : string)
    (baseline : option string) (args : Namespace)
  : result (option (Q * Q)) :=
  if negb (has_key primary data) then Ok None
  else
    let fmp := if use_mean args then Py.mean else Py.median in
    let fms := if use_mean args then Py.median else Py.mean in
    found ← (if negb (truthy baseline) then
               best_competitor ← search fmp fms primary data
                                        (none_competitor args);
               mbc ← fms best_competitor.2;
               Ok (Some mbc)
             else
               let baseline := default ""%string baseline in
               if negb (has_key baseline data) then Ok None
               else
                 base ← get baseline data;
                 base ← get baseline data;
                 mbc ← Py.median base;
                 Ok (Some mbc));
    match found with
    | None => Ok None
    | Some mbc =>
        own ← get primary data;
        mpr ← fmp own;
        let diff_m := (mpr - mbc)%Q in
        if Qeq_bool mbc 0 then Raise ZeroDivisionError
        else Ok (Some (100 * diff_m / mbc, mpr / mbc)%Q)
    end.

(** A row of the table of [gen_paper_table], as the values its text is
    formatted from. *)
Record Row : Type := {
  row_target : string;
  row_competitor : string;
  row_category : string;
  row_effect_size : Q;
  row_significant : bool
}.

(** [args.eval_targets and target not in args.eval_targets] *)
Definition not_selected (target : string) (args : Options) : bool :=
  match eval_targets args with
  | None => false
  | Some [] => false
  | Some targets => negb (bool_decide (target ∈ targets))
  end.

(** [gen_paper_table]: the loop over the targets, which appends the rows. *)
Fixpoint gen_paper_table_rows (P : providers) (R_Script : option string)
    (items : list (string * Dict)) (args : Options) (table : list Row)
  : io (list Row) :=
  match items with
  | [] => mret table
  | (target, target_data) :: items =>
      if not_selected target args then
        gen_paper_table_rows P R_Script items args table
      else if negb (has_key (tweak args) target_data) then
        gen_paper_table_rows P R_Script items args table
      else if len target_data <? 2 then
        gen_paper_table_rows P R_Script items args table
      else
        res ← test_best_competitor P R_Script target_data (tweak args) args;
        match res with
        | None => gen_paper_table_rows P R_Script items args table
        | Some (bc, bc_cov, dec) =>
            own ← lift (get (tweak args) target_data);
            if negb (len bc_cov =? len own) then
              gen_paper_table_rows P R_Script items args table
            else
              own ← lift (get (tweak args) target_data);
              eff_sz ← lift (A12.a12 bc_cov own);
              field ← lift (A12.effect_size_latex_table_field eff_sz);
              gen_paper_table_rows P R_Script items args
                (table ++ [{| row_target := target;
                              row_competitor := bc;
                              row_category := field.1;
                              row_effect_size := field.2;
                              row_significant := dec |}])
        end
  end.

Definition gen_paper_table (P : providers) (R_Script : option string)
    (data : list (string * Dict)) (args : Options) : io (list Row) :=
  gen_paper_table_rows P R_Script data args [].

Definition traditional_MWU_test (P : providers) (data : Dict)
    (args : Options) : io unit :=
  if only_best_competitor args then
    _ ← Utils.compare_against_best_competitor P (tweak args) data; mret tt
  else Utils.compare_pairwise P data.

(** [main]: the loop over the targets, on the lists [cov_percs] and
    [factors]. *)
Fixpoint main_targets (P : providers) (R_Script : option string)
    (items : list (string * Dict)) (args : Options)
    (cov_percs factors : list Q) : io (list Q * list Q) :=
  match items with
  | [] => mret (cov_percs, factors)
  | (target, target_data) :: items =>
      if not_selected target args then
        main_targets P R_Script items args cov_percs factors
      else if len target_data =? 1 then
        main_targets P R_Script items args cov_percs factors
      else if String.eqb (subcommand args) "improvement" then
        res ← lift (perc_difference target_data (tweak args)
                                    (Some (baseline args)) args);
        match res with
        | Some (cov_perc, fac) =>
            main_targets P R_Script items args
                         (cov_percs ++ [cov_perc]) (factors ++ [fac])
        | None => main_targets P R_Script items args cov_percs factors
        end
      else if String.eqb (subcommand args) "baseline" then
        if negb (has_key (baseline args) target_data) then
          main_targets P R_Script items args cov_percs factors
        else
          base ← lift (get (baseline args) target_data);
          own ← lift (get (tweak args) target_data);
          let baseline_data :=
            dict_set (tweak args) own (dict_set (baseline args) base []) in
          _ ← test_twoway P R_Script baseline_data args;
          main_targets P R_Script items args cov_percs factors
      else if String.eqb (subcommand args) "traditional" then
        _ ← traditional_MWU_test P target_data args;
        main_targets P R_Script items args cov_percs factors
      else if String.eqb (subcommand args) "best-competitor" then
        _ ← test_best_competitor P R_Script target_data (tweak args) args;
        main_targets P R_Script items args cov_percs factors
      else if String.eqb (subcommand args) "full-comparison" then
        _ ← test_data P R_Script target_data args;
        main_targets P R_Script items args cov_percs factors
      else lift (Raise ValueError)
  end.

(** [main], once [load_r_script] has read the text [script] of
    [statistics.R]. *)
Definition main (P : providers) (script : string) (args : Options)
    (data : list (string * Dict)) : io unit :=
  let R_Script := Some script in
  if String.eqb (subcommand args) "gen-table" then
    _ ← gen_paper_table P R_Script data args; mret tt
  else
    _ ← main_targets P R_Script data args [] [];
    mret tt.

End StatisticalTests.

(** ** The data of the example in [a12.py] *)

Definition example_baseline : Sample := [11377; 11707; 11731; 11899; 12178].
Definition example_tweak : Sample := [11703; 11791; 12030; 12039; 12135].

(** The data of the example in [utils.py]. *)
Definition example_fuzzer_to_bbs : Dict :=
  [("tweak"%string, [12001; 10345; 11453; 11990; 12040]);
   ("fuzzer-1"%string, [11377; 11707; 11731; 11899; 12178]);
   ("fuzzer-2"%string, [11703; 11791; 12030; 12039; 12135]);
   ("fuzzer-3"%string, [12340; 10000; 15000; 9000; 11132])].

(** Providers that answer constants, and options, to run the functions
    on examples. *)
Definition example_providers : providers := {|
  mannwhitneyu := fun _ _ => Ok (4 # 1, 1 # 10)%Q;
  dec_twosamplecomparison := fun _ _ => Ok [3 # 2; 2 # 1; 0]%Q;
  dec_anova := fun _ => Ok []
|}.

Definition example_args : StatisticalTests.Namespace := {|
  StatisticalTests.tweak := "new_fuzzer";
  StatisticalTests.expected_runs := 3;
  StatisticalTests.use_mean := false;
  StatisticalTests.no_effect_size := false;
  StatisticalTests.allow_missing_runs := false
|}.

(** Fuzzers whose medians tie; the means of ["a"] and ["b"] tie, as do
    those of ["d"] and ["e"], which are larger. *)
Definition example_ties : Dict :=
  [("new_fuzzer"%string, [9; 9; 9]);
   ("a"%string, [1; 2; 3]);
   ("b"%string, [0; 2; 4]);
   ("d"%string, [1; 2; 6]);
   ("e"%string, [2; 2; 5])].

(** A competitor that reached no coverage. *)
Definition example_zero_coverage : Dict :=
  [("new_fuzzer"%string, [5; 6; 7]);
   ("aflpp"%string, [0; 0; 0])].

Definition example_two_fuzzers : Dict :=
  [("aflpp"%string, [1000; 1001; 1002]);
   ("new_fuzzer"%string, [1111; 1112; 1113])].

(** ** Notions used to state the properties *)

(** The number of values [y] of [ys] with [f y]. *)
Fixpoint count (f : Z -> bool) (ys : list Z) : Z :=
  match ys with
  | [] => 0
  | y :: ys => (if f y then 1 else 0) + count f ys
  end.

(** The number of pairs [(x, y)], [x] from [xs] and [y] from [ys], with
    [R x y]. *)
Fixpoint pairs (R : Z -> Z -> bool) (xs ys : list Z) : Z :=
  match xs with
  | [] => 0
  | x :: xs => count (R x) ys + pairs R xs ys
  end.

(** The data has a tie: some value is at two positions. *)
Definition has_tie (data : Sample) : Prop :=
  exists (i j : nat) (x : Z),
    i <> j /\ data !! i = Some x /\ data !! j = Some x.

(** The items of the search loop: those of a fuzzer other than the primary
    one, in the order of the dictionary. *)
Definition candidates (primary : string) (items : Dict) : Dict :=
  List.filter (fun kv => negb (String.eqb kv.1 primary)) items.

(** Both statistics of the sample are defined. *)
Definition rated (fmp fms : Sample -> result Q) (v : Sample) : Prop :=
  ~ raises (fmp v) /\ ~ raises (fms v).

Definition value_of (f : Sample -> result Q) (v : Sample) : Q :=
  match f v with
  | Ok q => q
  | Raise _ => 0
  end.

(** The two statistics of an entry, the one compared first in front. *)
Definition score (fmp fms : Sample -> result Q) (c : string * Sample) : Q * Q :=
  (value_of fmp c.2, value_of fms c.2).

(** [a] is below [b]: on the first statistic, or on the second when the
    first ties. *)
Definition lex_lt (a b : Q * Q) : Prop :=
  (a.1 < b.1)%Q \/ (a.1 == b.1 /\ a.2 < b.2)%Q.

(** [best] is what a search from [init] over [cands] keeps: [init] when
    no candidate is above it, and otherwise the first of the candidates
    that no candidate is above. *)
Definition first_maximum (fmp fms : Sample -> result Q) (cands : Dict)
    (init best : string * Sample) : Prop :=
  (best = init
   /\ forall c, c ∈ cands -> ~ lex_lt (score fmp fms init) (score fmp fms c))
  \/ (exists before after,
        cands = before ++ best :: after
        /\ lex_lt (score fmp fms init) (score fmp fms best)
        /\ (forall c, c ∈ before ->
                      lex_lt (score fmp fms c) (score fmp fms best))
        /\ (forall c, c ∈ after ->
                      ~ lex_lt (score fmp fms best) (score fmp fms c))).

(** The category of the opposite effect: the same size with the other
    sign. *)
Definition mirror (category : string) : string :=
  if String.eqb category "+L" then "-L"
  else if String.eqb category "+M" then "-M"
  else if String.eqb category "+S" then "-S"
  else if String.eqb category "-L" then "+L"
  else if String.eqb category "-M" then "+M"
  else if String.eqb category "-S" then "+S"
  else category.

(** [fn] in [find_best_competitor]: the statistic that [method] selects. *)
Definition statistic (method : string) : Sample -> result Q :=
  if String.eqb method "mean" then Py.mean else Py.median.

(** The ratings of the items, in their order. *)
Definition ratings_of (fn : Sample -> result Q) (items : Dict)
  : list (string * Q) :=
  (fun c : string * Sample => (c.1, value_of fn c.2)) <$> items.

(** The SciPy calls of [compare_against_baseline] for the items. *)
Definition baseline_calls (base : Sample) (items : Dict) : list event :=
  (fun c : string * Sample => CallMannWhitneyU base c.2) <$> items.

(** The SciPy call of [compare_pairwise] for a pair [(tw_tup, bl_tup)]. *)
Definition pairwise_call (tuples : (string * Sample) * (string * Sample))
  : event :=
  CallMannWhitneyU tuples.2.2 tuples.1.2.

(** [row] is the row of [compare_against_best_competitor] for the
    competitor [comp]: its name, the p-value of SciPy and the effect size,
    both for the sample of [comp] and the focal sample [own]. *)
Definition competitor_row (P : providers) (fuzzer_data : Dict) (own : Sample)
    (comp : string) (row : string * Q * Q) : Prop :=
  exists base stat,
    get comp fuzzer_data = Ok base
    /\ row.1.1 = comp
    /\ mannwhitneyu P base own = Ok (stat, row.1.2)
    /\ A12.a12 base own = Ok row.2.

(** Row [i] of a post-hoc answer with the columns [c1], [c2], [c3] after
    the decisions can be read: both sample indices are there, are whole
    numbers and, decremented, Python indices of [fuzzers]; the test
    statistic is there. *)
Definition posthoc_row_ok (c1 c2 c3 : list Q) (fuzzers : list string)
    (i : nat) : Prop :=
  exists x1 x2 : Q,
    c2 !! i = Some x1 /\ c3 !! i = Some x2
    /\ (inject_Z (StatisticalTests.py_int x1) == x1)%Q
    /\ (inject_Z (StatisticalTests.py_int x2) == x2)%Q
    /\ 1 - len fuzzers <= StatisticalTests.py_int x1 <= len fuzzers
    /\ 1 - len fuzzers <= StatisticalTests.py_int x2 <= len fuzzers
    /\ (i < length c1)%nat.

(** What [test_twoway] does with the answer of the two-sample comparison
    for the focal sample [f1] and the other sample [f2]. *)
Definition twoway_outcome (P : providers) (args : StatisticalTests.Namespace)
    (f1 f2 : Sample) : result bool :=
  result ← dec_twosamplecomparison P f1 f2;
  _ ← py_assert (len result =? 3);
  _ ← (if negb (StatisticalTests.no_effect_size args) then
         effect_size ← A12.a12 f2 f1;
         _ ← A12.effect_size_latex_table_field effect_size;
         Ok tt
       else Ok tt);
  Ok (Qeq_bool (nth 2 result 0%Q) 1).

(** The data of the fuzzer has at least three different values. *)
Definition varied (c : string * Sample) : bool :=
  negb (Z.of_nat (size (Py.set c.2)) <? 3).

(** The fuzzer has at least the expected number of runs. *)
Definition complete (args : StatisticalTests.Namespace)
    (c : string * Sample) : bool :=
  negb (len c.2 <? StatisticalTests.expected_runs args).

(** [main] passes over the target: it is not among [args.eval_targets],
    or it has the data of one fuzzer only. *)
Definition skipped (args : StatisticalTests.Options) (t : string * Dict)
  : bool :=
  StatisticalTests.not_selected t.1 args || (len t.2 =? 1).


(** Options for [main] and [gen_paper_table] on the examples. *)
Definition example_options (subcommand : string)
    (eval_targets : option (list string)) : StatisticalTests.Options := {|
  StatisticalTests.namespace := example_args;
  StatisticalTests.subcommand := subcommand;
  StatisticalTests.baseline := "aflpp";
  StatisticalTests.eval_targets := eval_targets;
  StatisticalTests.only_best_competitor := false
|}.

(** A competitor whose median coverage is 0 and whose mean is not. *)
Definition example_zero_median : Dict :=
  [("new_fuzzer"%string, [5; 6; 7]);
   ("aflpp"%string, [0; 0; 5])].

Definition example_use_mean : StatisticalTests.Namespace := {|
  StatisticalTests.tweak := "new_fuzzer";
  StatisticalTests.expected_runs := 3;
  StatisticalTests.use_mean := true;
  StatisticalTests.no_effect_size := false;
  StatisticalTests.allow_missing_runs := false
|}.

(** * Properties *)

(** ** The functions on the examples of the scripts *)

Example find_best_competitor_example :
  Utils.find_best_competitor "tweak" example_fuzzer_to_bbs "median"
  = Ok ["fuzzer-2"%string].
Proof. reflexivity. Qed.

Example median_even_example : Py.median [5; 1; 4; 2] = Ok (6 # 2)%Q.
Proof. reflexivity. Qed.

Example num_ties_example : Utils.num_ties [5; 1; 4; 1; 1] = 2.
Proof. reflexivity. Qed.

Example mann_whitney_u_safe_example :
  Utils.mann_whitney_u example_providers [1; 2; 3] [3; 4; 5] false false
  = IO [] (Raise AssertionError).
Proof. reflexivity. Qed.

Example mann_whitney_u_unsafe_example :
  Utils.mann_whitney_u example_providers [1; 2; 3] [3; 4; 5] true false
  = IO [CallMannWhitneyU [1; 2; 3] [3; 4; 5]] (Ok (4 # 1, 1 # 10)%Q).
Proof. reflexivity. Qed.

Example a12_binary64_symmetry_example :
  (a ← Binary64.a12 example_baseline example_tweak;
   b ← Binary64.a12 example_tweak example_baseline;
   Ok (a + b =? 1)%float) = Ok true.
Proof. reflexivity. Qed.

Example test_data_three_fuzzers_example :
  calls (StatisticalTests.test_data example_providers (Some "stat"%string)
           example_ties example_args)
  = [CallAnova [("a"%string, [1; 2; 3]); ("b"%string, [0; 2; 4]);
                ("d"%string, [1; 2; 6])]].
Proof. reflexivity. Qed.

(** ** The cross comparison of [a12] counts pairs *)

Lemma count_ext (f g : Z -> bool) (ys : list Z) :
  (forall y, f y = g y) -> count f ys = count g ys.
Proof.
  intros Hfg. induction ys as [|y ys IH]; simpl; [reflexivity|].
  rewrite Hfg, IH. reflexivity.
Qed.

Lemma pairs_ext (R S : Z -> Z -> bool) (xs ys : list Z) :
  (forall x y, R x y = S x y) -> pairs R xs ys = pairs S xs ys.
Proof.
  intros HRS. induction xs as [|x xs IH]; simpl; [reflexivity|].
  rewrite IH. f_equal. apply count_ext. intros y. apply HRS.
Qed.

Lemma pairs_nil_r (R : Z -> Z -> bool) (xs : list Z) : pairs R xs [] = 0.
Proof. induction xs as [|x xs IH]; simpl; [reflexivity|]. exact IH. Qed.

Lemma pairs_cons_r (R : Z -> Z -> bool) (xs : list Z) (y : Z) (ys : list Z) :
  pairs R xs (y :: ys) = count (fun x => R x y) xs + pairs R xs ys.
Proof.
  induction xs as [|x xs IH]; simpl; [reflexivity|].
  rewrite IH. destruct (R x y); lia.
Qed.

(** Counting the pairs from the other side. *)
Lemma pairs_swap (R : Z -> Z -> bool) (xs ys : list Z) :
  pairs R xs ys = pairs (fun y x => R x y) ys xs.
Proof.
  induction xs as [|x xs IH]; simpl.
  - symmetry. apply pairs_nil_r.
  - rewrite pairs_cons_r, IH. reflexivity.
Qed.

Lemma count_trichotomy (x : Z) (ys : list Z) :
  count (Z.gtb x) ys + count (Z.eqb x) ys + count (Z.ltb x) ys = len ys.
Proof.
  unfold len. induction ys as [|y ys IH]; simpl length; simpl count.
  - reflexivity.
  - rewrite Nat2Z.inj_succ.
    destruct (Z.gtb_spec x y), (Z.eqb_spec x y), (Z.ltb_spec x y); lia.
Qed.

Lemma pairs_trichotomy (xs ys : list Z) :
  pairs Z.gtb xs ys + pairs Z.eqb xs ys + pairs Z.ltb xs ys = len xs * len ys.
Proof.
  unfold len. induction xs as [|x xs IH]; simpl length; simpl pairs.
  - reflexivity.
  - rewrite Nat2Z.inj_succ. pose proof (count_trichotomy x ys) as H.
    unfold len in H. lia.
Qed.

Lemma count_nonneg (f : Z -> bool) (ys : list Z) : 0 <= count f ys.
Proof. induction ys as [|y ys IH]; simpl; [lia|]. destruct (f y); lia. Qed.

Lemma pairs_nonneg (R : Z -> Z -> bool) (xs ys : list Z) : 0 <= pairs R xs ys.
Proof.
  induction xs as [|x xs IH]; simpl; [lia|].
  pose proof (count_nonneg (R x) ys). lia.
Qed.

(** The inner loop adds, to each counter, the number of baseline values
    it is about. *)
Lemma inner_loop_counts (x : Z) (baseline : Sample) (more same : Z) :
  fold_left (fun c y => A12.compare_pair x y c) baseline (more, same)
  = (more + count (Z.gtb x) baseline, same + count (Z.eqb x) baseline).
Proof.
  revert more same. induction baseline as [|y ys IH]; intros more same; simpl.
  - f_equal; lia.
  - destruct (Z.eqb_spec x y) as [->|Hne].
    + rewrite IH. rewrite Z.gtb_ltb, Z.ltb_irrefl. f_equal; lia.
    + destruct (x >? y); rewrite IH; f_equal; lia.
Qed.

Lemma outer_loop_counts (baseline tweak : Sample) (more same : Z) :
  fold_left
    (fun c x => fold_left (fun c y => A12.compare_pair x y c) baseline c)
    tweak (more, same)
  = (more + pairs Z.gtb tweak baseline, same + pairs Z.eqb tweak baseline).
Proof.
  revert more same. induction tweak as [|x xs IH]; intros more same; simpl.
  - f_equal; lia.
  - rewrite inner_loop_counts, IH. f_equal; lia.
Qed.

(** [more] is the number of pairs with a larger tweak value, [same] the
    number of pairs of equal values. *)
Lemma cross_compare_counts (baseline tweak : Sample) :
  A12.cross_compare baseline tweak
  = (pairs Z.gtb tweak baseline, pairs Z.eqb tweak baseline).
Proof. unfold A12.cross_compare. rewrite outer_loop_counts. reflexivity. Qed.

(** With the arguments exchanged, [more] counts the pairs with a smaller
    tweak value and [same] is unchanged. *)
Lemma cross_compare_swap (baseline tweak : Sample) :
  A12.cross_compare tweak baseline
  = (pairs Z.ltb tweak baseline, pairs Z.eqb tweak baseline).
Proof.
  rewrite cross_compare_counts. f_equal.
  - rewrite pairs_swap. apply pairs_ext. intros x y. apply Z.gtb_ltb.
  - rewrite pairs_swap. apply pairs_ext. intros x y. apply Z.eqb_sym.
Qed.

(** ** The value of [a12] *)

Lemma len_eqb_length {A B : Type} (l : list A) (k : list B) :
  (len l =? len k) = bool_decide (length l = length k).
Proof.
  unfold len. destruct (Z.eqb_spec (Z.of_nat (length l)) (Z.of_nat (length k))).
  - rewrite bool_decide_eq_true_2; [reflexivity | lia].
  - rewrite bool_decide_eq_false_2; [reflexivity | lia].
Qed.

Lemma len_product_zero (baseline tweak : Sample) :
  length baseline = length tweak ->
  (len baseline * len tweak =? 0) = bool_decide (baseline = []).
Proof.
  unfold len. intros Hlen. rewrite <- Hlen. destruct baseline as [|y ys].
  - reflexivity.
  - rewrite bool_decide_eq_false_2 by discriminate.
    apply Z.eqb_neq. simpl length. lia.
Qed.

(** Unequal lengths fail the assertion. *)
Lemma a12_length_mismatch (baseline tweak : Sample) :
  length baseline <> length tweak ->
  A12.a12 baseline tweak = Raise AssertionError.
Proof.
  intros Hlen. unfold A12.a12. rewrite len_eqb_length.
  rewrite bool_decide_eq_false_2 by exact Hlen. reflexivity.
Qed.

(** Two empty samples pass the assertion and divide by zero. *)
Lemma a12_empty (baseline tweak : Sample) :
  length baseline = length tweak -> baseline = [] ->
  A12.a12 baseline tweak = Raise ZeroDivisionError.
Proof.
  intros Hlen ->. destruct tweak; [reflexivity | discriminate].
Qed.

(** Non-empty samples of equal length have an effect size: the share of
    pairs with a larger tweak value, a pair of equal values counting for
    a half. *)
Lemma a12_value (baseline tweak : Sample) :
  length baseline = length tweak -> baseline <> [] ->
  A12.a12 baseline tweak
  = Ok ((inject_Z (pairs Z.gtb tweak baseline)
         + (1 # 2) * inject_Z (pairs Z.eqb tweak baseline))
        / inject_Z (len baseline * len tweak))%Q.
Proof.
  intros Hlen Hne. unfold A12.a12. rewrite len_eqb_length.
  rewrite bool_decide_eq_true_2 by exact Hlen. simpl.
  rewrite cross_compare_counts, (len_product_zero _ _ Hlen).
  rewrite bool_decide_eq_false_2 by exact Hne. reflexivity.
Qed.

Lemma effect_sizes_sum (more less same n : Z) :
  more + same + less = n -> n <> 0 ->
  ((inject_Z more + (1 # 2) * inject_Z same) / inject_Z n
   + (inject_Z less + (1 # 2) * inject_Z same) / inject_Z n == 1)%Q.
Proof.
  intros <- Hn. rewrite !inject_Z_plus. field.
  rewrite <- !inject_Z_plus. intros H.
  apply Hn. apply (inject_Z_injective _ 0). exact H.
Qed.

(** C2. For non-empty samples [A] and [B] of equal length, [a12(A, B)] and
    [a12(B, A)] both return, and the two effect sizes add up to 1. *)
Theorem a12_symmetry (A B : Sample) :
  A <> [] -> length A = length B ->
  exists p q : Q,
    A12.a12 A B = Ok p /\ A12.a12 B A = Ok q /\ (p + q == 1)%Q.
Proof.
  intros Hne Hlen.
  assert (HneB : B <> []) by (intros ->; destruct A; [congruence | discriminate]).
  eexists _, _. split; [apply (a12_value A B Hlen Hne)|].
  split; [apply (a12_value B A (eq_sym Hlen) HneB)|].
  pose proof (cross_compare_swap A B) as Hswap.
  rewrite cross_compare_counts in Hswap.
  injection Hswap as Hmore Hsame. rewrite Hmore, Hsame.
  rewrite (Z.mul_comm (len B) (len A)).
  apply effect_sizes_sum.
  - pose proof (pairs_trichotomy B A) as H. lia.
  - unfold len. destruct A; [congruence|]. destruct B; [congruence|].
    simpl length. lia.
Qed.

Lemma a12_symmetry_witness :
  exists p q : Q,
    A12.a12 example_baseline example_tweak = Ok p
    /\ A12.a12 example_tweak example_baseline = Ok q
    /\ (p + q == 1)%Q.
Proof.
  apply (a12_symmetry example_baseline example_tweak);
    [discriminate | reflexivity].
Defined.

(** C9. Two empty samples pass the length assertion of [a12] and then
    divide by zero; [a12] returns a value exactly when the two samples
    have the same length and are not empty, and fails the assertion when
    the lengths differ. The binary64 evaluation fails in the same way. *)
Theorem a12_defined_iff_nonempty :
  A12.a12 [] [] = Raise ZeroDivisionError
  /\ Binary64.a12 [] [] = Raise ZeroDivisionError
  /\ (forall baseline tweak : Sample,
        (exists e, A12.a12 baseline tweak = Ok e)
        <-> length baseline = length tweak /\ baseline <> [])
  /\ (forall baseline tweak : Sample,
        A12.a12 baseline tweak = Raise ZeroDivisionError
        <-> baseline = [] /\ tweak = [])
  /\ (forall baseline tweak : Sample,
        A12.a12 baseline tweak = Raise AssertionError
        <-> length baseline <> length tweak).
Proof.
  assert (Hcases : forall baseline tweak : Sample,
    (length baseline <> length tweak
     /\ A12.a12 baseline tweak = Raise AssertionError)
    \/ (baseline = [] /\ tweak = []
        /\ A12.a12 baseline tweak = Raise ZeroDivisionError)
    \/ (length baseline = length tweak /\ baseline <> []
        /\ exists e, A12.a12 baseline tweak = Ok e)).
  { intros baseline tweak.
    destruct (decide (length baseline = length tweak)) as [Hlen|Hlen].
    - right. destruct baseline as [|y ys].
      + left. destruct tweak; [auto | discriminate].
      + right. split; [exact Hlen|]. split; [discriminate|].
        eexists. apply a12_value; [exact Hlen | discriminate].
    - left. split; [exact Hlen | apply a12_length_mismatch, Hlen]. }
  split; [reflexivity|]. split; [reflexivity|].
  split; [|split]; intros baseline tweak;
    destruct (Hcases baseline tweak)
      as [[Hlen He]|[(Hb & Ht & He)|(Hlen & Hne & [e He])]];
    split.
  - rewrite He. intros [e' He']. discriminate.
  - intros [Hlen' _]. contradiction.
  - rewrite He. intros [e' He']. discriminate.
  - intros [_ Hne]. contradiction.
  - intros _. auto.
  - intros _. eauto.
  - rewrite He. discriminate.
  - intros [-> ->]. contradiction.
  - auto.
  - intros _. exact He.
  - rewrite He. discriminate.
  - intros [Hb _]. contradiction.
  - intros _. exact Hlen.
  - intros _. exact He.
  - rewrite He. discriminate.
  - subst. intros H. contradiction.
  - rewrite He. discriminate.
  - intros H. contradiction.
Qed.

(** ** The example of [a12.py] *)

(** The claim C1 as the specification has it, refuted: on the example
    data the loops do not count 18 pairs as [more], the effect size is
    not within 0.005 of 0.72, and the category is not ["+L"]. *)
Lemma a12_example_not_large :
  ~ ((A12.cross_compare example_baseline example_tweak).1 = 18
     \/ (exists e, A12.a12 example_baseline example_tweak = Ok e
                   /\ (715 # 1000 <= e <= 725 # 1000)%Q)
     \/ (exists e, A12.a12 example_baseline example_tweak = Ok e
                   /\ A12.effect_size_categorization e = Ok "+L"%string)
     \/ (exists e, Binary64.a12 example_baseline example_tweak = Ok e
                   /\ Binary64.effect_size_categorization e = Ok "+L"%string)).
Proof.
  intros [H|[(e & He & Hlo & _)|[(e & He & Hc)|(e & He & Hc)]]].
  - vm_compute in H. discriminate.
  - vm_compute in He. injection He as <-.
    apply Hlo. reflexivity.
  - vm_compute in He. injection He as <-. vm_compute in Hc. discriminate.
  - vm_compute in He. injection He as <-. vm_compute in Hc. discriminate.
Qed.

(** C1, as the code has it. On the example data [a12] counts 16 of the 25
    pairs as [more] and none as [same], the effect size is 16/25 = 0.64,
    and the category is ["+S"], small positive: 0.64 is not above the
    bound 0.64 of ["+M"]. The binary64 evaluation gives the same
    category. *)
Theorem a12_example_small_positive :
  A12.cross_compare example_baseline example_tweak = (16, 0)
  /\ len example_baseline * len example_tweak = 25
  /\ (exists e, A12.a12 example_baseline example_tweak = Ok e
                /\ (e == 64 # 100)%Q
                /\ A12.effect_size_categorization e = Ok "+S"%string)
  /\ (exists e, Binary64.a12 example_baseline example_tweak = Ok e
                /\ (e =? 0.64)%float = true
                /\ Binary64.effect_size_categorization e = Ok "+S"%string).
Proof.
  split; [reflexivity|]. split; [reflexivity|]. split.
  - eexists. split; [reflexivity|]. split; reflexivity.
  - eexists. split; [vm_compute; reflexivity|]. split; reflexivity.
Qed.

(** ** The categories *)

(** C5. The effect size 0.5 is neutral, 1.0 is large positive and 0.0 is
    large negative, on exact rationals and on binary64 floats. *)
Theorem effect_size_categorization_boundaries :
  A12.effect_size_categorization (1 # 2) = Ok "  "%string
  /\ A12.effect_size_categorization 1 = Ok "+L"%string
  /\ A12.effect_size_categorization 0 = Ok "-L"%string
  /\ Binary64.effect_size_categorization 0.5 = Ok "  "%string
  /\ Binary64.effect_size_categorization 1.0 = Ok "+L"%string
  /\ Binary64.effect_size_categorization 0.0 = Ok "-L"%string.
Proof. repeat split; reflexivity. Qed.

(** A rational is above, at or below one half. *)
Lemma Q_half_cases (e : Q) :
  Qgtb e (50 # 100) = true \/ Qeq_bool e (50 # 100) = true
  \/ Qltb e (50 # 100) = true.
Proof.
  unfold Qgtb, Qltb.
  destruct (Qle_bool e (50 # 100)) eqn:Hle; [|left; reflexivity].
  destruct (Qle_bool (50 # 100) e) eqn:Hge; [|right; right; reflexivity].
  right; left. apply Qeq_bool_iff. apply Qle_bool_iff in Hle, Hge.
  apply Qle_antisym; assumption.
Qed.

(** The ladder has a branch for every rational. *)
Lemma effect_size_categorization_total (e : Q) :
  exists category, A12.effect_size_categorization e = Ok category.
Proof.
  unfold A12.effect_size_categorization.
  destruct (Q_half_cases e) as [H|[H|H]]; rewrite ?H;
    repeat match goal with
           | |- context [if ?c then _ else _] => destruct c
           end; eauto.
Qed.

(** Two floats that are not NaN compare, and compare the opposite way
    when exchanged. *)
Lemma SFcompare_antisym (x y : spec_float) :
  x <> S754_nan -> y <> S754_nan ->
  exists c, SFcompare x y = Some c /\ SFcompare y x = Some (CompOpp c).
Proof.
  intros Hx Hy.
  destruct x as [sx|sx| |sx mx ex], y as [sy|sy| |sy my ey];
    try congruence; cbn [SFcompare].
  all: try (destruct sx, sy; eexists; split; reflexivity).
  all: try (destruct sx; eexists; split; reflexivity).
  all: try (destruct sy; eexists; split; reflexivity).
  destruct sx, sy; try (eexists; split; reflexivity).
  - rewrite (Z.compare_antisym ex ey).
    destruct (ex ?= ey)%Z; cbn [CompOpp]; try (eexists; split; reflexivity).
    eexists; split; [reflexivity|].
    rewrite (Pos.compare_cont_antisym mx my Eq). reflexivity.
  - rewrite (Z.compare_antisym ex ey).
    destruct (ex ?= ey)%Z; cbn [CompOpp]; try (eexists; split; reflexivity).
    eexists; split; [reflexivity|].
    rewrite (Pos.compare_cont_antisym mx my Eq). reflexivity.
Qed.

(** A float that compares with 0 is not a NaN, and is then above, at or
    below one half. *)
Lemma float_half_cases (f : float) :
  (0 <=? f)%float = true ->
  (0.5 <? f)%float = true \/ (f =? 0.5)%float = true
  \/ (f <? 0.5)%float = true.
Proof.
  rewrite FloatAxioms.leb_spec, !FloatAxioms.ltb_spec, FloatAxioms.eqb_spec.
  unfold SFleb, SFltb, SFeqb. intros H0.
  assert (Hf : Prim2SF f <> S754_nan).
  { intros Hnan. rewrite Hnan in H0.
    destruct (Prim2SF 0); discriminate. }
  assert (Hh : Prim2SF 0.5 <> S754_nan) by (vm_compute; discriminate).
  destruct (SFcompare_antisym (Prim2SF f) (Prim2SF 0.5) Hf Hh)
    as (c & -> & ->).
  destruct c; cbn [CompOpp]; auto.
Qed.

(** The ladder has a branch for every float that is not a NaN. *)
Lemma float_categorization_total (f : float) :
  (0 <=? f)%float = true ->
  exists category, Binary64.effect_size_categorization f = Ok category.
Proof.
  intros H0. unfold Binary64.effect_size_categorization.
  destruct (float_half_cases f H0) as [H|[H|H]]; rewrite ?H;
    repeat match goal with
           | |- context [if ?c then _ else _] => destruct c
           end; eauto.
Qed.

(** C6. For an effect size in the closed interval from 0 to 1, as an
    exact rational [e] or as a binary64 float [f], the ladder of
    [effect_size_categorization] returns a category: the final [raise] is
    not reached. *)
Theorem effect_size_categorization_covers_unit_interval (e : Q) (f : float) :
  (0 <= e <= 1)%Q ->
  (0 <=? f)%float = true -> (f <=? 1)%float = true ->
  (exists category, A12.effect_size_categorization e = Ok category)
  /\ (exists category, Binary64.effect_size_categorization f = Ok category)
  /\ A12.effect_size_categorization e <> Raise ValueError
  /\ Binary64.effect_size_categorization f <> Raise ValueError.
Proof.
  intros _ H0 _.
  destruct (effect_size_categorization_total e) as [c Hc].
  destruct (float_categorization_total f H0) as [c' Hc'].
  rewrite Hc, Hc'. repeat split; eauto; discriminate.
Qed.

Lemma effect_size_categorization_covers_unit_interval_witness :
  (exists category, A12.effect_size_categorization (44 # 100) = Ok category)
  /\ (exists category, Binary64.effect_size_categorization 0.44 = Ok category)
  /\ A12.effect_size_categorization (44 # 100) <> Raise ValueError
  /\ Binary64.effect_size_categorization 0.44 <> Raise ValueError.
Proof.
  apply (effect_size_categorization_covers_unit_interval (44 # 100) 0.44).
  - split; discriminate.
  - reflexivity.
  - reflexivity.
Defined.

(** ** Ties *)

Lemma size_set_cons (x : Z) (data : Sample) :
  size (Py.set (x :: data))
  = if decide (x ∈ data) then size (Py.set data) else S (size (Py.set data)).
Proof.
  unfold Py.set. rewrite list_to_set_cons. case_decide as Hx.
  - f_equal. apply subseteq_union_1_L.
    apply singleton_subseteq_l, elem_of_list_to_set, Hx.
  - rewrite size_union, size_singleton; [reflexivity|].
    apply disjoint_singleton_l. rewrite elem_of_list_to_set. exact Hx.
Qed.

Lemma size_set_le (data : Sample) : (size (Py.set data) <= length data)%nat.
Proof.
  induction data as [|x data IH]; [reflexivity|].
  rewrite size_set_cons. case_decide; simpl; lia.
Qed.

(** The set of the data is as large as the data exactly when no value is
    repeated. *)
Lemma size_set_NoDup (data : Sample) :
  size (Py.set data) = length data <-> NoDup data.
Proof.
  split; [|apply size_list_to_set].
  induction data as [|x data IH]; [constructor|].
  rewrite size_set_cons. pose proof (size_set_le data) as Hle.
  case_decide as Hx; simpl; intros Hsize; [lia|].
  constructor; [exact Hx|]. apply IH. lia.
Qed.

Lemma has_tie_NoDup (data : Sample) : has_tie data <-> ~ NoDup data.
Proof.
  split.
  - intros (i & j & x & Hij & Hi & Hj) Hnd.
    apply Hij. exact (NoDup_lookup data i j x Hnd Hi Hj).
  - induction data as [|x data IH]; intros Hnd.
    + exfalso. apply Hnd. constructor.
    + destruct (decide (x ∈ data)) as [Hx|Hx].
      * apply list_elem_of_lookup in Hx as [j Hj].
        exists 0%nat, (S j), x. split; [discriminate|]. split; [reflexivity|exact Hj].
      * destruct IH as (i & j & y & Hij & Hi & Hj).
        { intros Hnd'. apply Hnd. constructor; assumption. }
        exists (S i), (S j), y. split; [congruence|]. split; assumption.
Qed.

(** [contains_ties] holds exactly of data with a tie. *)
Lemma contains_ties_spec (data : Sample) :
  Utils.contains_ties data = true <-> has_tie data.
Proof.
  rewrite has_tie_NoDup, <- size_set_NoDup.
  unfold Utils.contains_ties, len.
  rewrite negb_true_iff, Z.eqb_neq. lia.
Qed.

Lemma contains_ties_false (data : Sample) :
  Utils.contains_ties data = false <-> ~ has_tie data.
Proof.
  rewrite <- contains_ties_spec. destruct (Utils.contains_ties data).
  - split; [discriminate | intros H; exfalso; apply H; reflexivity].
  - split; [discriminate | reflexivity].
Qed.

(** C7. In safe mode [mann_whitney_u] fails its assertion, before SciPy is
    called, exactly when the concatenation [baseline + tweak] has a tie;
    without a tie it calls SciPy once and returns what SciPy answers. In
    unsafe mode it calls SciPy once and returns what SciPy answers,
    whether or not there are ties. So the function itself fails if and
    only if it is in safe mode and the data has a tie. *)
Theorem mann_whitney_u_fails_iff_ties (P : providers) (baseline tweak : Sample)
    (quiet : bool) :
  (Utils.mann_whitney_u P baseline tweak false quiet
   = IO [] (Raise AssertionError)
   <-> has_tie (baseline ++ tweak))
  /\ (calls (Utils.mann_whitney_u P baseline tweak false quiet) = []
      <-> has_tie (baseline ++ tweak))
  /\ (~ has_tie (baseline ++ tweak) ->
      Utils.mann_whitney_u P baseline tweak false quiet
      = IO [CallMannWhitneyU baseline tweak] (mannwhitneyu P baseline tweak))
  /\ Utils.mann_whitney_u P baseline tweak true quiet
     = IO [CallMannWhitneyU baseline tweak] (mannwhitneyu P baseline tweak)
  /\ (raises (outcome (Utils.mann_whitney_u P baseline tweak false quiet))
      <-> has_tie (baseline ++ tweak)
          \/ raises (mannwhitneyu P baseline tweak))
  /\ (raises (outcome (Utils.mann_whitney_u P baseline tweak true quiet))
      <-> raises (mannwhitneyu P baseline tweak)).
Proof.
  assert (Hcall : forall pre : io unit, pre = IO [] (Ok tt) ->
    (pre ≫= fun _ =>
       call (CallMannWhitneyU baseline tweak) (mannwhitneyu P baseline tweak)
       ≫= fun mwu_result => mret (mwu_result.1, mwu_result.2))
    = IO [CallMannWhitneyU baseline tweak] (mannwhitneyu P baseline tweak)).
  { intros pre ->. unfold call. simpl.
    destruct (mannwhitneyu P baseline tweak) as [[stat p_value]|e];
      reflexivity. }
  assert (Hunsafe : Utils.mann_whitney_u P baseline tweak true quiet
    = IO [CallMannWhitneyU baseline tweak] (mannwhitneyu P baseline tweak)).
  { unfold Utils.mann_whitney_u. apply Hcall. destruct quiet; reflexivity. }
  assert (Hsafe : Utils.mann_whitney_u P baseline tweak false quiet
    = if Utils.contains_ties (baseline ++ tweak)
      then IO [] (Raise AssertionError)
      else IO [CallMannWhitneyU baseline tweak]
              (mannwhitneyu P baseline tweak)).
  { unfold Utils.mann_whitney_u.
    destruct (Utils.contains_ties (baseline ++ tweak)); [reflexivity|].
    apply Hcall. reflexivity. }
  rewrite Hsafe, Hunsafe. rewrite <- contains_ties_spec.
  destruct (Utils.contains_ties (baseline ++ tweak)); simpl.
  - repeat split; auto; try discriminate.
    intros H; exfalso; apply H; reflexivity.
  - repeat split; try discriminate; auto.
    intros [H|H]; [discriminate | exact H].
Qed.

(** ** The best competitors *)

(** With no fuzzer besides the focal one, the loop of
    [find_best_competitor] rates nothing. *)
Lemma rate_only_focal (fn : Sample -> result Q) (tweak : string)
    (items : Dict) (ratings : list (string * Q)) :
  (forall fuzzer, fuzzer ∈ keys items -> fuzzer = tweak) ->
  Utils.rate fn tweak items ratings = Ok ratings.
Proof.
  induction items as [|[fuzzer bbs] items IH]; intros Hkeys; simpl.
  - reflexivity.
  - assert (Hfocal : fuzzer = tweak) by (apply Hkeys; unfold keys; simpl; left).
    rewrite Hfocal, String.eqb_refl. apply IH.
    intros k Hk. apply Hkeys. unfold keys in *. simpl. right. exact Hk.
Qed.

(** C10. When the mapping has no fuzzer name other than the focal one (in
    particular when it is empty, or holds the focal fuzzer only),
    [find_best_competitor] fails with the [ValueError] of [max()] on an
    empty sequence, whatever the method. *)
Theorem find_best_competitor_no_competitor (tweak : string)
    (fuzzer_to_bbs : Dict) (method : string) :
  (forall fuzzer, fuzzer ∈ keys fuzzer_to_bbs -> fuzzer = tweak) ->
  Utils.find_best_competitor tweak fuzzer_to_bbs method = Raise ValueError.
Proof.
  intros Hkeys. unfold Utils.find_best_competitor.
  rewrite (rate_only_focal _ tweak fuzzer_to_bbs [] Hkeys). reflexivity.
Qed.

Lemma find_best_competitor_no_competitor_witness :
  Utils.find_best_competitor "tweak" [] "median" = Raise ValueError
  /\ Utils.find_best_competitor "tweak"
       [("tweak"%string, [12001; 10345; 11453; 11990; 12040])] "mean"
     = Raise ValueError.
Proof.
  split; apply find_best_competitor_no_competitor; intros fuzzer Hin.
  - inversion Hin.
  - apply list_elem_of_singleton in Hin. exact Hin.
Defined.

(** ** The dispatch of [test_data] *)

Section Dispatch.
Import StatisticalTests.

Lemma bind_lift_ok {A B : Type} (a : A) (k : A -> io B) :
  lift (Ok a) ≫= k = k a.
Proof. unfold lift. simpl. destruct (k a). reflexivity. Qed.

Lemma bind_lift_raise {A B : Type} (e : exn) (k : A -> io B) :
  lift (Raise e) ≫= k = IO [] (Raise e).
Proof. reflexivity. Qed.

(** [test_twoway] calls the two-sample provider at most once, and no
    other provider. *)
Lemma test_twoway_calls (P : providers) (R_Script : option string)
    (data : Dict) (args : Namespace) :
  calls (test_twoway P R_Script data args) = []
  \/ exists f1 f2,
       get (tweak args) data = Ok f1
       /\ calls (test_twoway P R_Script data args)
          = [CallTwoSampleComparison f1 f2].
Proof.
  unfold test_twoway.
  destruct (py_assert (has_key (tweak args) data)) as [[]|e];
    [rewrite bind_lift_ok | left; reflexivity].
  destruct (py_assert (bool_decide (is_Some R_Script))) as [[]|e];
    [rewrite bind_lift_ok | left; reflexivity].
  destruct (get (tweak args) data) as [f1|e];
    [rewrite bind_lift_ok | left; reflexivity].
  destruct (set_pop _) as [other_k|e];
    [rewrite bind_lift_ok | left; reflexivity].
  destruct (get other_k data) as [f2|e];
    [rewrite bind_lift_ok | left; reflexivity].
  right. exists f1, f2. split; [reflexivity|].
  unfold call.
  destruct (dec_twosamplecomparison P f1 f2) as [result|e]; [|reflexivity].
  cbn [mbind io_bind].
  destruct (py_assert (len result =? 3)) as [[]|e];
    [rewrite bind_lift_ok | reflexivity].
  match goal with |- context [lift ?r] => destruct r as [[]|e] end;
    [rewrite bind_lift_ok | reflexivity].
  reflexivity.
Qed.

Lemma calls_bind_lift {A B : Type} (r : result A) (k : A -> io B) :
  calls (lift r ≫= k) = match r with Ok a => calls (k a) | Raise _ => [] end.
Proof. destruct r; [rewrite bind_lift_ok|]; reflexivity. Qed.

Lemma calls_bind_ret {A B : Type} (m : io A) (b : B) :
  calls (m ≫= fun _ => mret b) = calls m.
Proof.
  destruct m as [t [a|e]]; simpl; [|reflexivity]. apply app_nil_r.
Qed.

Lemma test_data_two_keys (P : providers) (R_Script : option string)
    (data : Dict) (args : Namespace) :
  length data = 2%nat ->
  test_data P R_Script data args
  = (lift (py_assert (bool_decide (is_Some R_Script))) ≫= fun _ =>
     test_twoway P R_Script data args ≫= fun _ => mret tt).
Proof.
  intros Hlen. unfold test_data.
  replace (len (keys data) =? 2) with true; [reflexivity|].
  symmetry. apply Z.eqb_eq. unfold len, keys. rewrite length_fmap, Hlen.
  reflexivity.
Qed.

Lemma test_data_two_keys_calls (P : providers) (R_Script : option string)
    (data : Dict) (args : Namespace) :
  length data = 2%nat ->
  calls (test_data P R_Script data args)
  = calls (test_twoway P R_Script data args).
Proof.
  intros Hlen. rewrite (test_data_two_keys _ _ _ _ Hlen).
  rewrite calls_bind_lift.
  destruct R_Script as [script|]; simpl py_assert.
  - apply calls_bind_ret.
  - unfold test_twoway.
    destruct (py_assert (has_key (tweak args) data)) as [[]|e];
      [rewrite bind_lift_ok|]; reflexivity.
Qed.

(** On a dictionary of two distinct keys, one of them the focal fuzzer,
    [test_twoway] calls the two-sample provider with the focal sample
    first. *)
Lemma test_twoway_two_keys (P : providers) (script : string)
    (k1 k2 : string) (v1 v2 : Sample) (args : Namespace) :
  k1 <> k2 ->
  (tweak args = k1 ->
   calls (test_twoway P (Some script) [(k1, v1); (k2, v2)] args)
   = [CallTwoSampleComparison v1 v2])
  /\ (tweak args = k2 ->
      calls (test_twoway P (Some script) [(k1, v1); (k2, v2)] args)
      = [CallTwoSampleComparison v2 v1]).
Proof.
  intros Hne.
  assert (Hcalls : forall f1 f2 : Sample,
    calls (call (CallTwoSampleComparison f1 f2)
                (dec_twosamplecomparison P f1 f2) ≫= fun result =>
           lift (py_assert (len result =? 3)) ≫= fun _ =>
           lift (if negb (no_effect_size args)
                 then A12.a12 f2 f1 ≫= fun effect_size =>
                      A12.effect_size_latex_table_field effect_size ≫= fun _ =>
                      Ok tt
                 else Ok tt) ≫= fun _ =>
           mret (Qeq_bool (nth 2 result 0%Q) 1))
    = [CallTwoSampleComparison f1 f2]).
  { intros f1 f2. unfold call.
    destruct (dec_twosamplecomparison P f1 f2) as [result|e]; [|reflexivity].
    cbn [mbind io_bind].
    destruct (py_assert (len result =? 3)) as [[]|e];
      [rewrite bind_lift_ok | reflexivity].
    match goal with |- context [lift ?r] => destruct r as [[]|e] end;
      [rewrite bind_lift_ok | reflexivity].
    reflexivity. }
  assert (H21 : String.eqb k2 k1 = false)
    by (apply String.eqb_neq; congruence).
  assert (H12 : String.eqb k1 k2 = false)
    by (apply String.eqb_neq; congruence).
  assert (Hget1 : get k1 [(k1, v1); (k2, v2)] = Ok v1)
    by (simpl; rewrite String.eqb_refl; reflexivity).
  assert (Hget2 : get k2 [(k1, v1); (k2, v2)] = Ok v2)
    by (simpl; rewrite H21, String.eqb_refl; reflexivity).
  assert (Hscript : py_assert (bool_decide (is_Some (Some script))) = Ok tt)
    by reflexivity.
  split; intros Htweak; unfold test_twoway; rewrite Htweak, Hscript.
  - replace (has_key k1 [(k1, v1); (k2, v2)]) with true
      by (symmetry; apply bool_decide_eq_true_2; unfold keys; cbn; constructor).
    replace (List.filter (fun k => negb (String.eqb k k1))
                         (keys [(k1, v1); (k2, v2)])) with [k2]
      by (unfold keys; cbn; rewrite String.eqb_refl, H21; reflexivity).
    change (py_assert true) with (Ok tt). change (set_pop [k2]) with (Ok k2).
    rewrite Hget1, !bind_lift_ok, Hget2, bind_lift_ok. apply Hcalls.
  - replace (has_key k2 [(k1, v1); (k2, v2)]) with true
      by (symmetry; apply bool_decide_eq_true_2; unfold keys; cbn;
          do 2 constructor).
    replace (List.filter (fun k => negb (String.eqb k k2))
                         (keys [(k1, v1); (k2, v2)])) with [k1]
      by (unfold keys; cbn; rewrite String.eqb_refl, H12; reflexivity).
    change (py_assert true) with (Ok tt). change (set_pop [k1]) with (Ok k1).
    rewrite Hget2, !bind_lift_ok, Hget1, bind_lift_ok. apply Hcalls.
Qed.

(** C8. On a sample set of exactly two fuzzers [test_data] runs
    [test_twoway] on it (after its own check that the R script is loaded):
    the provider calls it makes are those of [test_twoway], at most one
    call of the two-sample comparison, and never a call of the ANOVA. *)
Theorem test_data_two_fuzzers_dispatch (P : providers)
    (R_Script : option string) (data : Dict) (args : Namespace) :
  length data = 2%nat ->
  test_data P R_Script data args
  = (lift (py_assert (bool_decide (is_Some R_Script))) ≫= fun _ =>
     test_twoway P R_Script data args ≫= fun _ => mret tt)
  /\ calls (test_data P R_Script data args)
     = calls (test_twoway P R_Script data args)
  /\ (forall fs, CallAnova fs ∉ calls (test_data P R_Script data args))
  /\ (calls (test_data P R_Script data args) = []
      \/ exists f1 f2,
           get (tweak args) data = Ok f1
           /\ calls (test_data P R_Script data args)
              = [CallTwoSampleComparison f1 f2]).
Proof.
  intros Hlen. split; [apply test_data_two_keys, Hlen|].
  rewrite (test_data_two_keys_calls _ _ _ _ Hlen).
  split; [reflexivity|].
  destruct (test_twoway_calls P R_Script data args) as [H|(f1 & f2 & Hf1 & H)];
    rewrite H.
  - split; [|left; reflexivity]. intros fs Hin. inversion Hin.
  - split; [|right; eauto]. intros fs Hin.
    apply list_elem_of_singleton in Hin. discriminate.
Qed.

End Dispatch.

Lemma test_data_two_fuzzers_dispatch_witness :
  calls (StatisticalTests.test_data example_providers (Some "stat"%string)
           example_two_fuzzers example_args)
  = [CallTwoSampleComparison [1111; 1112; 1113] [1000; 1001; 1002]]
  /\ outcome (StatisticalTests.test_data example_providers
                (Some "stat"%string) example_two_fuzzers example_args)
     = Ok tt
  /\ forall fs,
       CallAnova fs ∉ calls (StatisticalTests.test_data example_providers
                               (Some "stat"%string) example_two_fuzzers
                               example_args).
Proof.
  split; [reflexivity|]. split; [reflexivity|].
  destruct (test_data_two_fuzzers_dispatch example_providers
              (Some "stat"%string) example_two_fuzzers example_args eq_refl)
    as (_ & _ & Hanova & _).
  exact Hanova.
Defined.

(** ** The search for the single best competitor *)

Section Search.
Import StatisticalTests.

Lemma Qgtb_lt (x y : Q) : Qgtb x y = true <-> (y < x)%Q.
Proof.
  unfold Qgtb. rewrite negb_true_iff.
  destruct (Qle_bool x y) eqn:H.
  - apply Qle_bool_iff in H. split; [discriminate | intros; lra].
  - split; [intros _ | reflexivity].
    apply Qnot_le_lt. intros Hle. apply Qle_bool_iff in Hle. congruence.
Qed.

Lemma Qgtb_not_lt (x y : Q) : Qgtb x y = false <-> (x <= y)%Q.
Proof.
  unfold Qgtb. rewrite negb_false_iff. apply Qle_bool_iff.
Qed.

Lemma Qeq_bool_false (x y : Q) : Qeq_bool x y = false <-> ~ (x == y)%Q.
Proof.
  split.
  - intros H Heq. apply Qeq_bool_iff in Heq. congruence.
  - intros H. destruct (Qeq_bool x y) eqn:Heq; [|reflexivity].
    apply Qeq_bool_iff in Heq. contradiction.
Qed.

Lemma lex_lt_trans (a b c : Q * Q) : lex_lt a b -> lex_lt b c -> lex_lt a c.
Proof.
  destruct a as [a1 a2], b as [b1 b2], c as [c1 c2]. unfold lex_lt. simpl.
  intros [H|[H H']] [G|[G G']].
  - left. lra.
  - left. lra.
  - left. lra.
  - right. split; lra.
Qed.

Lemma lex_lt_irrefl (a : Q * Q) : ~ lex_lt a a.
Proof. destruct a as [a1 a2]. unfold lex_lt. simpl. intros [H|[_ H]]; lra. Qed.

Lemma lex_not_lt_trans (a b c : Q * Q) :
  ~ lex_lt a b -> lex_lt a c -> lex_lt b c.
Proof.
  destruct a as [a1 a2], b as [b1 b2], c as [c1 c2]. unfold lex_lt. simpl.
  intros Hab Hac.
  destruct (Q_dec a1 b1) as [[Hlt|Hgt]|Heq].
  - exfalso. apply Hab. left. exact Hlt.
  - left. destruct Hac as [H|[H _]]; lra.
  - destruct (Qlt_le_dec a2 b2) as [Hlt|Hge].
    + exfalso. apply Hab. right. split; assumption.
    + destruct Hac as [H|[H H']]; [left; lra | right; split; lra].
Qed.

Lemma rated_values (fmp fms : Sample -> result Q) (v : Sample) :
  rated fmp fms v ->
  fmp v = Ok (value_of fmp v) /\ fms v = Ok (value_of fms v).
Proof.
  unfold rated, value_of. intros [Hp Hs].
  destruct (fmp v), (fms v); simpl in *; try contradiction; auto.
Qed.

(** The step of the loop compares the scores in lexicographic order: the
    item replaces the running best exactly when its score is above. *)
Lemma challenge_rated (fmp fms : Sample -> result Q)
    (best : string * Sample) (k : string) (v : Sample) :
  rated fmp fms best.2 -> rated fmp fms v ->
  (lex_lt (score fmp fms best) (score fmp fms (k, v))
   /\ challenge fmp fms best k v = Ok (k, v))
  \/ (~ lex_lt (score fmp fms best) (score fmp fms (k, v))
      /\ challenge fmp fms best k v = Ok best).
Proof.
  intros Hb Hv.
  destruct (rated_values _ _ _ Hb) as [Hpb Hsb].
  destruct (rated_values _ _ _ Hv) as [Hpv Hsv].
  unfold score, lex_lt. cbn [fst snd].
  revert Hpb Hsb Hpv Hsv.
  generalize (value_of fmp best.2) (value_of fms best.2)
             (value_of fmp v) (value_of fms v).
  intros pb sb pv sv Hpb Hsb Hpv Hsv.
  unfold challenge. rewrite Hpv, Hpb. simpl.
  destruct (Qgtb pv pb) eqn:Hgt.
  - left. apply Qgtb_lt in Hgt. auto.
  - apply Qgtb_not_lt in Hgt.
    destruct (Qeq_bool pv pb) eqn:Heq.
    + apply Qeq_bool_iff in Heq. rewrite Hsv, Hsb. simpl.
      destruct (Qgtb sv sb) eqn:Hgt2.
      * left. apply Qgtb_lt in Hgt2. split; [right; split; lra | reflexivity].
      * right. apply Qgtb_not_lt in Hgt2.
        split; [intros [H|[_ H]]; lra | reflexivity].
    + right. apply Qeq_bool_false in Heq.
      split; [intros [H|[H _]]; [lra | apply Heq; lra] | reflexivity].
Qed.

Lemma candidates_cons (primary k : string) (v : Sample) (items : Dict) :
  candidates primary ((k, v) :: items)
  = if String.eqb k primary then candidates primary items
    else (k, v) :: candidates primary items.
Proof.
  unfold candidates. simpl. destruct (String.eqb k primary); reflexivity.
Qed.

(** The loop keeps the first of the largest scores, the initial entry
    counting as seen first. *)
Lemma search_first_maximum (fmp fms : Sample -> result Q)
    (primary : string) (items : Dict) (init : string * Sample) :
  rated fmp fms init.2 ->
  (forall c, c ∈ candidates primary items -> rated fmp fms c.2) ->
  exists best,
    search fmp fms primary items init = Ok best
    /\ first_maximum fmp fms (candidates primary items) init best.
Proof.
  unfold first_maximum.
  revert init. induction items as [|[k v] items IH]; intros init Hinit Hrated.
  - exists init. split; [reflexivity|]. left. split; [reflexivity|].
    intros c Hc. inversion Hc.
  - rewrite candidates_cons in *. simpl search.
    destruct (String.eqb k primary) eqn:Hk.
    + apply IH; assumption.
    + assert (Hv : rated fmp fms v)
        by (apply (Hrated (k, v)); left).
      assert (Hrest : forall c, c ∈ candidates primary items ->
                                rated fmp fms c.2)
        by (intros c Hc; apply Hrated; right; exact Hc).
      destruct (challenge_rated fmp fms init k v Hinit Hv)
        as [[Hlt ->]|[Hnlt ->]]; simpl.
      * destruct (IH (k, v) Hv Hrest)
          as (best & Hs & [[Hbest Hmax]|(l1 & l2 & Hc & Hb & Hl1 & Hl2)]);
          exists best; (split; [exact Hs|]); right.
        -- subst best. exists [], (candidates primary items).
           split; [reflexivity|]. split; [exact Hlt|].
           split; [intros c Hc; inversion Hc | exact Hmax].
        -- exists ((k, v) :: l1), l2. rewrite Hc. split; [reflexivity|].
           split; [exact (lex_lt_trans _ _ _ Hlt Hb)|].
           split; [|exact Hl2].
           intros c Hin. apply elem_of_cons in Hin as [->|Hin];
             [exact Hb | apply Hl1, Hin].
      * destruct (IH init Hinit Hrest)
          as (best & Hs & [[Hbest Hmax]|(l1 & l2 & Hc & Hb & Hl1 & Hl2)]);
          exists best; (split; [exact Hs|]).
        -- left. split; [exact Hbest|].
           intros c Hin. apply elem_of_cons in Hin as [->|Hin];
             [exact Hnlt | apply Hmax, Hin].
        -- right. exists ((k, v) :: l1), l2. rewrite Hc.
           split; [reflexivity|].
           split; [exact Hb|]. split; [|exact Hl2].
           intros c Hin. apply elem_of_cons in Hin as [->|Hin];
             [exact (lex_not_lt_trans _ _ _ Hnlt Hb) | apply Hl1, Hin].
Qed.

(** *** The statistics of samples without negative values *)

Lemma sum_from (data : Sample) (a : Z) :
  fold_left Z.add data a = a + Py.sum data.
Proof.
  unfold Py.sum. revert a. induction data as [|x data IH]; intros a; simpl.
  - lia.
  - rewrite (IH (a + x)), (IH (0 + x)). lia.
Qed.

Lemma sum_cons (x : Z) (data : Sample) : Py.sum (x :: data) = x + Py.sum data.
Proof. unfold Py.sum at 1. simpl. rewrite sum_from. lia. Qed.

Lemma sum_nonneg (data : Sample) : Forall (Z.le 0) data -> 0 <= Py.sum data.
Proof.
  induction 1 as [|x data Hx _ IH]; [reflexivity|]. rewrite sum_cons. lia.
Qed.

Lemma sum_pos (data : Sample) :
  Forall (Z.le 0) data -> Exists (Z.lt 0) data -> 0 < Py.sum data.
Proof.
  intros Hall Hex. induction Hex as [x data Hx|x data Hex IH];
    rewrite sum_cons; apply Forall_cons in Hall as [H0 Hall].
  - pose proof (sum_nonneg data Hall). lia.
  - specialize (IH Hall). lia.
Qed.

Lemma sum_zeros (n : nat) : Py.sum (replicate n 0) = 0.
Proof. induction n as [|n IH]; [reflexivity|]. simpl replicate. rewrite sum_cons, IH. reflexivity. Qed.

Lemma mean_nonempty (data : Sample) :
  data <> [] ->
  Py.mean data = Ok (inject_Z (Py.sum data) / inject_Z (len data))%Q.
Proof. destruct data; [congruence | reflexivity]. Qed.

Lemma len_pos {A : Type} (l : list A) : l <> [] -> 0 < len l.
Proof. unfold len. destruct l; [congruence|]. simpl length. lia. Qed.

Lemma Qdiv_pos (a b : Z) : 0 < a -> 0 < b -> (0 < inject_Z a / inject_Z b)%Q.
Proof.
  intros Ha Hb. apply Qlt_shift_div_l.
  - change 0%Q with (inject_Z 0). rewrite <- Zlt_Qlt. exact Hb.
  - rewrite Qmult_0_l. change 0%Q with (inject_Z 0). rewrite <- Zlt_Qlt.
    exact Ha.
Qed.

Lemma Qdiv_zero (b : Z) : (inject_Z 0 / inject_Z b == 0)%Q.
Proof. unfold Qdiv. change (inject_Z 0) with 0%Q. apply Qmult_0_l. Qed.

(** The median is a value of the data or the mean of two of them. *)
Lemma median_cases (data : Sample) :
  data <> [] ->
  (exists a, a ∈ data /\ Py.median data = Ok (inject_Z a))
  \/ (exists a b, a ∈ data /\ b ∈ data
                  /\ Py.median data = Ok (inject_Z (a + b) / 2)%Q).
Proof.
  intros Hne. unfold Py.median.
  pose proof (merge_sort_Permutation Z.le data) as Hperm.
  fold (Py.sorted data) in Hperm |- *.
  assert (Hlen : length (Py.sorted data) = length data)
    by (apply Permutation_length, Hperm).
  assert (Hpos : (0 < length data)%nat)
    by (destruct data; [congruence | simpl; lia]).
  assert (Hin : forall i, (i < length data)%nat ->
                          nth i (Py.sorted data) 0 ∈ data).
  { intros i Hi.
    assert (Hs : nth i (Py.sorted data) 0 ∈ Py.sorted data).
    { apply list_elem_of_lookup. exists i.
      destruct (nth_lookup_or_length (Py.sorted data) i 0) as [H|H];
        [exact H | lia]. }
    revert Hs. generalize (nth i (Py.sorted data) 0). intros z Hs.
    rewrite <- Hperm. exact Hs. }
  rewrite Hlen.
  destruct (Nat.eqb_spec (length data) 0) as [H0|_]; [lia|].
  assert (Hhalf : (length data / 2 < length data)%nat)
    by (apply Nat.div_lt; lia).
  destruct (length data mod 2 =? 1)%nat.
  - left. eexists. split; [|reflexivity]. apply Hin, Hhalf.
  - right. eexists _, _. split; [|split; [|reflexivity]]; apply Hin; lia.
Qed.

Lemma median_nonneg (data : Sample) :
  data <> [] -> Forall (Z.le 0) data ->
  exists m, Py.median data = Ok m /\ (0 <= m)%Q.
Proof.
  intros Hne Hall. rewrite Forall_forall in Hall.
  destruct (median_cases data Hne) as [(a & Ha & ->)|(a & b & Ha & Hb & ->)];
    eexists; (split; [reflexivity|]).
  - change 0%Q with (inject_Z 0). rewrite <- Zle_Qle. apply Hall, Ha.
  - apply Qle_shift_div_l; [reflexivity|]. rewrite Qmult_0_l.
    change 0%Q with (inject_Z 0). rewrite <- Zle_Qle.
    specialize (Hall a Ha) as H1. specialize (Hall b Hb) as H2. lia.
Qed.

Lemma median_zeros (n : nat) :
  n <> 0%nat -> exists m, Py.median (replicate n 0) = Ok m /\ (m == 0)%Q.
Proof.
  intros Hn.
  assert (Hne : replicate n 0 <> []) by (destruct n; [congruence | discriminate]).
  assert (Hz : forall a, a ∈ replicate n 0 -> a = 0)
    by (intros a Ha; apply elem_of_replicate in Ha as [-> _]; reflexivity).
  destruct (median_cases _ Hne) as [(a & Ha & ->)|(a & b & Ha & Hb & ->)];
    eexists; (split; [reflexivity|]).
  - rewrite (Hz a Ha). reflexivity.
  - rewrite (Hz a Ha), (Hz b Hb). reflexivity.
Qed.

Lemma mean_zeros (n : nat) :
  n <> 0%nat -> exists m, Py.mean (replicate n 0) = Ok m /\ (m == 0)%Q.
Proof.
  intros Hn. eexists. split.
  - apply mean_nonempty. destruct n; [congruence | discriminate].
  - rewrite sum_zeros. apply Qdiv_zero.
Qed.

Lemma mean_pos (data : Sample) :
  Forall (Z.le 0) data -> Exists (Z.lt 0) data ->
  exists m, Py.mean data = Ok m /\ (0 < m)%Q.
Proof.
  intros Hall Hex.
  assert (Hne : data <> []) by (intros ->; inversion Hex).
  eexists. split; [apply mean_nonempty, Hne|].
  apply Qdiv_pos; [apply sum_pos; assumption | apply len_pos, Hne].
Qed.


(** *** Ties *)

(** C4. In the search loop, for a running best and an item whose
    statistics are defined and whose first statistics tie: the item
    replaces the running best when its second statistic is strictly
    larger, and the running best stays otherwise, so also when both
    statistics tie. Over the whole loop the result is the first of the
    entries with the largest pair of statistics, the initial entry counting
    as seen first: every candidate before it is strictly below it, no
    candidate after it is above it. [fmp] and [fms] are the median and the
    mean in [test_best_competitor], and either order in
    [perc_difference]. *)
Theorem search_tie_break (fmp fms : Sample -> result Q) (primary : string)
    (items : Dict) (init : string * Sample) :
  rated fmp fms init.2 ->
  (forall c, c ∈ candidates primary items -> rated fmp fms c.2) ->
  (forall best k v,
     rated fmp fms best.2 -> rated fmp fms v ->
     (value_of fmp v == value_of fmp best.2)%Q ->
     ((value_of fms best.2 < value_of fms v)%Q ->
      challenge fmp fms best k v = Ok (k, v))
     /\ ((value_of fms v <= value_of fms best.2)%Q ->
         challenge fmp fms best k v = Ok best))
  /\ exists best,
       search fmp fms primary items init = Ok best
       /\ first_maximum fmp fms (candidates primary items) init best.
Proof.
  intros Hinit Hrated. split; [|apply search_first_maximum; assumption].
  intros best k v Hb Hv Htie.
  destruct (challenge_rated fmp fms best k v Hb Hv) as [[Hlt ->]|[Hnlt ->]];
    unfold lex_lt, score in *; cbn [fst snd] in *.
  - split; [reflexivity|]. intros Hle. exfalso.
    destruct Hlt as [H|[_ H]]; lra.
  - split; [|reflexivity]. intros Hlt. exfalso. apply Hnlt. right.
    split; [lra | exact Hlt].
Qed.

Lemma search_tie_break_witness :
  search Py.median Py.mean "new_fuzzer" example_ties
         (none_competitor example_args)
  = Ok ("d"%string, [1; 2; 6])
  /\ first_maximum Py.median Py.mean (candidates "new_fuzzer" example_ties)
                   (none_competitor example_args) ("d"%string, [1; 2; 6]).
Proof.
  destruct (search_tie_break Py.median Py.mean "new_fuzzer" example_ties
              (none_competitor example_args))
    as [_ (best & Hs & Hmax)].
  - vm_compute. split; intros H; exact H.
  - intros c Hc. unfold candidates, example_ties in Hc. cbn in Hc.
    rewrite !elem_of_cons, elem_of_nil in Hc.
    destruct Hc as [->|[->|[->|[->|[]]]]]; vm_compute; split; intros H; exact H.
  - vm_compute in Hs. injection Hs as <-. split; [reflexivity | exact Hmax].
Defined.

(** *** The initial entry *)

(** The claim C3 as the specification has it, refuted: a competitor whose
    runs all reached coverage 0 is a real candidate, and it does not
    replace the initial entry; the search ends on ["NONE"]. *)
Lemma none_competitor_kept_on_zero_coverage :
  ("aflpp"%string, [0; 0; 0]) ∈ candidates "new_fuzzer" example_zero_coverage
  /\ none_competitor example_args = ("NONE"%string, [0; 0; 0])
  /\ challenge Py.median Py.mean (none_competitor example_args)
               "aflpp" [0; 0; 0]
     = Ok ("NONE"%string, [0; 0; 0])
  /\ search Py.median Py.mean "new_fuzzer" example_zero_coverage
            (none_competitor example_args)
     = Ok ("NONE"%string, [0; 0; 0])
  /\ perc_difference_best_competitor example_zero_coverage "new_fuzzer"
                                     example_args
     = Ok (Some ("NONE"%string, [0; 0; 0])).
Proof.
  split; [|repeat split; reflexivity].
  unfold candidates, example_zero_coverage. cbn. constructor.
Qed.

(** The statistics of the initial entry are 0, those of a sample without
    negative values and with a positive one are not below 0 and not both
    0. *)
Lemma none_competitor_below (fmp fms : Sample -> result Q)
    (args : Namespace) (k : string) (v : Sample) :
  (fmp = Py.median /\ fms = Py.mean) \/ (fmp = Py.mean /\ fms = Py.median) ->
  1 <= expected_runs args ->
  Forall (Z.le 0) v -> Exists (Z.lt 0) v ->
  rated fmp fms (none_competitor args).2
  /\ rated fmp fms v
  /\ lex_lt (score fmp fms (none_competitor args)) (score fmp fms (k, v)).
Proof.
  intros Horder Hruns Hall Hex.
  assert (Hne : v <> []) by (intros ->; inversion Hex).
  assert (Hn : Z.to_nat (expected_runs args) <> 0%nat) by lia.
  destruct (median_zeros _ Hn) as (mz & Hmz & Hmz0).
  destruct (mean_zeros _ Hn) as (sz & Hsz & Hsz0).
  destruct (median_nonneg v Hne Hall) as (mv & Hmv & Hmv0).
  destruct (mean_pos v Hall Hex) as (sv & Hsv & Hsv0).
  unfold rated, lex_lt, score, value_of, none_competitor, Py.zeros.
  cbn [fst snd].
  destruct Horder as [[-> ->]|[-> ->]]; rewrite Hmz, Hsz, Hmv, Hsv; simpl.
  - split; [tauto|]. split; [tauto|].
    destruct (Qlt_le_dec 0 mv) as [Hlt|Hle]; [left; lra | right; split; lra].
  - split; [tauto|]. split; [tauto|]. left. lra.
Qed.

(** A sample that is not empty has a median and a mean. *)
Lemma rated_nonempty (fmp fms : Sample -> result Q) (v : Sample) :
  (fmp = Py.median /\ fms = Py.mean) \/ (fmp = Py.mean /\ fms = Py.median) ->
  v <> [] -> rated fmp fms v.
Proof.
  intros Horder Hne.
  assert (Hmedian : ~ raises (Py.median v)).
  { destruct (median_cases v Hne) as [(a & _ & ->)|(a & b & _ & _ & ->)];
      intros H; exact H. }
  assert (Hmean : ~ raises (Py.mean v))
    by (rewrite (mean_nonempty v Hne); intros H; exact H).
  destruct Horder as [[-> ->]|[-> ->]]; split; assumption.
Qed.

Lemma search_replaces_none (fmp fms : Sample -> result Q) (args : Namespace)
    (data : Dict) (primary k : string) (v : Sample) :
  (fmp = Py.median /\ fms = Py.mean) \/ (fmp = Py.mean /\ fms = Py.median) ->
  1 <= expected_runs args ->
  (k, v) ∈ candidates primary data ->
  Forall (Z.le 0) v -> Exists (Z.lt 0) v ->
  (forall c, c ∈ candidates primary data -> c.2 <> []) ->
  challenge fmp fms (none_competitor args) k v = Ok (k, v)
  /\ exists best,
       search fmp fms primary data (none_competitor args) = Ok best
       /\ best ∈ candidates primary data.
Proof.
  intros Horder Hruns Hin Hall Hex Hnonempty.
  destruct (none_competitor_below fmp fms args k v Horder Hruns Hall Hex)
    as (Hnone & Hv & Hbelow).
  split.
  - destruct (challenge_rated fmp fms (none_competitor args) k v Hnone Hv)
      as [[_ H]|[H _]]; [exact H | contradiction].
  - destruct (search_first_maximum fmp fms primary data (none_competitor args))
      as (best & Hs & [[_ Hmax]|(before & after & Hc & _)]).
    + exact Hnone.
    + intros c Hc. apply rated_nonempty; [exact Horder | apply Hnonempty, Hc].
    + exfalso. apply (Hmax (k, v) Hin). exact Hbelow.
    + exists best. split; [exact Hs|]. rewrite Hc.
      apply elem_of_app. right. left.
Qed.

(** C3, as the code has it. The running best starts as the entry
    [("NONE", [0] * expected_runs)]. With [expected_runs >= 1], an item of
    another fuzzer whose sample has no negative value and at least one
    positive value replaces that entry when it is compared with it, by
    the median first or by the mean first; and when every sample of
    another fuzzer is non-empty, the search of [test_best_competitor] and
    that of [perc_difference] end on an entry of the sample set, not on
    the initial one. *)
Theorem none_competitor_replaced (args : Namespace) (data : Dict)
    (primary k : string) (v : Sample) :
  1 <= expected_runs args ->
  (k, v) ∈ candidates primary data ->
  Forall (Z.le 0) v -> Exists (Z.lt 0) v ->
  (forall c, c ∈ candidates primary data -> c.2 <> []) ->
  none_competitor args
  = ("NONE"%string, replicate (Z.to_nat (expected_runs args)) 0)
  /\ challenge Py.median Py.mean (none_competitor args) k v = Ok (k, v)
  /\ challenge Py.mean Py.median (none_competitor args) k v = Ok (k, v)
  /\ (exists best,
        search Py.median Py.mean primary data (none_competitor args) = Ok best
        /\ best ∈ candidates primary data)
  /\ (has_key primary data = true ->
      exists best,
        perc_difference_best_competitor data primary args = Ok (Some best)
        /\ best ∈ candidates primary data).
Proof.
  intros Hruns Hin Hall Hex Hnonempty. split; [reflexivity|].
  destruct (search_replaces_none Py.median Py.mean args data primary k v)
    as [H1 (b1 & Hs1 & Hb1)]; auto.
  destruct (search_replaces_none Py.mean Py.median args data primary k v)
    as [H2 (b2 & Hs2 & Hb2)]; auto.
  split; [exact H1|]. split; [exact H2|]. split; [eauto|].
  intros Hkey. unfold perc_difference_best_competitor. rewrite Hkey.
  destruct (use_mean args); cbn [negb].
  - exists b2. rewrite Hs2. split; [reflexivity | exact Hb2].
  - exists b1. rewrite Hs1. split; [reflexivity | exact Hb1].
Qed.

Lemma none_competitor_replaced_witness :
  none_competitor example_args = ("NONE"%string, [0; 0; 0])
  /\ challenge Py.median Py.mean (none_competitor example_args)
               "aflpp" [1000; 1001; 1002]
     = Ok ("aflpp"%string, [1000; 1001; 1002])
  /\ challenge Py.mean Py.median (none_competitor example_args)
               "aflpp" [1000; 1001; 1002]
     = Ok ("aflpp"%string, [1000; 1001; 1002])
  /\ (exists best,
        search Py.median Py.mean "new_fuzzer" example_two_fuzzers
               (none_competitor example_args) = Ok best
        /\ best ∈ candidates "new_fuzzer" example_two_fuzzers)
  /\ (has_key "new_fuzzer" example_two_fuzzers = true ->
      exists best,
        perc_difference_best_competitor example_two_fuzzers "new_fuzzer"
                                        example_args = Ok (Some best)
        /\ best ∈ candidates "new_fuzzer" example_two_fuzzers).
Proof.
  apply (none_competitor_replaced example_args example_two_fuzzers
           "new_fuzzer" "aflpp" [1000; 1001; 1002]).
  - cbn. lia.
  - unfold candidates, example_two_fuzzers. cbn. constructor.
  - repeat constructor; lia.
  - constructor. lia.
  - intros c Hc. unfold candidates, example_two_fuzzers in Hc. cbn in Hc.
    rewrite elem_of_cons, elem_of_nil in Hc. destruct Hc as [->|[]].
    discriminate.
Defined.

End Search.

(** * Further properties *)

(** ** The effect size *)

Lemma count_Permutation (f : Z -> bool) (ys ys' : list Z) :
  ys ≡ₚ ys' -> count f ys = count f ys'.
Proof.
  induction 1 as [|y ys ys' _ IH|x y ys|ys1 ys2 ys3 _ IH1 _ IH2]; simpl.
  - reflexivity.
  - rewrite IH. reflexivity.
  - lia.
  - congruence.
Qed.

Lemma pairs_Permutation (R : Z -> Z -> bool) (xs xs' ys ys' : list Z) :
  xs ≡ₚ xs' -> ys ≡ₚ ys' -> pairs R xs ys = pairs R xs' ys'.
Proof.
  intros Hxs Hys. transitivity (pairs R xs ys').
  - clear Hxs. induction xs as [|x xs IH]; simpl; [reflexivity|].
    rewrite IH, (count_Permutation _ _ _ Hys). reflexivity.
  - clear Hys.
    induction Hxs as [|x xs xs' _ IH|x y xs|xs1 xs2 xs3 _ IH1 _ IH2]; simpl.
    + reflexivity.
    + rewrite IH. reflexivity.
    + lia.
    + congruence.
Qed.

(** The effect size does not depend on the order of the runs: a
    permutation of the baseline sample or of the tweak sample leaves the
    result of [a12] as it is, an exception included. *)
Theorem a12_permutation_invariant (baseline baseline' tweak tweak' : Sample) :
  baseline ≡ₚ baseline' -> tweak ≡ₚ tweak' ->
  A12.a12 baseline tweak = A12.a12 baseline' tweak'.
Proof.
  intros Hb Ht. unfold A12.a12, len.
  rewrite !cross_compare_counts.
  rewrite (pairs_Permutation Z.gtb _ _ _ _ Ht Hb).
  rewrite (pairs_Permutation Z.eqb _ _ _ _ Ht Hb).
  rewrite (Permutation_length Hb), (Permutation_length Ht). reflexivity.
Qed.

Lemma a12_permutation_invariant_witness :
  A12.a12 [3; 1; 2] [5; 0; 2] = A12.a12 [1; 2; 3] [0; 2; 5].
Proof.
  apply a12_permutation_invariant.
  - apply (Permutation_trans (l' := [1; 3; 2])); [apply perm_swap|].
    apply perm_skip, perm_swap.
  - apply (Permutation_trans (l' := [0; 5; 2])); [apply perm_swap|].
    apply perm_skip, perm_swap.
Defined.

(** The counters of [a12] as rationals. *)
Lemma counters_Q (baseline tweak : Sample) :
  let more := inject_Z (pairs Z.gtb tweak baseline) in
  let same := inject_Z (pairs Z.eqb tweak baseline) in
  let less := inject_Z (pairs Z.ltb tweak baseline) in
  let n := inject_Z (len baseline * len tweak) in
  (0 <= more /\ 0 <= same /\ 0 <= less /\ more + same + less == n)%Q.
Proof.
  cbv zeta.
  pose proof (pairs_nonneg Z.gtb tweak baseline) as H1.
  pose proof (pairs_nonneg Z.eqb tweak baseline) as H2.
  pose proof (pairs_nonneg Z.ltb tweak baseline) as H3.
  pose proof (pairs_trichotomy tweak baseline) as H4.
  rewrite (Z.mul_comm (len tweak)) in H4.
  rewrite <- H4, !inject_Z_plus.
  change 0%Q with (inject_Z 0). rewrite <- !Zle_Qle.
  repeat split; auto; reflexivity.
Qed.

Lemma product_pos (baseline tweak : Sample) :
  length baseline = length tweak -> baseline <> [] ->
  (0 < inject_Z (len baseline * len tweak))%Q.
Proof.
  intros Hlen Hne. change 0%Q with (inject_Z 0). rewrite <- Zlt_Qlt.
  unfold len. rewrite <- Hlen. destruct baseline; [congruence|].
  simpl length. lia.
Qed.

(** For samples of equal length that are not empty, the effect size is
    between 0 and 1, as the docstring of [a12] says. *)
Theorem a12_bounds (baseline tweak : Sample) :
  length baseline = length tweak -> baseline <> [] ->
  exists e, A12.a12 baseline tweak = Ok e /\ (0 <= e <= 1)%Q.
Proof.
  intros Hlen Hne. eexists. split; [apply a12_value; assumption|].
  destruct (counters_Q baseline tweak) as (Hm & Hs & Hl & Hsum).
  pose proof (product_pos baseline tweak Hlen Hne) as Hn.
  split.
  - apply Qle_shift_div_l; [exact Hn|]. lra.
  - apply Qle_shift_div_r; [exact Hn|]. lra.
Qed.

Lemma a12_bounds_witness :
  exists e, A12.a12 example_baseline example_tweak = Ok e /\ (0 <= e <= 1)%Q.
Proof.
  apply (a12_bounds example_baseline example_tweak); [reflexivity|discriminate].
Defined.

Lemma Qdiv_eq (a n c : Q) : ~ (n == 0)%Q -> (a == c * n)%Q -> (a / n == c)%Q.
Proof. intros Hn Ha. rewrite Ha. field. exact Hn. Qed.

Lemma effect_size_categorization_proper (e e' : Q) :
  (e == e')%Q ->
  A12.effect_size_categorization e = A12.effect_size_categorization e'.
Proof.
  intros He. unfold A12.effect_size_categorization, Qgtb, Qltb.
  assert (Hl : forall c, Qle_bool e c = Qle_bool e' c)
    by (intros c; rewrite He; reflexivity).
  assert (Hr : forall c, Qle_bool c e = Qle_bool c e')
    by (intros c; rewrite He; reflexivity).
  assert (Hq : forall c, Qeq_bool e c = Qeq_bool e' c)
    by (intros c; rewrite He; reflexivity).
  rewrite !Hl, !Hr, !Hq. reflexivity.
Qed.

(** A sample that is not empty, compared with itself, has the effect
    size one half, which is in the neutral category. *)
Theorem a12_self (data : Sample) :
  data <> [] ->
  exists e, A12.a12 data data = Ok e /\ (e == 1 # 2)%Q
            /\ A12.effect_size_categorization e = Ok "  "%string.
Proof.
  intros Hne. eexists. split; [apply a12_value; [reflexivity|assumption]|].
  destruct (counters_Q data data) as (Hm & Hs & Hl & Hsum).
  pose proof (product_pos data data eq_refl Hne) as Hn.
  assert (Hswap : pairs Z.ltb data data = pairs Z.gtb data data).
  { rewrite pairs_swap. apply pairs_ext. intros x y. symmetry. apply Z.gtb_ltb. }
  rewrite Hswap in Hsum.
  assert (He : ((inject_Z (pairs Z.gtb data data)
         + (1 # 2) * inject_Z (pairs Z.eqb data data))
        / inject_Z (len data * len data) == 1 # 2)%Q).
  { apply Qdiv_eq; lra. }
  split; [exact He|].
  rewrite (effect_size_categorization_proper _ _ He). reflexivity.
Qed.

Lemma a12_self_witness :
  exists e, A12.a12 example_tweak example_tweak = Ok e /\ (e == 1 # 2)%Q
            /\ A12.effect_size_categorization e = Ok "  "%string.
Proof. apply (a12_self example_tweak). discriminate. Defined.

Lemma count_all (f : Z -> bool) (ys : list Z) :
  (forall y, y ∈ ys -> f y = true) -> count f ys = len ys.
Proof.
  unfold len. induction ys as [|y ys IH]; intros H; simpl count; simpl length.
  - reflexivity.
  - rewrite (H y) by left. rewrite IH by (intros z Hz; apply H; right; exact Hz).
    lia.
Qed.

Lemma count_none (f : Z -> bool) (ys : list Z) :
  (forall y, y ∈ ys -> f y = false) -> count f ys = 0.
Proof.
  induction ys as [|y ys IH]; intros H; simpl count.
  - reflexivity.
  - rewrite (H y) by left. rewrite IH by (intros z Hz; apply H; right; exact Hz).
    reflexivity.
Qed.

Lemma pairs_all (R : Z -> Z -> bool) (xs ys : list Z) :
  (forall x y, x ∈ xs -> y ∈ ys -> R x y = true) ->
  pairs R xs ys = len xs * len ys.
Proof.
  unfold len. induction xs as [|x xs IH]; intros H; simpl pairs; simpl length.
  - reflexivity.
  - rewrite count_all by (intros y Hy; apply H; [left | exact Hy]).
    rewrite IH by (intros x' y Hx Hy; apply H; [right; exact Hx | exact Hy]).
    unfold len. lia.
Qed.

Lemma pairs_none (R : Z -> Z -> bool) (xs ys : list Z) :
  (forall x y, x ∈ xs -> y ∈ ys -> R x y = false) ->
  pairs R xs ys = 0.
Proof.
  induction xs as [|x xs IH]; intros H; simpl pairs.
  - reflexivity.
  - rewrite count_none by (intros y Hy; apply H; [left | exact Hy]).
    rewrite IH by (intros x' y Hx Hy; apply H; [right; exact Hx | exact Hy]).
    reflexivity.
Qed.

(** When every tweak value is above every baseline value, the effect
    size is 1, large positive; with the two samples exchanged it is 0,
    large negative. *)
Theorem a12_dominance (baseline tweak : Sample) :
  length baseline = length tweak -> baseline <> [] ->
  (forall x y, x ∈ tweak -> y ∈ baseline -> y < x) ->
  (exists e, A12.a12 baseline tweak = Ok e /\ (e == 1)%Q
             /\ A12.effect_size_categorization e = Ok "+L"%string)
  /\ (exists e, A12.a12 tweak baseline = Ok e /\ (e == 0)%Q
                /\ A12.effect_size_categorization e = Ok "-L"%string).
Proof.
  intros Hlen Hne Hdom.
  assert (Hne' : tweak <> [])
    by (intros ->; destruct baseline; [congruence | discriminate]).
  pose proof (product_pos baseline tweak Hlen Hne) as Hn.
  pose proof (product_pos tweak baseline (eq_sym Hlen) Hne') as Hn'.
  split; eexists; (split; [apply a12_value; auto|]).
  - rewrite (pairs_all Z.gtb) by (intros x y Hx Hy; apply Z.gtb_lt; auto).
    rewrite (pairs_none Z.eqb)
      by (intros x y Hx Hy; apply Z.eqb_neq; specialize (Hdom x y Hx Hy); lia).
    rewrite (Z.mul_comm (len tweak)).
    assert (He : ((inject_Z (len baseline * len tweak) + (1 # 2) * inject_Z 0)
                  / inject_Z (len baseline * len tweak) == 1)%Q)
      by (apply Qdiv_eq; [lra | change (inject_Z 0) with 0%Q; lra]).
    split; [exact He|].
    rewrite (effect_size_categorization_proper _ _ He). reflexivity.
  - rewrite (pairs_none Z.gtb)
      by (intros y x Hy Hx; specialize (Hdom x y Hx Hy);
          rewrite Z.gtb_ltb; apply Z.ltb_ge; lia).
    rewrite (pairs_none Z.eqb)
      by (intros y x Hy Hx; apply Z.eqb_neq; specialize (Hdom x y Hx Hy); lia).
    assert (He : ((inject_Z 0 + (1 # 2) * inject_Z 0)
                  / inject_Z (len tweak * len baseline) == 0)%Q)
      by (apply Qdiv_eq; [lra | change (inject_Z 0) with 0%Q; lra]).
    split; [exact He|].
    rewrite (effect_size_categorization_proper _ _ He). reflexivity.
Qed.

Lemma a12_dominance_witness :
  (exists e, A12.a12 [1; 2; 3] [4; 5; 6] = Ok e /\ (e == 1)%Q
             /\ A12.effect_size_categorization e = Ok "+L"%string)
  /\ (exists e, A12.a12 [4; 5; 6] [1; 2; 3] = Ok e /\ (e == 0)%Q
                /\ A12.effect_size_categorization e = Ok "-L"%string).
Proof.
  apply (a12_dominance [1; 2; 3] [4; 5; 6]); [reflexivity|discriminate|].
  intros x y Hx Hy. set_unfold. lia.
Defined.

(** ** The categories of two opposite effect sizes *)

Lemma Qltb_lt (x y : Q) : Qltb x y = true <-> (x < y)%Q.
Proof. unfold Qltb. apply (Qgtb_lt y x). Qed.

Lemma Qltb_not_lt (x y : Q) : Qltb x y = false <-> (y <= x)%Q.
Proof. unfold Qltb. apply (Qgtb_not_lt y x). Qed.

Ltac settle_test :=
  match goal with
  | |- context [if Qgtb ?a ?b then _ else _] =>
      first [ replace (Qgtb a b) with true by (symmetry; apply Qgtb_lt; lra)
            | replace (Qgtb a b) with false by (symmetry; apply Qgtb_not_lt; lra) ]
  | |- context [if Qltb ?a ?b then _ else _] =>
      first [ replace (Qltb a b) with true by (symmetry; apply Qltb_lt; lra)
            | replace (Qltb a b) with false by (symmetry; apply Qltb_not_lt; lra) ]
  | |- context [if Qeq_bool ?a ?b then _ else _] =>
      first [ replace (Qeq_bool a b) with true by (symmetry; apply Qeq_bool_iff; lra)
            | replace (Qeq_bool a b) with false by (symmetry; apply Qeq_bool_false; lra) ]
  end.

Ltac split_test :=
  match goal with
  | |- context [if Qgtb ?a ?b then _ else _] =>
      let H := fresh "H" in
      destruct (Qgtb a b) eqn:H;
      [apply Qgtb_lt in H | apply Qgtb_not_lt in H]
  | |- context [if Qltb ?a ?b then _ else _] =>
      let H := fresh "H" in
      destruct (Qltb a b) eqn:H;
      [apply Qltb_lt in H | apply Qltb_not_lt in H]
  | |- context [if Qeq_bool ?a ?b then _ else _] =>
      let H := fresh "H" in
      destruct (Qeq_bool a b) eqn:H;
      [apply Qeq_bool_iff in H | apply Qeq_bool_false in H]
  end.

Lemma effect_size_categorization_mirror (e : Q) :
  exists category,
    A12.effect_size_categorization e = Ok category
    /\ A12.effect_size_categorization (1 - e) = Ok (mirror category).
Proof.
  unfold A12.effect_size_categorization at 1.
  repeat split_test; try (exfalso; lra);
    eexists; (split; [reflexivity|]);
    unfold A12.effect_size_categorization; repeat settle_test; reflexivity.
Qed.

Lemma a12_swap_sum (A B : Sample) :
  A <> [] -> length A = length B ->
  exists p q : Q,
    A12.a12 A B = Ok p /\ A12.a12 B A = Ok q /\ (q == 1 - p)%Q.
Proof.
  intros Hne Hlen.
  assert (HneB : B <> []) by (intros ->; destruct A; [congruence | discriminate]).
  eexists _, _. split; [apply (a12_value A B Hlen Hne)|].
  split; [apply (a12_value B A (eq_sym Hlen) HneB)|].
  pose proof (cross_compare_swap A B) as Hswap.
  rewrite cross_compare_counts in Hswap.
  injection Hswap as Hmore Hsame. rewrite Hmore, Hsame.
  rewrite (Z.mul_comm (len B) (len A)).
  assert (Hn : len A * len B <> 0).
  { unfold len. destruct A; [congruence|]. destruct B; [congruence|].
    simpl length. lia. }
  pose proof (effect_sizes_sum (pairs Z.gtb B A) (pairs Z.ltb B A)
                (pairs Z.eqb B A) (len A * len B)) as Hsum.
  pose proof (pairs_trichotomy B A) as H.
  lapply Hsum; [clear Hsum; intros Hsum | lia].
  specialize (Hsum Hn). lra.
Qed.

(** Exchanging the two samples of [a12] mirrors the category of the
    effect size: large, medium and small keep their size and change
    their sign, neutral stays neutral. *)
Theorem a12_swap_mirrors_category (A B : Sample) :
  A <> [] -> length A = length B ->
  exists (p q : Q) (category : string),
    A12.a12 A B = Ok p /\ A12.a12 B A = Ok q
    /\ A12.effect_size_categorization p = Ok category
    /\ A12.effect_size_categorization q = Ok (mirror category).
Proof.
  intros Hne Hlen.
  destruct (a12_swap_sum A B Hne Hlen) as (p & q & Hp & Hq & Hpq).
  destruct (effect_size_categorization_mirror p) as (category & Hc & Hm).
  exists p, q, category. repeat split; try assumption.
  rewrite (effect_size_categorization_proper q (1 - p) Hpq). exact Hm.
Qed.

Lemma a12_swap_mirrors_category_witness :
  exists (p q : Q) (category : string),
    A12.a12 example_baseline example_tweak = Ok p
    /\ A12.a12 example_tweak example_baseline = Ok q
    /\ A12.effect_size_categorization p = Ok category
    /\ A12.effect_size_categorization q = Ok (mirror category).
Proof.
  apply (a12_swap_mirrors_category example_baseline example_tweak);
    [discriminate | reflexivity].
Defined.

(** A NaN compares with no float. *)
Lemma SFcompare_nan_r (x : spec_float) : SFcompare x S754_nan = None.
Proof. destruct x as [s|s| |s m e]; try destruct s; reflexivity. Qed.

Lemma SFcompare_refl (x : spec_float) :
  x <> S754_nan -> SFcompare x x = Some Eq.
Proof.
  intros Hx. destruct (SFcompare_antisym x x Hx Hx) as (c & Hc & Hc').
  rewrite Hc in Hc'. rewrite Hc. destruct c; try discriminate. reflexivity.
Qed.

Lemma is_nan_spec (f : float) :
  PrimFloat.is_nan f = true <-> Prim2SF f = S754_nan.
Proof.
  unfold PrimFloat.is_nan. rewrite FloatAxioms.eqb_spec. unfold SFeqb.
  split.
  - intros H. destruct (Prim2SF f) as [s|s| |s m e] eqn:Hf; try reflexivity;
      rewrite SFcompare_refl in H by discriminate; discriminate.
  - intros ->. reflexivity.
Qed.

Lemma float_half_cases_number (f : float) :
  Prim2SF f <> S754_nan ->
  (0.5 <? f)%float = true \/ (f =? 0.5)%float = true
  \/ (f <? 0.5)%float = true.
Proof.
  rewrite !FloatAxioms.ltb_spec, FloatAxioms.eqb_spec.
  unfold SFltb, SFeqb. intros Hf.
  assert (Hh : Prim2SF 0.5 <> S754_nan) by (vm_compute; discriminate).
  destruct (SFcompare_antisym (Prim2SF f) (Prim2SF 0.5) Hf Hh)
    as (c & -> & ->).
  destruct c; cbn [CompOpp]; auto.
Qed.

Lemma float_tests_nan (f c : float) :
  Prim2SF f = S754_nan ->
  (c <? f)%float = false /\ (f <? c)%float = false /\ (f =? c)%float = false.
Proof.
  intros Hf. rewrite !FloatAxioms.ltb_spec, FloatAxioms.eqb_spec.
  unfold SFltb, SFeqb. rewrite Hf, SFcompare_nan_r. auto.
Qed.

(** The ladder of [effect_size_categorization] does not check the range
    of its argument: every rational above 0.71, also one above 1, is
    ["+L"]; every rational below 0.29, also one below 0, is ["-L"]; no
    rational reaches the final [raise]. On binary64 floats the
    [ValueError] is raised exactly for a NaN. *)
Theorem effect_size_categorization_raises_iff_nan :
  (forall e : Q, (71 # 100 < e)%Q ->
                 A12.effect_size_categorization e = Ok "+L"%string)
  /\ (forall e : Q, (e < 29 # 100)%Q ->
                    A12.effect_size_categorization e = Ok "-L"%string)
  /\ (forall e : Q, A12.effect_size_categorization e <> Raise ValueError)
  /\ (forall f : float,
        Binary64.effect_size_categorization f = Raise ValueError
        <-> PrimFloat.is_nan f = true)
  /\ Binary64.effect_size_categorization 1.5 = Ok "+L"%string
  /\ Binary64.effect_size_categorization (-0.25) = Ok "-L"%string.
Proof.
  split; [|split; [|split; [|split]]].
  - intros e He. unfold A12.effect_size_categorization.
    settle_test. reflexivity.
  - intros e He. unfold A12.effect_size_categorization.
    repeat settle_test. reflexivity.
  - intros e. destruct (effect_size_categorization_total e) as [c ->].
    discriminate.
  - intros f. rewrite is_nan_spec. split.
    + intros Hraise.
      destruct (Prim2SF f) as [s|s| |s m ex] eqn:Hf; try reflexivity; exfalso.
      all: assert (Hn : Prim2SF f <> S754_nan) by (rewrite Hf; discriminate).
      all: revert Hraise; unfold Binary64.effect_size_categorization.
      all: destruct (float_half_cases_number f Hn) as [H|[H|H]]; rewrite ?H.
      all: repeat match goal with
                  | |- context [if ?c then _ else _] => destruct c
                  end; discriminate.
    + intros Hf. unfold Binary64.effect_size_categorization.
      destruct (float_tests_nan f 0.71 Hf) as (-> & _ & _).
      destruct (float_tests_nan f 0.64 Hf) as (-> & _ & _).
      destruct (float_tests_nan f 0.56 Hf) as (-> & _ & _).
      destruct (float_tests_nan f 0.50 Hf) as (-> & -> & ->).
      destruct (float_tests_nan f 0.29 Hf) as (_ & -> & _).
      destruct (float_tests_nan f 0.36 Hf) as (_ & -> & _).
      destruct (float_tests_nan f 0.44 Hf) as (_ & -> & _).
      reflexivity.
  - split; reflexivity.
Qed.

(** ** The checks of the data *)

Lemma contains_ties_NoDup (data : Sample) :
  Utils.contains_ties data = false <-> NoDup data.
Proof.
  rewrite contains_ties_false, has_tie_NoDup.
  split; [apply dec_stable | auto].
Qed.

Lemma contains_overlaps_common (data_a data_b : Sample) :
  Utils.contains_overlaps data_a data_b = true
  <-> exists x, x ∈ data_a /\ x ∈ data_b.
Proof.
  unfold Utils.contains_overlaps, Py.set. rewrite Z.gtb_lt. split.
  - intros Hsize.
    destruct (size_pos_elem_of (list_to_set data_a ∩ list_to_set data_b
                                : gset Z)) as [x Hx]; [lia|].
    apply elem_of_intersection in Hx as [Ha Hb].
    rewrite elem_of_list_to_set in Ha, Hb. eauto.
  - intros (x & Ha & Hb).
    assert (Hx : x ∈ (list_to_set data_a ∩ list_to_set data_b : gset Z))
      by (apply elem_of_intersection; rewrite !elem_of_list_to_set; auto).
    assert (Hne : size (list_to_set data_a ∩ list_to_set data_b : gset Z) <> 0%nat).
    { intros H0. apply size_empty_inv in H0. apply H0 in Hx.
      exact (not_elem_of_empty x Hx). }
    lia.
Qed.

Lemma contains_ties_app (data_a data_b : Sample) :
  Utils.contains_ties (data_a ++ data_b)
  = Utils.contains_ties data_a || Utils.contains_ties data_b
    || Utils.contains_overlaps data_a data_b.
Proof.
  destruct (Utils.contains_ties (data_a ++ data_b)) eqn:Hab.
  - symmetry.
    destruct (Utils.contains_ties data_a) eqn:Ha; [reflexivity|].
    destruct (Utils.contains_ties data_b) eqn:Hb; [reflexivity|].
    apply contains_ties_NoDup in Ha, Hb. simpl.
    destruct (Utils.contains_overlaps data_a data_b) eqn:Ho; [reflexivity|].
    exfalso. assert (Hnd : NoDup (data_a ++ data_b)).
    { apply NoDup_app. split; [exact Ha|]. split; [|exact Hb].
      intros x Hx Hx'.
      assert (Hc : Utils.contains_overlaps data_a data_b = true)
        by (apply contains_overlaps_common; eauto).
      congruence. }
    apply contains_ties_NoDup in Hnd. congruence.
  - apply contains_ties_NoDup, NoDup_app in Hab as (Ha & Hdisj & Hb).
    apply contains_ties_NoDup in Ha, Hb. rewrite Ha, Hb. simpl. symmetry.
    destruct (Utils.contains_overlaps data_a data_b) eqn:Ho; [|reflexivity].
    apply contains_overlaps_common in Ho as (x & Hx & Hx').
    exfalso. exact (Hdisj x Hx Hx').
Qed.

(** [validate_datasets] returns [True] exactly when no value occurs
    twice in the two samples taken together: its first two checks are
    contained in the third. The concatenation has a tie exactly when one
    of the samples has a tie or the two samples overlap, and
    [contains_overlaps] holds exactly of samples with a common value. *)
Theorem validate_datasets_spec (data_a data_b : Sample) :
  Utils.validate_datasets data_a data_b
  = negb (Utils.contains_ties (data_a ++ data_b))
  /\ (Utils.validate_datasets data_a data_b = true <-> NoDup (data_a ++ data_b))
  /\ Utils.contains_ties (data_a ++ data_b)
     = Utils.contains_ties data_a || Utils.contains_ties data_b
       || Utils.contains_overlaps data_a data_b
  /\ (Utils.contains_overlaps data_a data_b = true
      <-> exists x, x ∈ data_a /\ x ∈ data_b).
Proof.
  assert (H : Utils.validate_datasets data_a data_b
              = negb (Utils.contains_ties (data_a ++ data_b))).
  { unfold Utils.validate_datasets. rewrite contains_ties_app.
    destruct (Utils.contains_ties data_a), (Utils.contains_ties data_b),
      (Utils.contains_overlaps data_a data_b); reflexivity. }
  split; [exact H|].
  split; [|split; [apply contains_ties_app | apply contains_overlaps_common]].
  rewrite H, negb_true_iff. apply contains_ties_NoDup.
Qed.

Lemma num_ties_cons (x : Z) (data : Sample) :
  Utils.num_ties (x :: data)
  = Utils.num_ties data + (if bool_decide (x ∈ data) then 1 else 0).
Proof.
  unfold Utils.num_ties, len. rewrite size_set_cons. simpl length.
  destruct (decide (x ∈ data)) as [Hx|Hx].
  - rewrite (bool_decide_eq_true_2 _ Hx). lia.
  - rewrite (bool_decide_eq_false_2 _ Hx). lia.
Qed.

Lemma size_set_pos (data : Sample) :
  data <> [] -> (0 < size (Py.set data))%nat.
Proof.
  induction data as [|x data IH]; intros Hne; [congruence|].
  rewrite size_set_cons. case_decide as Hx; [|lia].
  apply IH. intros ->. inversion Hx.
Qed.

(** [num_ties] counts the occurrences of a value after its first one: it
    is not negative, below the length of data that is not empty, 0 exactly
    for data without repetition, positive exactly when [contains_ties]
    holds, and a value put in front adds 1 exactly when it occurs
    already. *)
Theorem num_ties_spec (data : Sample) :
  0 <= Utils.num_ties data
  /\ Utils.contains_ties data = (Utils.num_ties data >? 0)
  /\ (Utils.num_ties data = 0 <-> NoDup data)
  /\ (data <> [] -> Utils.num_ties data < len data)
  /\ (forall x, Utils.num_ties (x :: data)
                = Utils.num_ties data
                  + (if bool_decide (x ∈ data) then 1 else 0)).
Proof.
  pose proof (size_set_le data) as Hle.
  split; [unfold Utils.num_ties, len; lia|]. split; [|split; [|split]].
  - unfold Utils.contains_ties, Utils.num_ties, len.
    destruct (Z.eqb_spec (Z.of_nat (size (Py.set data)))
                         (Z.of_nat (length data))) as [He|He]; simpl; symmetry.
    + rewrite Z.gtb_ltb. apply Z.ltb_ge. lia.
    + apply Z.gtb_lt. lia.
  - rewrite <- size_set_NoDup. unfold Utils.num_ties, len.
    split; intros H; lia.
  - intros Hne. unfold Utils.num_ties, len.
    pose proof (size_set_pos data Hne). lia.
  - intros x. apply num_ties_cons.
Qed.

Lemma count_cons (e x : Z) (data : Sample) :
  Py.count e (x :: data) = (if e =? x then 1 else 0) + Py.count e data.
Proof.
  unfold Py.count, len. simpl. destruct (e =? x); simpl length; lia.
Qed.

Lemma count_nonneg' (e : Z) (data : Sample) : 0 <= Py.count e data.
Proof. unfold Py.count, len. lia. Qed.

Lemma count_elem_of (e : Z) (data : Sample) : e ∈ data -> 1 <= Py.count e data.
Proof.
  induction data as [|x data IH]; intros He; [inversion He|].
  rewrite count_cons. pose proof (count_nonneg' e data).
  apply elem_of_cons in He as [->|He].
  - rewrite Z.eqb_refl. lia.
  - specialize (IH He). destruct (e =? x); lia.
Qed.

Lemma repeated_value (data : Sample) :
  ~ NoDup data -> exists e, e ∈ data /\ 1 < Py.count e data.
Proof.
  induction data as [|x data IH]; intros Hnd.
  - exfalso. apply Hnd. constructor.
  - destruct (decide (x ∈ data)) as [Hx|Hx].
    + exists x. split; [left|]. rewrite count_cons, Z.eqb_refl.
      pose proof (count_elem_of x data Hx). lia.
    + destruct IH as (e & He & Hc).
      { intros Hnd'. apply Hnd. constructor; assumption. }
      exists e. split; [right; exact He|]. rewrite count_cons.
      destruct (e =? x); lia.
Qed.

Lemma flag_loop (f : Z -> bool) (es : list Z) (is_valid : bool) :
  fold_left (fun is_valid e => if f e then false else is_valid) es is_valid
  = is_valid && forallb (fun e => negb (f e)) es.
Proof.
  revert is_valid. induction es as [|e es IH]; intros is_valid; simpl.
  - rewrite andb_true_r. reflexivity.
  - rewrite IH. destruct (f e), is_valid; reflexivity.
Qed.

(** [validate_data] returns [True] exactly when the data has no 0 and no
    repeated value: when [contains_ties] holds, the inner loop over
    [set(data)] finds a value that occurs more than once. *)
Theorem validate_data_spec (data : Sample) :
  Utils.validate_data data
  = negb (Utils.contains_zero data || Utils.contains_ties data)
  /\ (Utils.validate_data data = true <-> (0 ∉ data) /\ NoDup data).
Proof.
  assert (H : Utils.validate_data data
              = negb (Utils.contains_zero data || Utils.contains_ties data)).
  { unfold Utils.validate_data.
    destruct (Utils.contains_ties data) eqn:Hties.
    - rewrite orb_true_r, flag_loop. simpl negb.
      apply andb_false_iff. right.
      assert (Hnd : ~ NoDup data).
      { intros Hnd. apply contains_ties_NoDup in Hnd. congruence. }
      destruct (repeated_value data Hnd) as (e & He & Hc).
      destruct (forallb _ _) eqn:Hall; [|reflexivity].
      rewrite forallb_forall in Hall.
      assert (Hin : In e (elements (Py.set data))).
      { apply list_elem_of_In, elem_of_elements.
        unfold Py.set. apply elem_of_list_to_set. exact He. }
      specialize (Hall e Hin). apply negb_true_iff in Hall.
      rewrite Z.gtb_ltb in Hall. apply Z.ltb_ge in Hall. lia.
    - rewrite orb_false_r. destruct (Utils.contains_zero data); reflexivity. }
  split; [exact H|]. rewrite H, negb_true_iff, orb_false_iff.
  rewrite contains_ties_NoDup. unfold Utils.contains_zero.
  rewrite bool_decide_eq_false. reflexivity.
Qed.

(** ** The best competitors by rating *)

(** Lookups in a dictionary. *)
Lemma keys_cons {V : Type} (k : string) (v : V) (d : list (string * V)) :
  keys ((k, v) :: d) = k :: keys d.
Proof. reflexivity. Qed.

Lemma get_absent {V : Type} (k : string) (d : list (string * V)) :
  k ∉ keys d -> get k d = Raise KeyError.
Proof.
  induction d as [|[k' v'] d IH]; intros Hk; simpl; [reflexivity|].
  rewrite keys_cons, not_elem_of_cons in Hk. destruct Hk as [Hne Hk].
  apply String.eqb_neq in Hne. rewrite Hne. apply IH, Hk.
Qed.

Lemma get_present {V : Type} (k : string) (d : list (string * V)) :
  k ∈ keys d -> exists v, get k d = Ok v /\ (k, v) ∈ d.
Proof.
  induction d as [|[k' v'] d IH]; intros Hk; [inversion Hk|]. simpl.
  destruct (String.eqb_spec k k') as [->|Hne].
  - exists v'. split; [reflexivity | left].
  - rewrite keys_cons, elem_of_cons in Hk. destruct Hk as [Hk|Hk]; [congruence|].
    destruct (IH Hk) as (v & Hget & Hin). exists v. split; [exact Hget|].
    right. exact Hin.
Qed.

Lemma elem_of_keys {V : Type} (k : string) (v : V) (d : list (string * V)) :
  (k, v) ∈ d -> k ∈ keys d.
Proof. intros H. unfold keys. apply list_elem_of_fmap. exists (k, v). auto. Qed.

Lemma get_NoDup {V : Type} (k : string) (v : V) (d : list (string * V)) :
  NoDup (keys d) -> (k, v) ∈ d -> get k d = Ok v.
Proof.
  induction d as [|[k' v'] d IH]; intros Hnd Hin; [inversion Hin|]. simpl.
  rewrite keys_cons in Hnd. apply NoDup_cons in Hnd as [Hk' Hnd].
  apply elem_of_cons in Hin as [Heq|Hin].
  - injection Heq as -> ->. rewrite String.eqb_refl. reflexivity.
  - destruct (String.eqb_spec k k') as [->|Hne].
    + exfalso. apply Hk'. exact (elem_of_keys _ _ _ Hin).
    + apply IH; assumption.
Qed.

Lemma has_key_true {V : Type} (k : string) (d : list (string * V)) :
  has_key k d = true <-> k ∈ keys d.
Proof. unfold has_key. apply bool_decide_eq_true. Qed.

Lemma has_key_false {V : Type} (k : string) (d : list (string * V)) :
  has_key k d = false <-> k ∉ keys d.
Proof. unfold has_key. apply bool_decide_eq_false. Qed.

Lemma dict_set_fresh {V : Type} (k : string) (v : V) (d : list (string * V)) :
  k ∉ keys d -> dict_set k v d = d ++ [(k, v)].
Proof.
  induction d as [|[k' v'] d IH]; intros Hk; simpl; [reflexivity|].
  rewrite keys_cons, not_elem_of_cons in Hk. destruct Hk as [Hne Hk].
  apply String.eqb_neq in Hne. rewrite Hne, IH by exact Hk. reflexivity.
Qed.

Lemma keys_app {V : Type} (d d' : list (string * V)) :
  keys (d ++ d') = keys d ++ keys d'.
Proof. unfold keys. apply fmap_app. Qed.

Lemma keys_candidates (primary : string) (items : Dict) (k : string) :
  k ∈ keys (candidates primary items) <-> k ∈ keys items /\ k <> primary.
Proof.
  induction items as [|[k' v'] items IH].
  - cbn. rewrite elem_of_nil. tauto.
  - rewrite candidates_cons, keys_cons, elem_of_cons.
    destruct (String.eqb_spec k' primary) as [->|Hne].
    + rewrite IH. split; [tauto|]. intros [[->|H] Hk]; [congruence | tauto].
    + rewrite keys_cons, elem_of_cons, IH. split.
      * intros [->|[H Hk]]; auto.
      * intros [[->|H] Hk]; auto.
Qed.

(** The statistics fail on empty data only. *)
Lemma statistic_defined (method : string) (v : Sample) :
  v <> [] -> statistic method v = Ok (value_of (statistic method) v).
Proof.
  intros Hne. unfold statistic.
  destruct (rated_nonempty Py.median Py.mean v (or_introl (conj eq_refl eq_refl)) Hne)
    as [Hmedian Hmean].
  unfold value_of.
  destruct (String.eqb method "mean").
  - destruct (Py.mean v); [reflexivity | contradiction Hmean; exact I].
  - destruct (Py.median v); [reflexivity | contradiction Hmedian; exact I].
Qed.

Lemma statistic_empty (method : string) :
  statistic method [] = Raise StatisticsError.
Proof. unfold statistic. destruct (String.eqb method "mean"); reflexivity. Qed.

Lemma statistic_raises (method : string) (v : Sample) (e : exn) :
  statistic method v = Raise e -> e = StatisticsError /\ v = [].
Proof.
  destruct v as [|x v].
  - rewrite statistic_empty. intros [= <-]. auto.
  - rewrite (statistic_defined method (x :: v)) by discriminate. discriminate.
Qed.

Lemma rate_ratings (fn : Sample -> result Q) (tweak : string) (items : Dict)
    (ratings : list (string * Q)) :
  NoDup (keys items) ->
  (forall k, k ∈ keys items -> k ∉ keys ratings) ->
  (forall c, c ∈ candidates tweak items -> fn c.2 = Ok (value_of fn c.2)) ->
  Utils.rate fn tweak items ratings
  = Ok (ratings ++ ratings_of fn (candidates tweak items)).
Proof.
  revert ratings.
  induction items as [|[k v] items IH]; intros ratings Hnd Hfresh Hfn.
  - simpl. rewrite app_nil_r. reflexivity.
  - rewrite keys_cons in Hnd. apply NoDup_cons in Hnd as [Hk Hnd].
    rewrite candidates_cons in *. simpl Utils.rate.
    destruct (String.eqb k tweak) eqn:Hkt.
    + apply IH; [exact Hnd | | exact Hfn].
      intros k' Hk'. apply Hfresh. rewrite keys_cons. right. exact Hk'.
    + assert (Hv : fn v = Ok (value_of fn v)) by (apply (Hfn (k, v)); left).
      rewrite Hv. simpl.
      rewrite dict_set_fresh by (apply Hfresh; rewrite keys_cons; left).
      rewrite IH; [| exact Hnd | | intros c Hc; apply Hfn; right; exact Hc].
      * rewrite <- app_assoc. reflexivity.
      * intros k' Hk'. rewrite keys_app, elem_of_app.
        intros [H|H].
        -- apply (Hfresh k'); [rewrite keys_cons; right; exact Hk' | exact H].
        -- cbn in H. apply list_elem_of_singleton in H. congruence.
Qed.

Lemma rate_empty_sample (method : string) (tweak : string) (items : Dict)
    (ratings : list (string * Q)) :
  (exists c, c ∈ candidates tweak items /\ c.2 = []) ->
  Utils.rate (statistic method) tweak items ratings = Raise StatisticsError.
Proof.
  revert ratings. induction items as [|[k v] items IH]; intros ratings (c & Hc & He).
  - inversion Hc.
  - rewrite candidates_cons in Hc. simpl Utils.rate.
    destruct (String.eqb k tweak); [apply IH; eauto|].
    destruct (statistic method v) as [r|e] eqn:Hv; simpl.
    + apply IH. exists c. split; [|exact He].
      apply elem_of_cons in Hc as [->|Hc]; [|exact Hc].
      simpl in He. subst v. rewrite statistic_empty in Hv. discriminate.
    + apply statistic_raises in Hv as [-> _]. reflexivity.
Qed.

(** When a fuzzer other than the focal one has no runs,
    [find_best_competitor] fails with the [StatisticsError] of the
    statistic on empty data, whatever the method and the other fuzzers. *)
Theorem find_best_competitor_empty_sample (tweak : string)
    (fuzzer_to_bbs : Dict) (method : string) :
  (exists c, c ∈ candidates tweak fuzzer_to_bbs /\ c.2 = []) ->
  Utils.find_best_competitor tweak fuzzer_to_bbs method
  = Raise StatisticsError.
Proof.
  intros Hempty. unfold Utils.find_best_competitor.
  fold (statistic method).
  rewrite (rate_empty_sample method tweak fuzzer_to_bbs [] Hempty).
  reflexivity.
Qed.

Lemma find_best_competitor_empty_sample_witness :
  Utils.find_best_competitor "tweak"
    [("tweak"%string, [5; 6; 7]); ("fuzzer-1"%string, [1; 2; 3]);
     ("fuzzer-2"%string, [])] "median"
  = Raise StatisticsError.
Proof.
  apply find_best_competitor_empty_sample.
  exists ("fuzzer-2"%string, []). split; [|reflexivity].
  unfold candidates. cbn. do 2 constructor.
Defined.

(** [max] returns a largest value of the sequence. *)
Lemma max_from_spec (v : Q) (values : list Q) :
  (Py.max_from v values = v \/ Py.max_from v values ∈ values)
  /\ (v <= Py.max_from v values)%Q
  /\ (forall x, x ∈ values -> (x <= Py.max_from v values)%Q).
Proof.
  unfold Py.max_from. revert v.
  induction values as [|x values IH]; intros v; simpl.
  - split; [left; reflexivity|]. split; [lra|]. intros x Hx. inversion Hx.
  - destruct (Qgtb x v) eqn:Hgt.
    + apply Qgtb_lt in Hgt. destruct (IH x) as (Hin & Hle & Hall).
      split; [right; destruct Hin as [->|Hin]; [left | right; exact Hin]|].
      split; [lra|].
      intros y Hy. apply elem_of_cons in Hy as [->|Hy]; [exact Hle | auto].
    + apply Qgtb_not_lt in Hgt. destruct (IH v) as (Hin & Hle & Hall).
      split; [destruct Hin as [Hin|Hin]; [left; exact Hin | right; right; exact Hin]|].
      split; [exact Hle|].
      intros y Hy. apply elem_of_cons in Hy as [->|Hy]; [lra | auto].
Qed.

Lemma max_spec (values : list Q) :
  values <> [] ->
  exists m, Py.max values = Ok m /\ m ∈ values
            /\ forall x, x ∈ values -> (x <= m)%Q.
Proof.
  destruct values as [|v values]; [congruence|]. intros _.
  destruct (max_from_spec v values) as (Hin & Hle & Hall).
  exists (Py.max_from v values). split; [reflexivity|]. split.
  - destruct Hin as [->|Hin]; [left | right; exact Hin].
  - intros x Hx. apply elem_of_cons in Hx as [->|Hx]; auto.
Qed.

Lemma find_best_competitor_maxima (tweak : string) (fuzzer_to_bbs : Dict)
    (method : string) :
  NoDup (keys fuzzer_to_bbs) ->
  candidates tweak fuzzer_to_bbs <> [] ->
  (forall c, c ∈ candidates tweak fuzzer_to_bbs -> c.2 <> []) ->
  exists best,
    Utils.find_best_competitor tweak fuzzer_to_bbs method = Ok best
    /\ best <> []
    /\ (tweak ∉ best)
    /\ forall k,
         k ∈ best
         <-> exists v,
               (k, v) ∈ candidates tweak fuzzer_to_bbs
               /\ forall c, c ∈ candidates tweak fuzzer_to_bbs ->
                            (value_of (statistic method) c.2
                             <= value_of (statistic method) v)%Q.
Proof.
  intros Hnd Hne Hsamples. unfold Utils.find_best_competitor.
  fold (statistic method).
  rewrite (rate_ratings (statistic method) tweak fuzzer_to_bbs []); simpl.
  2: exact Hnd.
  2: intros k _ Hk; inversion Hk.
  2: intros c Hc; apply statistic_defined, Hsamples, Hc.
  set (cands := candidates tweak fuzzer_to_bbs) in *.
  set (fn := statistic method).
  destruct (max_spec (ratings_of fn cands).*2) as (m & -> & Hm & Hmax).
  { destruct cands; [congruence | discriminate]. }
  simpl. eexists. split; [reflexivity|].
  assert (Hbest : forall k,
    k ∈ (List.filter (fun fv : string * Q => Qeq_bool fv.2 m)
                     (ratings_of fn cands)).*1
    <-> exists v, (k, v) ∈ cands /\ (value_of fn v == m)%Q).
  { intros k. rewrite list_elem_of_fmap. split.
    - intros ([k' r] & -> & Hin). apply list_elem_of_In, filter_In in Hin.
      destruct Hin as [Hin Heq]. apply list_elem_of_In in Hin.
      unfold ratings_of in Hin. apply list_elem_of_fmap in Hin.
      destruct Hin as ([k'' v] & [= -> ->] & Hin).
      exists v. split; [exact Hin|]. apply Qeq_bool_iff. exact Heq.
    - intros (v & Hin & Heq). exists (k, value_of fn v). split; [reflexivity|].
      apply list_elem_of_In, filter_In. split.
      + apply list_elem_of_In. unfold ratings_of. apply list_elem_of_fmap.
        exists (k, v). auto.
      + apply Qeq_bool_iff. exact Heq. }
  assert (Hvalues : forall c, c ∈ cands -> (value_of fn c.2 <= m)%Q).
  { intros c Hc. apply Hmax. apply list_elem_of_fmap.
    exists (c.1, value_of fn c.2). split; [reflexivity|].
    unfold ratings_of. apply list_elem_of_fmap. exists c. auto. }
  assert (Hattained : exists k v, (k, v) ∈ cands /\ m = value_of fn v).
  { apply list_elem_of_fmap in Hm as ([k r] & Hr & Hin). simpl in Hr.
    unfold ratings_of in Hin. apply list_elem_of_fmap in Hin.
    destruct Hin as ([k' v] & Heq & Hin). injection Heq as -> ->.
    exists k', v. auto. }
  destruct Hattained as (km & vm & Hinm & Hvm).
  split; [|split].
  - assert (Hk : km ∈ (List.filter (fun fv : string * Q => Qeq_bool fv.2 m)
                                   (ratings_of fn cands)).*1).
    { apply Hbest. exists vm. split; [exact Hinm | rewrite Hvm; reflexivity]. }
    intros Hnil. rewrite Hnil in Hk. inversion Hk.
  - rewrite Hbest. intros (v & Hin & _).
    apply elem_of_keys, keys_candidates in Hin as [_ Hin]. congruence.
  - intros k. rewrite Hbest. split.
    + intros (v & Hin & Heq). exists v. split; [exact Hin|].
      intros c Hc. rewrite Heq. apply Hvalues, Hc.
    + intros (v & Hin & Hall). exists v. split; [exact Hin|].
      apply Qle_antisym; [apply (Hvalues (k, v)), Hin|].
      rewrite Hvm. apply (Hall (km, vm)), Hinm.
Qed.

(** On a dictionary with a fuzzer besides the focal one, all of them with
    runs, [find_best_competitor] returns the names of the fuzzers whose
    rating no other fuzzer exceeds: the list is not empty, it does not
    hold the focal fuzzer, and a name is in it exactly when its sample is
    rated at least as high as every other candidate. *)
Theorem find_best_competitor_spec (tweak : string) (fuzzer_to_bbs : Dict)
    (method : string) :
  NoDup (keys fuzzer_to_bbs) ->
  candidates tweak fuzzer_to_bbs <> [] ->
  (forall c, c ∈ candidates tweak fuzzer_to_bbs -> c.2 <> []) ->
  exists best,
    Utils.find_best_competitor tweak fuzzer_to_bbs method = Ok best
    /\ best <> []
    /\ (tweak ∉ best)
    /\ forall k,
         k ∈ best
         <-> exists v,
               (k, v) ∈ candidates tweak fuzzer_to_bbs
               /\ forall c, c ∈ candidates tweak fuzzer_to_bbs ->
                            (value_of (statistic method) c.2
                             <= value_of (statistic method) v)%Q.
Proof. apply find_best_competitor_maxima. Qed.

Lemma find_best_competitor_spec_witness :
  exists best,
    Utils.find_best_competitor "tweak" example_fuzzer_to_bbs "median" = Ok best
    /\ best <> []
    /\ ("tweak"%string ∉ best)
    /\ forall k,
         k ∈ best
         <-> exists v,
               (k, v) ∈ candidates "tweak" example_fuzzer_to_bbs
               /\ forall c, c ∈ candidates "tweak" example_fuzzer_to_bbs ->
                            (value_of (statistic "median") c.2
                             <= value_of (statistic "median") v)%Q.
Proof.
  apply (find_best_competitor_spec "tweak" example_fuzzer_to_bbs "median").
  - unfold keys, example_fuzzer_to_bbs. cbn.
    repeat (constructor; [set_unfold; intuition discriminate|]). constructor.
  - discriminate.
  - intros c Hc. unfold candidates, example_fuzzer_to_bbs in Hc. cbn in Hc.
    set_unfold. destruct Hc as [->|[->|[->|[]]]]; discriminate.
Defined.

(** ** The comparisons with SciPy *)

Lemma io_bind_ok {A B : Type} (t : list event) (a : A) (k : A -> io B) :
  IO t (Ok a) ≫= k = IO (t ++ calls (k a)) (outcome (k a)).
Proof. simpl. destruct (k a). reflexivity. Qed.

Lemma io_bind_raise {A B : Type} (t : list event) (e : exn) (k : A -> io B) :
  IO t (Raise e) ≫= k = IO t (Raise e).
Proof. reflexivity. Qed.

Lemma mann_whitney_u_unsafe (P : providers) (baseline tweak : Sample)
    (quiet : bool) :
  Utils.mann_whitney_u P baseline tweak true quiet
  = IO [CallMannWhitneyU baseline tweak] (mannwhitneyu P baseline tweak).
Proof.
  unfold Utils.mann_whitney_u, call.
  replace (if negb true then _ else _) with (IO [] (Ok tt) : io unit)
    by (destruct quiet; reflexivity).
  simpl. destruct (mannwhitneyu P baseline tweak) as [[stat p_value]|e];
    reflexivity.
Qed.

Lemma effect_size_field_ok (e : Q) :
  exists category, A12.effect_size_latex_table_field e = Ok (category, e).
Proof.
  unfold A12.effect_size_latex_table_field.
  destruct (effect_size_categorization_total e) as [c ->]. exists c. reflexivity.
Qed.

Lemma a12_ok (baseline tweak : Sample) :
  length baseline = length tweak -> baseline <> [] ->
  exists e, A12.a12 baseline tweak = Ok e.
Proof. intros Hlen Hne. eexists. apply a12_value; assumption. Qed.

Lemma not_raises_ok {A : Type} (r : result A) :
  ~ raises r -> exists a, r = Ok a.
Proof. destruct r as [a|e]; [eauto | intros H; exfalso; apply H; exact I]. Qed.


Lemma compare_against_baseline_items_stop (P : providers) (fuzzer_data : Dict)
    (baseline : string) (base : Sample) (items before after : Dict)
    (c : string * Sample) :
  get baseline fuzzer_data = Ok base ->
  candidates baseline items = before ++ c :: after ->
  (forall b, b ∈ before ->
             length base = length b.2 /\ base <> []
             /\ ~ raises (mannwhitneyu P base b.2)) ->
  length base <> length c.2 ->
  Utils.compare_against_baseline_items P fuzzer_data baseline items
  = IO (baseline_calls base before) (Raise AssertionError).
Proof.
  intros Hbase Hcands Hbefore Hc. revert before Hcands Hbefore.
  induction items as [|[k v] items IH]; intros before Hcands Hbefore.
  - destruct before; discriminate.
  - rewrite candidates_cons in Hcands.
    cbn [Utils.compare_against_baseline_items].
    destruct (String.eqb k baseline); [apply IH; assumption|].
    rewrite Hbase, bind_lift_ok.
    destruct before as [|b before]; simpl in Hcands;
      injection Hcands as Hkv Hcands.
    + subst c. simpl in Hc. rewrite (a12_length_mismatch base v Hc).
      reflexivity.
    + subst b. destruct (Hbefore (k, v)) as (Hlen & Hne & Hmwu); [left|].
      simpl in Hlen, Hmwu.
      destruct (a12_ok base v Hlen Hne) as [e He].
      destruct (effect_size_field_ok e) as [category Hfield].
      destruct (not_raises_ok _ Hmwu) as [answer Hanswer].
      rewrite He, bind_lift_ok, Hfield, bind_lift_ok, bind_lift_ok.
      rewrite mann_whitney_u_unsafe, Hanswer, io_bind_ok.
      rewrite (IH before Hcands) by (intros b Hb; apply Hbefore; right; exact Hb).
      reflexivity.
Qed.

Lemma compare_against_baseline_items_all (P : providers) (fuzzer_data : Dict)
    (baseline : string) (base : Sample) (items : Dict) :
  get baseline fuzzer_data = Ok base ->
  (forall b, b ∈ candidates baseline items ->
             length base = length b.2 /\ base <> []
             /\ ~ raises (mannwhitneyu P base b.2)) ->
  Utils.compare_against_baseline_items P fuzzer_data baseline items
  = IO (baseline_calls base (candidates baseline items)) (Ok tt).
Proof.
  intros Hbase.
  induction items as [|[k v] items IH]; intros Hall; [reflexivity|].
  rewrite candidates_cons in *.
  cbn [Utils.compare_against_baseline_items].
  destruct (String.eqb k baseline); [apply IH; assumption|].
  rewrite Hbase, bind_lift_ok.
  destruct (Hall (k, v)) as (Hlen & Hne & Hmwu); [left|].
  simpl in Hlen, Hmwu.
  destruct (a12_ok base v Hlen Hne) as [e He].
  destruct (effect_size_field_ok e) as [category Hfield].
  destruct (not_raises_ok _ Hmwu) as [answer Hanswer].
  rewrite He, bind_lift_ok, Hfield, bind_lift_ok, bind_lift_ok.
  rewrite mann_whitney_u_unsafe, Hanswer, io_bind_ok.
  rewrite IH by (intros b Hb; apply Hall; right; exact Hb).
  reflexivity.
Qed.

Lemma get_has_key {V : Type} (k : string) (d : list (string * V)) (v : V) :
  get k d = Ok v -> has_key k d = true.
Proof.
  intros Hget. destruct (has_key k d) eqn:Hk; [reflexivity|].
  apply has_key_false, (get_absent k d) in Hk. congruence.
Qed.

(** When the baseline is in the data with a sample that is not empty,
    every other fuzzer has as many runs, and SciPy answers,
    [compare_against_baseline] calls SciPy once for each other fuzzer, in
    the order of the dictionary, with the baseline sample first, and
    returns. *)
Theorem compare_against_baseline_calls (P : providers) (fuzzer_data : Dict)
    (baseline : string) (base : Sample) :
  get baseline fuzzer_data = Ok base ->
  base <> [] ->
  (forall c, c ∈ candidates baseline fuzzer_data ->
             length c.2 = length base
             /\ ~ raises (mannwhitneyu P base c.2)) ->
  Utils.compare_against_baseline P fuzzer_data baseline
  = IO ((fun c : string * Sample => CallMannWhitneyU base c.2)
          <$> candidates baseline fuzzer_data)
       (Ok tt).
Proof.
  intros Hbase Hne Hall. unfold Utils.compare_against_baseline.
  rewrite (get_has_key _ _ _ Hbase). simpl py_assert. rewrite bind_lift_ok.
  apply compare_against_baseline_items_all; [exact Hbase|].
  intros b Hb. destruct (Hall b Hb) as [Hlen Hmwu]. auto.
Qed.

Lemma compare_against_baseline_calls_witness :
  Utils.compare_against_baseline example_providers example_fuzzer_to_bbs
                                 "fuzzer-1"
  = IO ((fun c : string * Sample =>
           CallMannWhitneyU [11377; 11707; 11731; 11899; 12178] c.2)
          <$> candidates "fuzzer-1" example_fuzzer_to_bbs)
       (Ok tt).
Proof.
  apply compare_against_baseline_calls.
  - reflexivity.
  - discriminate.
  - intros c Hc. unfold candidates, example_fuzzer_to_bbs in Hc. cbn in Hc.
    set_unfold. destruct Hc as [->|[->|[->|[]]]]; (split; [reflexivity|]);
      intros H; exact H.
Defined.

(** [compare_against_baseline] stops at the first fuzzer whose number of
    runs differs from the baseline's: the assertion of [a12] fails before
    SciPy is called for that fuzzer, after the calls for the fuzzers
    before it; the fuzzers after it are not compared. *)
Theorem compare_against_baseline_run_mismatch (P : providers)
    (fuzzer_data : Dict) (baseline : string) (base : Sample)
    (before after : Dict) (c : string * Sample) :
  get baseline fuzzer_data = Ok base ->
  base <> [] ->
  candidates baseline fuzzer_data = before ++ c :: after ->
  (forall b, b ∈ before ->
             length b.2 = length base
             /\ ~ raises (mannwhitneyu P base b.2)) ->
  length c.2 <> length base ->
  Utils.compare_against_baseline P fuzzer_data baseline
  = IO ((fun b : string * Sample => CallMannWhitneyU base b.2) <$> before)
       (Raise AssertionError).
Proof.
  intros Hbase Hne Hcands Hbefore Hc.
  unfold Utils.compare_against_baseline.
  rewrite (get_has_key _ _ _ Hbase). simpl py_assert. rewrite bind_lift_ok.
  apply (compare_against_baseline_items_stop P fuzzer_data baseline base
           fuzzer_data before after c Hbase Hcands); [|congruence].
  intros b Hb. destruct (Hbefore b Hb) as [Hlen Hmwu]. auto.
Qed.

Lemma compare_against_baseline_run_mismatch_witness :
  Utils.compare_against_baseline example_providers
    [("aflpp"%string, [1; 2; 3]); ("a"%string, [4; 5; 6]);
     ("b"%string, [7; 8]); ("c"%string, [9; 10; 11])] "aflpp"
  = IO [CallMannWhitneyU [1; 2; 3] [4; 5; 6]] (Raise AssertionError).
Proof.
  apply (compare_against_baseline_run_mismatch example_providers
           [("aflpp"%string, [1; 2; 3]); ("a"%string, [4; 5; 6]);
            ("b"%string, [7; 8]); ("c"%string, [9; 10; 11])] "aflpp"
           [1; 2; 3] [("a"%string, [4; 5; 6])] [("c"%string, [9; 10; 11])]
           ("b"%string, [7; 8])).
  - reflexivity.
  - discriminate.
  - reflexivity.
  - intros b Hb. apply list_elem_of_singleton in Hb as ->.
    split; [reflexivity | intros H; exact H].
  - discriminate.
Defined.

(** The pairs of [itertools.permutations]. *)
Lemma enumerate_elem_of {A : Type} (pool : list A) (i : nat) (a : A) :
  In (i, a) (Py.enumerate pool) -> (i < length pool)%nat /\ a ∈ pool.
Proof.
  unfold Py.enumerate. intros Hin. split.
  - apply in_combine_l, in_seq in Hin. lia.
  - apply in_combine_r in Hin. apply list_elem_of_In. exact Hin.
Qed.

Lemma permutations2_elem_of {A : Type} (pool : list A) (a b : A) :
  (a, b) ∈ Py.permutations2 pool -> a ∈ pool /\ b ∈ pool.
Proof.
  unfold Py.permutations2. intros Hin.
  apply list_elem_of_In, in_flat_map in Hin as ([i a'] & Hi & Hin).
  apply in_flat_map in Hin as ([j b'] & Hj & Hin). simpl in Hin.
  destruct (i =? j)%nat; [inversion Hin|].
  destruct Hin as [[= <- <-]|[]].
  split; [exact (proj2 (enumerate_elem_of _ _ _ Hi))
         | exact (proj2 (enumerate_elem_of _ _ _ Hj))].
Qed.

Lemma others_length {A : Type} (a : A) (i k : nat) (pool : list A) :
  length (List.flat_map
            (fun jb : nat * A => if (i =? jb.1)%nat then [] else [(a, jb.2)])
            (combine (seq k (length pool)) pool))
  = (length pool
     - (if bool_decide (k <= i < k + length pool)%nat then 1 else 0))%nat.
Proof.
  revert k. induction pool as [|b pool IH]; intros k.
  - simpl. reflexivity.
  - simpl length. simpl seq. simpl combine. simpl List.flat_map.
    rewrite length_app, IH. simpl fst.
    destruct (Nat.eqb_spec i k) as [->|Hne]; simpl length.
    + rewrite bool_decide_eq_false_2 by lia.
      rewrite bool_decide_eq_true_2 by lia. lia.
    + destruct (decide (S k <= i < S k + length pool)%nat) as [Hin|Hout].
      * rewrite (bool_decide_eq_true_2 _ Hin).
        rewrite bool_decide_eq_true_2 by lia. lia.
      * rewrite (bool_decide_eq_false_2 _ Hout).
        rewrite bool_decide_eq_false_2 by lia. lia.
Qed.

Lemma flat_map_length_const {A B : Type} (f : A -> list B) (l : list A)
    (c : nat) :
  (forall x, In x l -> length (f x) = c) ->
  length (List.flat_map f l) = (length l * c)%nat.
Proof.
  induction l as [|x l IH]; intros Hf; simpl; [reflexivity|].
  rewrite length_app, (Hf x) by (left; reflexivity).
  rewrite IH by (intros y Hy; apply Hf; right; exact Hy). lia.
Qed.

Lemma permutations2_length {A : Type} (pool : list A) :
  length (Py.permutations2 pool)
  = (length pool * (length pool - 1))%nat.
Proof.
  unfold Py.permutations2.
  rewrite (flat_map_length_const _ _ (length pool - 1)).
  - unfold Py.enumerate. rewrite length_combine, length_seq. f_equal. lia.
  - intros [i a] Hin. apply enumerate_elem_of in Hin as [Hi _].
    unfold Py.enumerate. simpl fst. simpl snd. rewrite others_length.
    rewrite bool_decide_eq_true_2 by lia. reflexivity.
Qed.

Lemma compare_pairwise_pairs_all (P : providers)
    (tuples : list ((string * Sample) * (string * Sample))) :
  (forall p, p ∈ tuples ->
             length p.2.2 = length p.1.2 /\ p.2.2 <> []
             /\ ~ raises (mannwhitneyu P p.2.2 p.1.2)) ->
  Utils.compare_pairwise_pairs P tuples = IO (pairwise_call <$> tuples) (Ok tt).
Proof.
  induction tuples as [|[[tw tws] [bl bls]] tuples IH]; intros Hall;
    [reflexivity|].
  cbn [Utils.compare_pairwise_pairs].
  destruct (Hall ((tw, tws), (bl, bls))) as (Hlen & Hne & Hmwu); [left|].
  simpl in Hlen, Hne, Hmwu.
  destruct (a12_ok _ _ Hlen Hne) as [e He].
  destruct (effect_size_field_ok e) as [category Hfield].
  destruct (not_raises_ok _ Hmwu) as [answer Hanswer].
  cbn [fst snd].
  rewrite He, bind_lift_ok, Hfield, bind_lift_ok.
  rewrite mann_whitney_u_unsafe, Hanswer, io_bind_ok.
  rewrite IH by (intros p Hp; apply Hall; right; exact Hp).
  reflexivity.
Qed.

(** On fuzzers with the same number of runs, not zero, and a SciPy that
    answers, [compare_pairwise] compares every ordered pair of two
    different fuzzers: for [k] fuzzers it makes [k * (k - 1)] calls, each
    with the sample of the baseline of the pair first, and returns. *)
Theorem compare_pairwise_calls (P : providers) (fuzzer_data : Dict) (n : nat) :
  n <> 0%nat ->
  (forall c, c ∈ fuzzer_data -> length c.2 = n) ->
  (forall x y, ~ raises (mannwhitneyu P x y)) ->
  Utils.compare_pairwise P fuzzer_data
  = IO ((fun p : (string * Sample) * (string * Sample) =>
           CallMannWhitneyU p.2.2 p.1.2) <$> Py.permutations2 fuzzer_data)
       (Ok tt)
  /\ length (calls (Utils.compare_pairwise P fuzzer_data))
     = (length fuzzer_data * (length fuzzer_data - 1))%nat
  /\ (forall tw bl, (tw, bl) ∈ Py.permutations2 fuzzer_data ->
                    tw ∈ fuzzer_data /\ bl ∈ fuzzer_data).
Proof.
  intros Hn Hlen Hmwu.
  assert (Hrun : Utils.compare_pairwise P fuzzer_data
                 = IO (pairwise_call <$> Py.permutations2 fuzzer_data) (Ok tt)).
  { unfold Utils.compare_pairwise. apply compare_pairwise_pairs_all.
    intros [tw bl] Hp. apply permutations2_elem_of in Hp as [Htw Hbl].
    simpl. rewrite (Hlen tw Htw), (Hlen bl Hbl).
    split; [reflexivity|]. split; [|apply Hmwu].
    intros Hnil. apply Hn. rewrite <- (Hlen bl Hbl), Hnil. reflexivity. }
  split; [exact Hrun|]. split.
  - rewrite Hrun. simpl calls. rewrite length_fmap. apply permutations2_length.
  - intros tw bl. apply permutations2_elem_of.
Qed.

Lemma compare_pairwise_calls_witness :
  Utils.compare_pairwise example_providers example_two_fuzzers
  = IO ((fun p : (string * Sample) * (string * Sample) =>
           CallMannWhitneyU p.2.2 p.1.2)
          <$> Py.permutations2 example_two_fuzzers)
       (Ok tt)
  /\ length (calls (Utils.compare_pairwise example_providers
                      example_two_fuzzers))
     = (length example_two_fuzzers * (length example_two_fuzzers - 1))%nat
  /\ (forall tw bl, (tw, bl) ∈ Py.permutations2 example_two_fuzzers ->
                    tw ∈ example_two_fuzzers /\ bl ∈ example_two_fuzzers).
Proof.
  apply (compare_pairwise_calls example_providers example_two_fuzzers 3).
  - discriminate.
  - intros c Hc. unfold example_two_fuzzers in Hc.
    set_unfold. destruct Hc as [->|[->|[]]]; reflexivity.
  - intros x y H. exact H.
Defined.

Example compare_pairwise_example :
  calls (Utils.compare_pairwise example_providers example_ties) <> []
  /\ Py.permutations2 [1; 2; 3] = [(1, 2); (1, 3); (2, 1); (2, 3); (3, 1); (3, 2)].
Proof. split; [discriminate | reflexivity]. Qed.

(** The loop of [compare_against_best_competitor] adds one row for each
    competitor. *)
Lemma compare_against_competitors_all (P : providers) (tweak : string)
    (fuzzer_data : Dict) (own : Sample) (best : list string)
    (acc : list (string * Q * Q)) :
  get tweak fuzzer_data = Ok own ->
  (forall comp, comp ∈ best ->
     exists base, get comp fuzzer_data = Ok base
                  /\ length base = length own /\ base <> []
                  /\ ~ raises (mannwhitneyu P base own)) ->
  exists (rows : list (string * Q * Q)) (samples : list Sample),
    Utils.compare_against_competitors P tweak fuzzer_data best acc
    = IO ((fun base => CallMannWhitneyU base own) <$> samples)
         (Ok (acc ++ rows))
    /\ Forall2 (competitor_row P fuzzer_data own) best rows
    /\ Forall2 (fun comp base => get comp fuzzer_data = Ok base) best samples.
Proof.
  intros Hown. revert acc.
  induction best as [|comp best IH]; intros acc Hall.
  - exists [], []. rewrite app_nil_r. repeat split; constructor.
  - destruct (Hall comp) as (base & Hbase & Hlen & Hne & Hmwu); [left|].
    destruct (a12_ok base own Hlen Hne) as [e He].
    destruct (effect_size_field_ok e) as [category Hfield].
    destruct (not_raises_ok _ Hmwu) as [[stat p_val] Hanswer].
    destruct (IH (acc ++ [(comp, p_val, e)])) as (rows & samples & Hrun & Hrows & Hs).
    { intros c Hc. apply Hall. right. exact Hc. }
    exists ((comp, p_val, e) :: rows), (base :: samples).
    split; [|split].
    + cbn [Utils.compare_against_competitors].
      rewrite Hbase, bind_lift_ok, Hown, bind_lift_ok.
      rewrite He, bind_lift_ok, Hfield, !bind_lift_ok.
      rewrite mann_whitney_u_unsafe, Hanswer, io_bind_ok.
      cbn [snd]. rewrite Hrun. cbn [calls outcome].
      rewrite <- app_assoc. reflexivity.
    + constructor; [|exact Hrows]. exists base, stat. auto.
    + constructor; assumption.
Qed.

(** When the focal fuzzer is in the data, every other fuzzer has as many
    runs, and SciPy answers, [compare_against_best_competitor] returns one
    row for each best competitor of [find_best_competitor], in that
    order: the name, the p-value SciPy gave for the competitor's sample
    and the focal sample, and the effect size of [a12] on these two; SciPy
    is called once for each row. *)
Theorem compare_against_best_competitor_rows (P : providers) (tweak : string)
    (fuzzer_data : Dict) (own : Sample) :
  NoDup (keys fuzzer_data) ->
  get tweak fuzzer_data = Ok own ->
  own <> [] ->
  candidates tweak fuzzer_data <> [] ->
  (forall c, c ∈ candidates tweak fuzzer_data ->
             length c.2 = length own
             /\ ~ raises (mannwhitneyu P c.2 own)) ->
  exists (best : list string) (rows : list (string * Q * Q))
         (samples : list Sample),
    Utils.find_best_competitor tweak fuzzer_data "median" = Ok best
    /\ best <> []
    /\ Utils.compare_against_best_competitor P tweak fuzzer_data
       = IO ((fun base => CallMannWhitneyU base own) <$> samples) (Ok rows)
    /\ Forall2 (competitor_row P fuzzer_data own) best rows
    /\ Forall2 (fun comp base => get comp fuzzer_data = Ok base) best samples.
Proof.
  intros Hnd Hown Hne Hcands Hall.
  destruct (find_best_competitor_maxima tweak fuzzer_data "median" Hnd Hcands)
    as (best & Hbest & Hbne & _ & Hmax).
  { intros c Hc. destruct (Hall c Hc) as [Hlen _].
    intros Hnil. apply Hne. destruct own; [reflexivity|].
    rewrite Hnil in Hlen. discriminate. }
  destruct (compare_against_competitors_all P tweak fuzzer_data own best []
              Hown) as (rows & samples & Hrun & Hrows & Hsamples).
  { intros comp Hcomp. apply Hmax in Hcomp as (v & Hin & _).
    destruct (Hall (comp, v) Hin) as [Hlen Hmwu]. simpl in Hlen, Hmwu.
    exists v. split; [|split; [exact Hlen|split; [|exact Hmwu]]].
    - apply get_NoDup; [exact Hnd|].
      unfold candidates in Hin. apply list_elem_of_In, filter_In in Hin.
      apply list_elem_of_In. tauto.
    - intros Hnil. apply Hne. destruct own; [reflexivity|].
      rewrite Hnil in Hlen. discriminate. }
  exists best, rows, samples. split; [exact Hbest|]. split; [exact Hbne|].
  split; [|split; assumption].
  unfold Utils.compare_against_best_competitor.
  rewrite Hbest, bind_lift_ok. exact Hrun.
Qed.

Lemma compare_against_best_competitor_rows_witness :
  exists (best : list string) (rows : list (string * Q * Q))
         (samples : list Sample),
    Utils.find_best_competitor "tweak" example_fuzzer_to_bbs "median" = Ok best
    /\ best <> []
    /\ Utils.compare_against_best_competitor example_providers "tweak"
         example_fuzzer_to_bbs
       = IO ((fun base => CallMannWhitneyU base
                            [12001; 10345; 11453; 11990; 12040]) <$> samples)
            (Ok rows)
    /\ Forall2 (competitor_row example_providers example_fuzzer_to_bbs
                  [12001; 10345; 11453; 11990; 12040]) best rows
    /\ Forall2 (fun comp base => get comp example_fuzzer_to_bbs = Ok base)
               best samples.
Proof.
  apply (compare_against_best_competitor_rows example_providers "tweak"
           example_fuzzer_to_bbs).
  - unfold keys, example_fuzzer_to_bbs. cbn.
    repeat (constructor; [set_unfold; intuition discriminate|]). constructor.
  - reflexivity.
  - discriminate.
  - discriminate.
  - intros c Hc. unfold candidates, example_fuzzer_to_bbs in Hc. cbn in Hc.
    set_unfold. destruct Hc as [->|[->|[->|[]]]]; (split; [reflexivity|]);
      intros H; exact H.
Defined.

(** When the focal fuzzer is not in the data, the best competitor is
    still found among the fuzzers present, and
    [compare_against_best_competitor] then fails with a [KeyError] on the
    lookup of the focal sample, before SciPy is called. *)
Theorem compare_against_best_competitor_missing_tweak (P : providers)
    (tweak : string) (fuzzer_data : Dict) :
  NoDup (keys fuzzer_data) ->
  tweak ∉ keys fuzzer_data ->
  fuzzer_data <> [] ->
  (forall c, c ∈ fuzzer_data -> c.2 <> []) ->
  Utils.compare_against_best_competitor P tweak fuzzer_data
  = IO [] (Raise KeyError).
Proof.
  intros Hnd Htweak Hne Hsamples.
  assert (Hcands : candidates tweak fuzzer_data = fuzzer_data).
  { unfold candidates. apply forallb_filter_id, forallb_forall.
    intros [k v] Hin. simpl. apply negb_true_iff, String.eqb_neq. intros ->.
    apply Htweak. apply list_elem_of_In in Hin.
    exact (elem_of_keys _ _ _ Hin). }
  destruct (find_best_competitor_maxima tweak fuzzer_data "median" Hnd)
    as (best & Hbest & Hbne & _ & Hmax); rewrite ?Hcands; auto.
  unfold Utils.compare_against_best_competitor.
  rewrite Hbest, bind_lift_ok.
  destruct best as [|comp best]; [congruence|].
  cbn [Utils.compare_against_competitors].
  destruct (proj1 (Hmax comp)) as (v & Hin & _); [left|].
  rewrite Hcands in Hin.
  rewrite (get_NoDup comp v fuzzer_data Hnd Hin), bind_lift_ok.
  rewrite (get_absent tweak fuzzer_data Htweak). reflexivity.
Qed.

Lemma compare_against_best_competitor_missing_tweak_witness :
  Utils.compare_against_best_competitor example_providers "other"
    example_two_fuzzers
  = IO [] (Raise KeyError).
Proof.
  apply compare_against_best_competitor_missing_tweak.
  - unfold keys, example_two_fuzzers. cbn.
    repeat (constructor; [set_unfold; intuition discriminate|]). constructor.
  - unfold keys, example_two_fuzzers. cbn. set_unfold. intuition discriminate.
  - discriminate.
  - intros c Hc. unfold example_two_fuzzers in Hc. set_unfold.
    destruct Hc as [->|[->|[]]]; discriminate.
Defined.

(** ** The post-hoc results of the R script *)

Section Posthoc.
Import StatisticalTests.

Lemma py_assert_ok (c : bool) : py_assert c = Ok tt <-> c = true.
Proof. destruct c; simpl; split; congruence. Qed.

Lemma result_bind_ok {A B : Type} (r : result A) (k : A -> result B) (b : B) :
  r ≫= k = Ok b <-> exists a, r = Ok a /\ k a = Ok b.
Proof.
  destruct r as [a|e]; simpl.
  - split; [eauto | intros (a' & [= <-] & H); exact H].
  - split; [discriminate | intros (a' & H & _); discriminate].
Qed.

Lemma py_index_ok {A : Type} (l : list A) (i : Z) (a : A) :
  py_index l i = Ok a
  <-> - len l <= i < len l
      /\ l !! Z.to_nat (if i <? 0 then i + len l else i) = Some a.
Proof.
  unfold py_index, len.
  destruct (Z.ltb_spec i 0) as [Hneg|Hpos].
  - destruct (Z.leb_spec 0 (i + Z.of_nat (length l))) as [H1|H1];
      destruct (Z.ltb_spec (i + Z.of_nat (length l)) (Z.of_nat (length l)))
        as [H2|H2]; simpl.
    all: try (split; [discriminate | intros [H _]; lia]).
    destruct (l !! Z.to_nat (i + Z.of_nat (length l))) as [a'|] eqn:Hl.
    + split; [intros [= ->]; split; [lia | reflexivity]
             | intros [_ [= ->]]; reflexivity].
    + split; [discriminate | intros [_ H]; discriminate].
  - destruct (Z.leb_spec 0 i) as [H1|H1]; [|lia].
    destruct (Z.ltb_spec i (Z.of_nat (length l))) as [H2|H2]; simpl.
    + destruct (l !! Z.to_nat i) as [a'|] eqn:Hl.
      * split; [intros [= ->]; split; [lia | reflexivity]
               | intros [_ [= ->]]; reflexivity].
      * split; [discriminate | intros [_ H]; discriminate].
    + split; [discriminate | intros [H _]; lia].
Qed.

Lemma py_index_nat {A : Type} (l : list A) (i : nat) (a : A) :
  py_index l (Z.of_nat i) = Ok a <-> l !! i = Some a.
Proof.
  rewrite py_index_ok. replace (Z.of_nat i <? 0) with false
    by (symmetry; apply Z.ltb_ge; lia).
  rewrite Nat2Z.id. unfold len. split; [tauto|].
  intros H. split; [|exact H]. apply lookup_lt_Some in H. lia.
Qed.

Lemma py_index_defined {A : Type} (l : list A) (i : Z) :
  (exists a, py_index l i = Ok a) <-> - len l <= i < len l.
Proof.
  split.
  - intros [a Ha]. apply py_index_ok in Ha. tauto.
  - intros Hi.
    destruct (lookup_lt_is_Some_2 l (Z.to_nat (if i <? 0 then i + len l else i)))
      as [a Ha].
    { unfold len in *. destruct (i <? 0) eqn:Hneg; lia. }
    exists a. apply py_index_ok. auto.
Qed.

Lemma for_each_ok {A : Type} (body : A -> result unit) (xs : list A) :
  for_each body xs = Ok tt <-> forall x, x ∈ xs -> body x = Ok tt.
Proof.
  induction xs as [|x xs IH]; simpl.
  - split; [intros _ y Hy; inversion Hy | reflexivity].
  - rewrite result_bind_ok. split.
    + intros ([] & Hx & Hxs) y Hy. apply elem_of_cons in Hy as [->|Hy];
        [exact Hx | apply IH; assumption].
    + intros H. exists tt. split; [apply H; left|].
      apply IH. intros y Hy. apply H. right. exact Hy.
Qed.

Lemma parse_posthoc_row_ok (c0 c1 c2 c3 : list Q) (fuzzers : list string)
    (i : nat) :
  (i < length c0)%nat ->
  parse_posthoc_row c0 c1 c2 c3 fuzzers (Z.of_nat i) = Ok tt
  <-> posthoc_row_ok c1 c2 c3 fuzzers i.
Proof.
  intros Hi. unfold parse_posthoc_row, posthoc_row_ok. split.
  - intros H.
    apply result_bind_ok in H as (x1 & Hx1 & H). apply py_index_nat in Hx1.
    apply result_bind_ok in H as ([] & Ha1 & H). apply py_assert_ok in Ha1.
    apply result_bind_ok in H as (x2 & Hx2 & H). apply py_index_nat in Hx2.
    apply result_bind_ok in H as ([] & Ha2 & H). apply py_assert_ok in Ha2.
    apply result_bind_ok in H as (s1 & Hs1 & H).
    apply result_bind_ok in H as (s2 & Hs2 & H).
    apply result_bind_ok in H as (d & Hd & H).
    apply result_bind_ok in H as (s & Hs & _).
    apply py_index_nat, lookup_lt_Some in Hs.
    assert (H1 : exists a, py_index fuzzers (py_int x1 - 1) = Ok a) by eauto.
    assert (H2 : exists a, py_index fuzzers (py_int x2 - 1) = Ok a) by eauto.
    apply py_index_defined in H1, H2.
    exists x1, x2. apply Qeq_bool_iff in Ha1, Ha2.
    repeat split; try assumption; lia.
  - intros (x1 & x2 & Hx1 & Hx2 & Ha1 & Ha2 & H1 & H2 & Hc1).
    apply py_index_nat in Hx1, Hx2. apply Qeq_bool_iff in Ha1, Ha2.
    destruct (proj2 (py_index_defined fuzzers (py_int x1 - 1))) as [s1 Hs1];
      [lia|].
    destruct (proj2 (py_index_defined fuzzers (py_int x2 - 1))) as [s2 Hs2];
      [lia|].
    destruct (lookup_lt_is_Some_2 c0 i Hi) as [d Hd].
    destruct (lookup_lt_is_Some_2 c1 i Hc1) as [s Hs].
    apply py_index_nat in Hd, Hs.
    rewrite Hx1. simpl. rewrite Ha1. simpl. rewrite Hx2. simpl.
    rewrite Ha2. simpl. rewrite Hs1. simpl. rewrite Hs2. simpl.
    rewrite Hd. simpl. rewrite Hs. reflexivity.
Qed.

Lemma parse_posthoc_results_table (c0 c1 c2 c3 : list Q)
    (fuzzers : list string) :
  parse_posthoc_results (RTable [c0; c1; c2; c3]) fuzzers = Ok tt
  <-> (forall dec, dec ∈ c0 -> (dec == 1 \/ dec == 0)%Q)
      /\ (forall i, (i < length c0)%nat -> posthoc_row_ok c1 c2 c3 fuzzers i).
Proof.
  unfold parse_posthoc_results. cbn [rlen nth].
  rewrite !result_bind_ok. split.
  - intros ([] & _ & H). apply result_bind_ok in H as ([] & Hdec & Hrows).
    cbv beta in Hrows. rewrite for_each_ok in Hdec. rewrite for_each_ok in Hrows.
    split.
    + intros dec Hin. specialize (Hdec dec Hin).
      apply py_assert_ok, orb_true_iff in Hdec.
      rewrite !Qeq_bool_iff in Hdec. exact Hdec.
    + intros i Hi. apply (parse_posthoc_row_ok c0); [exact Hi|].
      apply Hrows. apply list_elem_of_fmap. exists i. split; [reflexivity|].
      apply elem_of_seq. lia.
  - intros [Hdec Hrows]. exists tt. split; [reflexivity|].
    apply result_bind_ok. exists tt. rewrite !for_each_ok. split.
    + intros dec Hin. apply py_assert_ok, orb_true_iff.
      rewrite !Qeq_bool_iff. apply Hdec, Hin.
    + intros z Hz. apply list_elem_of_fmap in Hz as (i & -> & Hi).
      apply elem_of_seq in Hi.
      apply parse_posthoc_row_ok; [lia | apply Hrows; lia].
Qed.

(** [parse_posthoc_results] accepts exactly the answers of four columns
    whose decisions are 0 or 1 and whose rows, one for each decision, have
    two sample indices that are whole numbers from [1 - len(fuzzers)] to
    [len(fuzzers)] and a test statistic. An index is decremented and then
    read as a Python index, so an index of 0 or below is not rejected: it
    counts from the end of [fuzzers]. *)
Theorem parse_posthoc_results_accepts (decisions_posthoc : rvalue)
    (fuzzers : list string) :
  parse_posthoc_results decisions_posthoc fuzzers = Ok tt
  <-> exists c0 c1 c2 c3 : list Q,
        decisions_posthoc = RTable [c0; c1; c2; c3]
        /\ (forall dec, dec ∈ c0 -> (dec == 1 \/ dec == 0)%Q)
        /\ (forall i, (i < length c0)%nat ->
                      posthoc_row_ok c1 c2 c3 fuzzers i).
Proof.
  split.
  - intros H.
    destruct decisions_posthoc as [xs|columns].
    + unfold parse_posthoc_results in H.
      destruct (py_assert (rlen (RVec xs) =? 4)); discriminate.
    + assert (Hlen : length columns = 4%nat).
      { unfold parse_posthoc_results in H.
        apply result_bind_ok in H as ([] & Hlen & _).
        apply py_assert_ok, Z.eqb_eq in Hlen. unfold rlen, len in Hlen. lia. }
      destruct columns as [|c0 [|c1 [|c2 [|c3 [|c4 columns]]]]]; try discriminate.
      exists c0, c1, c2, c3. split; [reflexivity|].
      apply parse_posthoc_results_table. exact H.
  - intros (c0 & c1 & c2 & c3 & -> & H). apply parse_posthoc_results_table.
    exact H.
Qed.

Example parse_posthoc_results_example :
  parse_posthoc_results (RTable [[1]; [5 # 2]; [1]; [2]]%Q) ["a"; "b"]%string
  = Ok tt
  /\ parse_posthoc_results (RTable [[1]; [5 # 2]; [0]; [2]]%Q)
                           ["a"; "b"]%string
     = Ok tt
  /\ parse_posthoc_results (RTable [[1]; [5 # 2]; [3]; [2]]%Q)
                           ["a"; "b"]%string
     = Raise IndexError
  /\ parse_posthoc_results (RTable [[2]; [5 # 2]; [1]; [2]]%Q)
                           ["a"; "b"]%string
     = Raise AssertionError
  /\ parse_posthoc_results (RTable [[1]; [5 # 2]; [3 # 2]; [2]]%Q)
                           ["a"; "b"]%string
     = Raise AssertionError.
Proof. repeat split; reflexivity. Qed.

End Posthoc.

(** ** The two-sample comparison *)

Section Twoway.
Import StatisticalTests.

Lemma result_bind_Ok {A B : Type} (a : A) (k : A -> result B) :
  Ok a ≫= k = k a.
Proof. reflexivity. Qed.

Lemma result_bind_Raise {A B : Type} (e : exn) (k : A -> result B) :
  Raise e ≫= k = Raise e.
Proof. reflexivity. Qed.

Lemma twoway_tail (P : providers) (args : Namespace) (f1 f2 : Sample) :
  (call (CallTwoSampleComparison f1 f2) (dec_twosamplecomparison P f1 f2)
   ≫= fun result =>
   lift (py_assert (len result =? 3)) ≫= fun _ =>
   lift (if negb (no_effect_size args)
         then A12.a12 f2 f1 ≫= fun effect_size =>
              A12.effect_size_latex_table_field effect_size ≫= fun _ =>
              Ok tt
         else Ok tt) ≫= fun _ =>
   mret (Qeq_bool (nth 2 result 0%Q) 1))
  = IO [CallTwoSampleComparison f1 f2] (twoway_outcome P args f1 f2).
Proof.
  unfold call, twoway_outcome.
  destruct (dec_twosamplecomparison P f1 f2) as [result|e]; [|reflexivity].
  rewrite io_bind_ok, result_bind_Ok.
  destruct (py_assert (len result =? 3)) as [[]|e];
    [rewrite bind_lift_ok, result_bind_Ok | reflexivity].
  match goal with |- context [lift ?r] => destruct r as [[]|e] end;
    [rewrite bind_lift_ok | reflexivity].
  reflexivity.
Qed.

Lemma test_twoway_pair (P : providers) (script : string)
    (k1 k2 : string) (v1 v2 : Sample) (args : Namespace) :
  k1 <> k2 ->
  (tweak args = k1 ->
   test_twoway P (Some script) [(k1, v1); (k2, v2)] args
   = IO [CallTwoSampleComparison v1 v2] (twoway_outcome P args v1 v2))
  /\ (tweak args = k2 ->
      test_twoway P (Some script) [(k1, v1); (k2, v2)] args
      = IO [CallTwoSampleComparison v2 v1] (twoway_outcome P args v2 v1)).
Proof.
  intros Hne.
  assert (H21 : String.eqb k2 k1 = false)
    by (apply String.eqb_neq; congruence).
  assert (H12 : String.eqb k1 k2 = false)
    by (apply String.eqb_neq; congruence).
  assert (Hget1 : get k1 [(k1, v1); (k2, v2)] = Ok v1)
    by (simpl; rewrite String.eqb_refl; reflexivity).
  assert (Hget2 : get k2 [(k1, v1); (k2, v2)] = Ok v2)
    by (simpl; rewrite H21, String.eqb_refl; reflexivity).
  assert (Hscript : py_assert (bool_decide (is_Some (Some script))) = Ok tt)
    by reflexivity.
  split; intros Htweak; unfold test_twoway; rewrite Htweak, Hscript.
  - replace (has_key k1 [(k1, v1); (k2, v2)]) with true
      by (symmetry; apply bool_decide_eq_true_2; unfold keys; cbn; constructor).
    replace (List.filter (fun k => negb (String.eqb k k1))
                         (keys [(k1, v1); (k2, v2)])) with [k2]
      by (unfold keys; cbn; rewrite String.eqb_refl, H21; reflexivity).
    change (py_assert true) with (Ok tt). change (set_pop [k2]) with (Ok k2).
    rewrite Hget1, !bind_lift_ok, Hget2, bind_lift_ok. apply twoway_tail.
  - replace (has_key k2 [(k1, v1); (k2, v2)]) with true
      by (symmetry; apply bool_decide_eq_true_2; unfold keys; cbn;
          do 2 constructor).
    replace (List.filter (fun k => negb (String.eqb k k2))
                         (keys [(k1, v1); (k2, v2)])) with [k1]
      by (unfold keys; cbn; rewrite String.eqb_refl, H12; reflexivity).
    change (py_assert true) with (Ok tt). change (set_pop [k1]) with (Ok k1).
    rewrite Hget2, !bind_lift_ok, Hget1, bind_lift_ok. apply twoway_tail.
Qed.

Lemma twoway_outcome_decision (P : providers) (args : Namespace)
    (own other : Sample) (s c d : Q) :
  dec_twosamplecomparison P own other = Ok [s; c; d] ->
  no_effect_size args = true \/ (length other = length own /\ own <> []) ->
  twoway_outcome P args own other = Ok (Qeq_bool d 1).
Proof.
  intros Hanswer Heffect. unfold twoway_outcome. rewrite Hanswer. simpl.
  destruct Heffect as [->|[Hlen Hne]]; [reflexivity|].
  destruct (no_effect_size args); [reflexivity|]. simpl.
  assert (Hne' : other <> [])
    by (intros ->; destruct own; [congruence | discriminate]).
  destruct (a12_ok other own Hlen Hne') as [e ->]. simpl.
  destruct (effect_size_field_ok e) as [category ->]. reflexivity.
Qed.

Lemma twoway_outcome_mismatch (P : providers) (args : Namespace)
    (own other : Sample) (s c d : Q) :
  dec_twosamplecomparison P own other = Ok [s; c; d] ->
  no_effect_size args = false ->
  length other <> length own ->
  twoway_outcome P args own other = Raise AssertionError.
Proof.
  intros Hanswer Heffect Hlen. unfold twoway_outcome.
  rewrite Hanswer, Heffect. simpl.
  rewrite (a12_length_mismatch other own Hlen). reflexivity.
Qed.

(** On the data of the focal fuzzer and one other fuzzer, in either
    order, [test_twoway] calls the two-sample comparison once, with the
    focal sample first, and returns whether the third number of the answer
    is 1; the effect size is switched off, or the two samples have the
    same number of runs. *)
Theorem test_twoway_decision (P : providers) (script : string)
    (other_k : string) (own other : Sample) (args : Namespace) (s c d : Q) :
  other_k <> tweak args ->
  dec_twosamplecomparison P own other = Ok [s; c; d] ->
  no_effect_size args = true \/ (length other = length own /\ own <> []) ->
  test_twoway P (Some script) [(tweak args, own); (other_k, other)] args
  = IO [CallTwoSampleComparison own other] (Ok (Qeq_bool d 1))
  /\ test_twoway P (Some script) [(other_k, other); (tweak args, own)] args
     = IO [CallTwoSampleComparison own other] (Ok (Qeq_bool d 1)).
Proof.
  intros Hne Hanswer Heffect.
  rewrite <- (twoway_outcome_decision P args own other s c d Hanswer Heffect).
  split.
  - apply (test_twoway_pair P script (tweak args) other_k own other args);
      congruence.
  - apply (test_twoway_pair P script other_k (tweak args) other own args);
      congruence.
Qed.

Lemma test_twoway_decision_witness :
  test_twoway example_providers (Some "stat"%string)
    [("new_fuzzer"%string, [1111; 1112; 1113]);
     ("aflpp"%string, [1000; 1001; 1002])] example_args
  = IO [CallTwoSampleComparison [1111; 1112; 1113] [1000; 1001; 1002]]
       (Ok (Qeq_bool 0 1))
  /\ test_twoway example_providers (Some "stat"%string)
       [("aflpp"%string, [1000; 1001; 1002]);
        ("new_fuzzer"%string, [1111; 1112; 1113])] example_args
     = IO [CallTwoSampleComparison [1111; 1112; 1113] [1000; 1001; 1002]]
          (Ok (Qeq_bool 0 1)).
Proof.
  apply (test_twoway_decision example_providers "stat" "aflpp"
           [1111; 1112; 1113] [1000; 1001; 1002] example_args (3 # 2) (2 # 1) 0).
  - discriminate.
  - reflexivity.
  - right. split; [reflexivity | discriminate].
Defined.

(** When the two samples differ in their number of runs, [test_twoway]
    calls the two-sample comparison and then fails the assertion of
    [a12]: the decision is lost. With [no_effect_size] set it returns the
    decision. *)
Theorem test_twoway_run_mismatch (P : providers) (script : string)
    (other_k : string) (own other : Sample) (args : Namespace) (s c d : Q) :
  other_k <> tweak args ->
  dec_twosamplecomparison P own other = Ok [s; c; d] ->
  length other <> length own ->
  (no_effect_size args = false ->
   test_twoway P (Some script) [(tweak args, own); (other_k, other)] args
   = IO [CallTwoSampleComparison own other] (Raise AssertionError))
  /\ (no_effect_size args = true ->
      test_twoway P (Some script) [(tweak args, own); (other_k, other)] args
      = IO [CallTwoSampleComparison own other] (Ok (Qeq_bool d 1))).
Proof.
  intros Hne Hanswer Hlen.
  destruct (test_twoway_pair P script (tweak args) other_k own other args)
    as [Hrun _]; [congruence|].
  rewrite (Hrun eq_refl). split; intros Heffect.
  - rewrite (twoway_outcome_mismatch P args own other s c d); auto.
  - rewrite (twoway_outcome_decision P args own other s c d); auto.
Qed.

Lemma test_twoway_run_mismatch_witness :
  (no_effect_size example_args = false ->
   test_twoway example_providers (Some "stat"%string)
     [("new_fuzzer"%string, [1111; 1112; 1113]); ("aflpp"%string, [1000; 1001])]
     example_args
   = IO [CallTwoSampleComparison [1111; 1112; 1113] [1000; 1001]]
        (Raise AssertionError))
  /\ (no_effect_size example_args = true ->
      test_twoway example_providers (Some "stat"%string)
        [("new_fuzzer"%string, [1111; 1112; 1113]);
         ("aflpp"%string, [1000; 1001])] example_args
      = IO [CallTwoSampleComparison [1111; 1112; 1113] [1000; 1001]]
           (Ok (Qeq_bool 0 1))).
Proof.
  apply (test_twoway_run_mismatch example_providers "stat" "aflpp"
           [1111; 1112; 1113] [1000; 1001] example_args (3 # 2) (2 # 1) 0).
  - discriminate.
  - reflexivity.
  - discriminate.
Defined.

(** The failures of [test_twoway]: without the focal fuzzer in the data,
    or without the R script loaded, an [AssertionError] before any call;
    with the focal fuzzer alone in the data, the [KeyError] of [pop] on an
    empty set, before any call; with an answer that does not have three
    numbers, an [AssertionError] after the call. *)
Theorem test_twoway_preconditions (P : providers) (R_Script : option string)
    (data : Dict) (args : Namespace) :
  (has_key (tweak args) data = false ->
   test_twoway P R_Script data args = IO [] (Raise AssertionError))
  /\ (R_Script = None ->
      test_twoway P R_Script data args = IO [] (Raise AssertionError))
  /\ (forall script own,
        R_Script = Some script -> data = [(tweak args, own)] ->
        test_twoway P R_Script data args = IO [] (Raise KeyError))
  /\ (forall script other_k own other answer,
        R_Script = Some script ->
        data = [(tweak args, own); (other_k, other)] ->
        other_k <> tweak args ->
        dec_twosamplecomparison P own other = Ok answer ->
        length answer <> 3%nat ->
        test_twoway P R_Script data args
        = IO [CallTwoSampleComparison own other] (Raise AssertionError)).
Proof.
  split; [|split; [|split]].
  - intros Hkey. unfold test_twoway. rewrite Hkey. reflexivity.
  - intros ->. unfold test_twoway.
    destruct (py_assert (has_key (tweak args) data)) as [[]|e] eqn:Hkey.
    + rewrite bind_lift_ok. reflexivity.
    + destruct (has_key (tweak args) data); [discriminate|].
      injection Hkey as <-. reflexivity.
  - intros script own -> ->. unfold test_twoway.
    replace (has_key (tweak args) [(tweak args, own)]) with true
      by (symmetry; apply bool_decide_eq_true_2; unfold keys; cbn; constructor).
    change (py_assert true) with (Ok tt).
    change (py_assert (bool_decide (is_Some (Some script)))) with (Ok tt).
    rewrite !bind_lift_ok. cbn [get]. rewrite String.eqb_refl, bind_lift_ok.
    unfold keys. cbn [fmap list_fmap fst List.filter].
    rewrite String.eqb_refl. reflexivity.
  - intros script other_k own other answer -> -> Hne Hanswer Hlen.
    destruct (test_twoway_pair P script (tweak args) other_k own other args)
      as [Hrun _]; [congruence|].
    rewrite (Hrun eq_refl). unfold twoway_outcome. rewrite Hanswer. simpl.
    replace (len answer =? 3) with false; [reflexivity|].
    symmetry. apply Z.eqb_neq. unfold len. lia.
Qed.

End Twoway.

(** ** The best competitor and the ANOVA *)

Section BestCompetitor.
Import StatisticalTests.

Lemma candidates_elem_of (primary : string) (items : Dict)
    (c : string * Sample) :
  c ∈ candidates primary items <-> c ∈ items /\ c.1 <> primary.
Proof.
  unfold candidates. rewrite !list_elem_of_In, filter_In.
  rewrite negb_true_iff, String.eqb_neq. reflexivity.
Qed.

Lemma none_competitor_rated (fmp fms : Sample -> result Q) (args : Namespace) :
  (fmp = Py.median /\ fms = Py.mean) \/ (fmp = Py.mean /\ fms = Py.median) ->
  1 <= expected_runs args ->
  rated fmp fms (none_competitor args).2.
Proof.
  intros Horder Hruns. apply rated_nonempty; [exact Horder|].
  unfold none_competitor, Py.zeros. simpl.
  destruct (Z.to_nat (expected_runs args)) eqn:Hn; [lia | discriminate].
Qed.

(** The search ends on the initial entry or on a candidate. *)
Lemma search_result (fmp fms : Sample -> result Q) (args : Namespace)
    (data : Dict) (primary : string) :
  (fmp = Py.median /\ fms = Py.mean) \/ (fmp = Py.mean /\ fms = Py.median) ->
  1 <= expected_runs args ->
  (forall c, c ∈ candidates primary data -> c.2 <> []) ->
  exists best,
    search fmp fms primary data (none_competitor args) = Ok best
    /\ first_maximum fmp fms (candidates primary data) (none_competitor args)
                     best
    /\ (best = none_competitor args \/ best ∈ candidates primary data).
Proof.
  intros Horder Hruns Hsamples.
  destruct (search_first_maximum fmp fms primary data (none_competitor args))
    as (best & Hs & Hmax).
  - apply none_competitor_rated; assumption.
  - intros c Hc. apply rated_nonempty; [exact Horder | apply Hsamples, Hc].
  - exists best. split; [exact Hs|]. split; [exact Hmax|].
    destruct Hmax as [[-> _]|(before & after & -> & _)]; [left; reflexivity|].
    right. apply elem_of_app. right. left.
Qed.

Lemma test_best_competitor_run (P : providers) (script : string)
    (data : Dict) (primary : string) (args : Namespace) (own : Sample)
    (best : string * Sample) :
  tweak args = primary ->
  get primary data = Ok own ->
  search Py.median Py.mean primary data (none_competitor args) = Ok best ->
  best.1 <> primary ->
  test_best_competitor P (Some script) data primary args
  = IO [CallTwoSampleComparison own best.2]
       (decision ← twoway_outcome P args own best.2;
        Ok (Some (best.1, best.2, decision))).
Proof.
  intros Htweak Hown Hsearch Hne. unfold test_best_competitor.
  rewrite (get_has_key _ _ _ Hown). cbn [negb].
  rewrite Hsearch, bind_lift_ok, Hown, bind_lift_ok.
  cbn [dict_set].
  replace (String.eqb best.1 primary) with false
    by (symmetry; apply String.eqb_neq; exact Hne).
  destruct (test_twoway_pair P script primary best.1 own best.2 args)
    as [Hrun _]; [congruence|].
  rewrite (Hrun Htweak).
  destruct (twoway_outcome P args own best.2) as [decision|e]; reflexivity.
Qed.

(** [test_best_competitor] with the focal fuzzer as primary one runs the
    two-sample comparison once, on the primary sample and the sample of
    the entry its search ends on, a candidate or the initial ["NONE"]
    entry of zeros; what it returns names that entry, with the decision
    of [test_twoway]. *)
Theorem test_best_competitor_two_sample (P : providers) (script : string)
    (data : Dict) (primary : string) (args : Namespace) (own : Sample) :
  tweak args = primary ->
  primary <> "NONE"%string ->
  get primary data = Ok own ->
  1 <= expected_runs args ->
  (forall c, c ∈ candidates primary data -> c.2 <> []) ->
  exists best,
    search Py.median Py.mean primary data (none_competitor args) = Ok best
    /\ (best = none_competitor args \/ best ∈ candidates primary data)
    /\ calls (test_best_competitor P (Some script) data primary args)
       = [CallTwoSampleComparison own best.2]
    /\ (forall r,
          outcome (test_best_competitor P (Some script) data primary args)
          = Ok r ->
          exists decision, r = Some (best.1, best.2, decision))
    /\ (forall s c d,
          dec_twosamplecomparison P own best.2 = Ok [s; c; d] ->
          no_effect_size args = true
          \/ (length best.2 = length own /\ own <> []) ->
          outcome (test_best_competitor P (Some script) data primary args)
          = Ok (Some (best.1, best.2, Qeq_bool d 1))).
Proof.
  intros Htweak Hnone Hown Hruns Hsamples.
  destruct (search_result Py.median Py.mean args data primary)
    as (best & Hsearch & _ & Hbest); auto.
  assert (Hne : best.1 <> primary).
  { destruct Hbest as [->|Hin]; [simpl; congruence|].
    apply candidates_elem_of in Hin. tauto. }
  exists best. split; [exact Hsearch|]. split; [exact Hbest|].
  rewrite (test_best_competitor_run P script data primary args own best);
    auto.
  cbn [calls outcome]. split; [reflexivity|]. split.
  - intros r Hr. destruct (twoway_outcome P args own best.2) as [decision|e];
      [|discriminate].
    injection Hr as <-. eauto.
  - intros s c d Hanswer Heffect.
    rewrite (twoway_outcome_decision P args own best.2 s c d); auto.
Qed.

Lemma test_best_competitor_two_sample_witness :
  exists best,
    search Py.median Py.mean "new_fuzzer" example_ties
           (none_competitor example_args) = Ok best
    /\ (best = none_competitor example_args
        \/ best ∈ candidates "new_fuzzer" example_ties)
    /\ calls (test_best_competitor example_providers (Some "stat"%string)
                example_ties "new_fuzzer" example_args)
       = [CallTwoSampleComparison [9; 9; 9] best.2]
    /\ (forall r,
          outcome (test_best_competitor example_providers
                     (Some "stat"%string) example_ties "new_fuzzer"
                     example_args)
          = Ok r ->
          exists decision, r = Some (best.1, best.2, decision))
    /\ (forall s c d,
          dec_twosamplecomparison example_providers [9; 9; 9] best.2
          = Ok [s; c; d] ->
          no_effect_size example_args = true
          \/ (length best.2 = length [9; 9; 9] /\ [9; 9; 9] <> []) ->
          outcome (test_best_competitor example_providers
                     (Some "stat"%string) example_ties "new_fuzzer"
                     example_args)
          = Ok (Some (best.1, best.2, Qeq_bool d 1))).
Proof.
  apply (test_best_competitor_two_sample example_providers "stat"
           example_ties "new_fuzzer" example_args [9; 9; 9]).
  - reflexivity.
  - discriminate.
  - reflexivity.
  - cbn. lia.
  - intros c Hc. unfold candidates, example_ties in Hc. cbn in Hc.
    set_unfold. destruct Hc as [->|[->|[->|[->|[]]]]]; discriminate.
Defined.

End BestCompetitor.

Section Anova.
Import StatisticalTests.

Lemma collect_groups_allow (args : Namespace) (items : Dict)
    (fs : list (string * Sample)) :
  allow_missing_runs args = true ->
  collect_groups args items fs
  = Ok (fs ++ List.filter (fun c => complete args c && varied c) items).
Proof.
  intros Hallow. revert fs.
  induction items as [|[k v] items IH]; intros fs; simpl.
  - rewrite app_nil_r. reflexivity.
  - rewrite Hallow. simpl. unfold complete, varied. simpl.
    destruct (len v <? expected_runs args); simpl; [apply IH|].
    destruct (Z.of_nat (size (Py.set v)) <? 3); simpl; [apply IH|].
    rewrite IH, <- app_assoc. reflexivity.
Qed.

Lemma collect_groups_strict (args : Namespace) (items : Dict)
    (fs : list (string * Sample)) :
  allow_missing_runs args = false ->
  collect_groups args items fs
  = if forallb (fun c => len c.2 =? expected_runs args) items
    then Ok (fs ++ List.filter varied items)
    else Raise AssertionError.
Proof.
  intros Hallow. revert fs.
  induction items as [|[k v] items IH]; intros fs; simpl.
  - rewrite app_nil_r. reflexivity.
  - rewrite Hallow. unfold varied. simpl.
    destruct (len v =? expected_runs args); simpl; [|reflexivity].
    destruct (Z.of_nat (size (Py.set v)) <? 3); simpl; [apply IH|].
    rewrite IH, <- app_assoc. reflexivity.
Qed.

(** The loop of [test_data] that collects the groups for the ANOVA is a
    filter. With [allow_missing_runs] it keeps the fuzzers with at least
    [expected_runs] runs and at least three different values (more runs
    than expected are kept); without it, it fails its assertion when a
    fuzzer has another number of runs, and keeps the fuzzers with at
    least three different values otherwise. *)
Theorem collect_groups_filter (args : Namespace) (items : Dict) :
  collect_groups args items []
  = if allow_missing_runs args then
      Ok (List.filter
            (fun c => negb (len c.2 <? expected_runs args)
                      && negb (Z.of_nat (size (Py.set c.2)) <? 3)) items)
    else if forallb (fun c => len c.2 =? expected_runs args) items then
      Ok (List.filter
            (fun c => negb (Z.of_nat (size (Py.set c.2)) <? 3)) items)
    else Raise AssertionError.
Proof.
  destruct (allow_missing_runs args) eqn:Hallow.
  - apply collect_groups_allow, Hallow.
  - apply collect_groups_strict, Hallow.
Qed.

Lemma collect_groups_elem_of (args : Namespace) (items : Dict)
    (fs : list (string * Sample)) :
  collect_groups args items [] = Ok fs ->
  forall c, c ∈ fs -> c ∈ items /\ (3 <= size (Py.set c.2))%nat.
Proof.
  intros Hfs c Hc.
  assert (Hfilter : exists f, fs = List.filter f items
                              /\ forall c, f c = true -> varied c = true).
  { destruct (allow_missing_runs args) eqn:Hallow.
    - rewrite collect_groups_allow in Hfs by exact Hallow.
      injection Hfs as <-. eexists. split; [reflexivity|].
      intros c' Hc'. apply andb_true_iff in Hc'. tauto.
    - rewrite collect_groups_strict in Hfs by exact Hallow.
      match type of Hfs with
      | (if ?b then _ else _) = _ => destruct b; [|discriminate]
      end.
      injection Hfs as <-. eexists. split; [reflexivity|]. auto. }
  destruct Hfilter as (f & -> & Hf).
  apply list_elem_of_In, filter_In in Hc as [Hin Hfc].
  split; [apply list_elem_of_In, Hin|].
  apply Hf in Hfc. unfold varied in Hfc.
  apply negb_true_iff, Z.ltb_ge in Hfc. lia.
Qed.

Lemma test_data_many (P : providers) (script : string) (data : Dict)
    (args : Namespace) :
  (2 < length data)%nat ->
  test_data P (Some script) data args
  = (lift (collect_groups args data []) ≫= fun fs =>
     if len fs <? 2 then mret tt
     else
       call (CallAnova fs) (dec_anova P fs) ≫= fun result =>
       lift (py_assert (len result =? 5)) ≫= fun _ =>
       lift (py_assert (rlen (nth 0 result (RVec [])) =? 1)) ≫= fun _ =>
       lift (py_assert (rlen (nth 1 result (RVec [])) =? 1)) ≫= fun _ =>
       lift (parse_posthoc_results (nth 3 result (RVec [])) (keys fs))
       ≫= fun _ =>
       lift (parse_posthoc_results (nth 4 result (RVec [])) (keys fs))).
Proof.
  intros Hlen. unfold test_data.
  change (py_assert (bool_decide (is_Some (Some script)))) with (Ok tt).
  rewrite bind_lift_ok.
  assert (Hkeys : len (keys data) = Z.of_nat (length data))
    by (unfold len, keys; rewrite length_fmap; reflexivity).
  rewrite Hkeys.
  replace (Z.of_nat (length data) =? 2) with false
    by (symmetry; apply Z.eqb_neq; lia).
  replace (Z.of_nat (length data) >? 2) with true
    by (symmetry; apply Z.gtb_lt; lia).
  reflexivity.
Qed.

Lemma anova_tail_calls (P : providers) (fs : list (string * Sample)) :
  calls (call (CallAnova fs) (dec_anova P fs) ≫= fun result =>
         lift (py_assert (len result =? 5)) ≫= fun _ =>
         lift (py_assert (rlen (nth 0 result (RVec [])) =? 1)) ≫= fun _ =>
         lift (py_assert (rlen (nth 1 result (RVec [])) =? 1)) ≫= fun _ =>
         lift (parse_posthoc_results (nth 3 result (RVec [])) (keys fs))
         ≫= fun _ =>
         lift (parse_posthoc_results (nth 4 result (RVec [])) (keys fs)))
  = [CallAnova fs].
Proof.
  unfold call. destruct (dec_anova P fs) as [result|e]; [|reflexivity].
  rewrite io_bind_ok. cbn [calls]. f_equal.
  repeat (rewrite calls_bind_lift;
          match goal with
          | |- match ?r with Ok _ => _ | Raise _ => [] end = [] =>
              destruct r; [|reflexivity]
          end).
  reflexivity.
Qed.

(** On more than two fuzzers [test_data] never calls the two-sample
    comparison, and calls the ANOVA at most once: with the groups
    collected, at least two, each a fuzzer of the data with at least three
    different values. *)
Theorem test_data_anova (P : providers) (script : string) (data : Dict)
    (args : Namespace) :
  (2 < length data)%nat ->
  (forall f1 f2,
     CallTwoSampleComparison f1 f2
     ∉ calls (test_data P (Some script) data args))
  /\ (calls (test_data P (Some script) data args) = []
      \/ exists fs,
           collect_groups args data [] = Ok fs
           /\ (2 <= length fs)%nat
           /\ (forall c, c ∈ fs -> c ∈ data /\ (3 <= size (Py.set c.2))%nat)
           /\ calls (test_data P (Some script) data args) = [CallAnova fs]).
Proof.
  intros Hlen. rewrite (test_data_many P script data args Hlen).
  rewrite calls_bind_lift.
  destruct (collect_groups args data []) as [fs|e] eqn:Hfs.
  - destruct (Z.ltb_spec (len fs) 2) as [Hfew|Henough].
    + split; [|left; reflexivity]. intros f1 f2 Hin. inversion Hin.
    + rewrite anova_tail_calls. split.
      * intros f1 f2 Hin. apply list_elem_of_singleton in Hin. discriminate.
      * right. exists fs. split; [reflexivity|].
        split; [unfold len in Henough; lia|].
        split; [apply (collect_groups_elem_of args data fs Hfs)|reflexivity].
  - split; [|left; reflexivity]. intros f1 f2 Hin. inversion Hin.
Qed.

Lemma test_data_anova_witness :
  (forall f1 f2,
     CallTwoSampleComparison f1 f2
     ∉ calls (test_data example_providers (Some "stat"%string) example_ties
                example_args))
  /\ (calls (test_data example_providers (Some "stat"%string) example_ties
               example_args) = []
      \/ exists fs,
           collect_groups example_args example_ties [] = Ok fs
           /\ (2 <= length fs)%nat
           /\ (forall c, c ∈ fs ->
                         c ∈ example_ties /\ (3 <= size (Py.set c.2))%nat)
           /\ calls (test_data example_providers (Some "stat"%string)
                       example_ties example_args) = [CallAnova fs]).
Proof.
  apply (test_data_anova example_providers "stat" example_ties example_args).
  cbn. lia.
Defined.

(** [test_data] returns without a provider call when the data has fewer
    than two fuzzers, and when it has more than two of which fewer than
    two are kept as groups. *)
Theorem test_data_not_enough (P : providers) (script : string) (data : Dict)
    (args : Namespace) :
  (length data < 2)%nat
  \/ ((2 < length data)%nat
      /\ exists fs, collect_groups args data [] = Ok fs
                    /\ (length fs < 2)%nat) ->
  test_data P (Some script) data args = IO [] (Ok tt).
Proof.
  intros [Hfew|[Hmany (fs & Hfs & Hgroups)]].
  - unfold test_data.
    change (py_assert (bool_decide (is_Some (Some script)))) with (Ok tt).
    rewrite bind_lift_ok.
    assert (Hkeys : len (keys data) = Z.of_nat (length data))
      by (unfold len, keys; rewrite length_fmap; reflexivity).
    rewrite Hkeys.
    replace (Z.of_nat (length data) =? 2) with false
      by (symmetry; apply Z.eqb_neq; lia).
    replace (Z.of_nat (length data) >? 2) with false
      by (symmetry; rewrite Z.gtb_ltb; apply Z.ltb_ge; lia).
    reflexivity.
  - rewrite (test_data_many P script data args Hmany), Hfs, bind_lift_ok.
    replace (len fs <? 2) with true
      by (symmetry; apply Z.ltb_lt; unfold len; lia).
    reflexivity.
Qed.

Lemma test_data_not_enough_witness :
  test_data example_providers (Some "stat"%string)
    [("a"%string, [1; 2; 3]); ("b"%string, [4; 4; 4]); ("c"%string, [5; 5; 6])]
    example_args
  = IO [] (Ok tt).
Proof.
  apply test_data_not_enough. right. split; [cbn; lia|].
  exists [("a"%string, [1; 2; 3])]. split; [reflexivity | cbn; lia].
Defined.

End Anova.

(** ** The improvement over the best competitor *)

Section Improvement.
Import StatisticalTests.

Lemma all_zero_replicate (v : Sample) :
  Forall (eq 0) v -> v = replicate (length v) 0.
Proof.
  induction 1 as [|x v Hx _ IH]; [reflexivity|].
  simpl. rewrite <- Hx, <- IH. reflexivity.
Qed.

Lemma statistics_all_zero (v : Sample) :
  v <> [] -> Forall (eq 0) v ->
  (exists m, Py.median v = Ok m /\ (m == 0)%Q)
  /\ (exists m, Py.mean v = Ok m /\ (m == 0)%Q).
Proof.
  intros Hne Hzero. rewrite (all_zero_replicate v Hzero).
  assert (Hn : length v <> 0%nat) by (destruct v; [congruence | discriminate]).
  split; [apply median_zeros | apply mean_zeros]; exact Hn.
Qed.

Lemma zeros_all_zero (n : Z) : Forall (eq 0) (Py.zeros n).
Proof.
  unfold Py.zeros. apply Forall_forall. intros x Hx.
  apply elem_of_replicate in Hx as [-> _]. reflexivity.
Qed.

Lemma zeros_nonempty (n : Z) : 1 <= n -> Py.zeros n <> [].
Proof.
  intros Hn. unfold Py.zeros.
  destruct (Z.to_nat n) eqn:H; [lia | discriminate].
Qed.

(** Without a baseline, when no other fuzzer reached any coverage (or
    there is no other fuzzer), [perc_difference] divides by the statistic
    0 of its best competitor and fails with a [ZeroDivisionError]. *)
Theorem perc_difference_zero_competitor (data : Dict) (primary : string)
    (baseline : option string) (args : Namespace) (own : Sample) :
  truthy baseline = false ->
  get primary data = Ok own -> own <> [] ->
  1 <= expected_runs args ->
  (forall c, c ∈ candidates primary data -> c.2 <> [] /\ Forall (eq 0) c.2) ->
  perc_difference data primary baseline args = Raise ZeroDivisionError.
Proof.
  intros Hbase Hown Hne Hruns Hzero. unfold perc_difference.
  rewrite (get_has_key _ _ _ Hown), Hbase. cbn [negb].
  set (fmp := if use_mean args then Py.mean else Py.median).
  set (fms := if use_mean args then Py.median else Py.mean).
  assert (Horder : (fmp = Py.median /\ fms = Py.mean)
                   \/ (fmp = Py.mean /\ fms = Py.median))
    by (unfold fmp, fms; destruct (use_mean args); auto).
  destruct (search_result fmp fms args data primary Horder Hruns)
    as (best & Hsearch & _ & Hbest).
  { intros c Hc. apply (Hzero c Hc). }
  rewrite Hsearch, result_bind_Ok.
  assert (Hb : best.2 <> [] /\ Forall (eq 0) best.2).
  { destruct Hbest as [->|Hin]; [|apply Hzero, Hin].
    split; [apply zeros_nonempty, Hruns | apply zeros_all_zero]. }
  destruct Hb as [Hbne Hbzero].
  destruct (statistics_all_zero best.2 Hbne Hbzero)
    as [(m1 & Hm1 & Hz1) (m2 & Hm2 & Hz2)].
  assert (Hmbc : exists mbc, fms best.2 = Ok mbc /\ (mbc == 0)%Q)
    by (destruct Horder as [[_ ->]|[_ ->]]; eauto).
  destruct Hmbc as (mbc & -> & Hmbc). rewrite !result_bind_Ok.
  rewrite Hown, result_bind_Ok.
  destruct (rated_nonempty fmp fms own Horder Hne) as [Hmpr _].
  destruct (not_raises_ok _ Hmpr) as [mpr ->]. rewrite result_bind_Ok.
  apply Qeq_bool_iff in Hmbc. rewrite Hmbc. reflexivity.
Qed.

Lemma perc_difference_zero_competitor_witness :
  perc_difference example_zero_coverage "new_fuzzer" None example_args
  = Raise ZeroDivisionError.
Proof.
  apply (perc_difference_zero_competitor example_zero_coverage "new_fuzzer"
           None example_args [5; 6; 7]).
  - reflexivity.
  - reflexivity.
  - discriminate.
  - cbn. lia.
  - intros c Hc. unfold candidates, example_zero_coverage in Hc. cbn in Hc.
    set_unfold. destruct Hc as [->|[]].
    split; [discriminate | repeat constructor].
Defined.

(** A median above 0 needs a value above 0. *)
Lemma median_pos_value (v : Sample) :
  v <> [] -> (0 < value_of Py.median v)%Q -> Exists (Z.lt 0) v.
Proof.
  intros Hne Hpos. apply Exists_exists. unfold value_of in Hpos.
  destruct (median_cases v Hne) as [(a & Ha & Hm)|(a & b & Ha & Hb & Hm)];
    rewrite Hm in Hpos; cbv beta iota in Hpos.
  - exists a. split; [exact Ha|].
    change 0%Q with (inject_Z 0) in Hpos. rewrite <- Zlt_Qlt in Hpos. exact Hpos.
  - assert (H : 0 < a + b).
    { destruct (Z.lt_ge_cases 0 (a + b)) as [Hab|Hab]; [exact Hab|].
      exfalso. apply (Qlt_not_le _ _ Hpos).
      apply Qle_shift_div_r; [reflexivity|]. rewrite Qmult_0_l.
      change 0%Q with (inject_Z 0). rewrite <- Zle_Qle. exact Hab. }
    destruct (Z.lt_ge_cases 0 a); [exists a | exists b]; split; auto; lia.
Qed.

(** Without a baseline and without [use_mean], on samples that are not
    empty and have no negative value, one of another fuzzer with a
    positive value, [perc_difference] returns: its best competitor is a
    fuzzer of the data, and the factor returned is the median of the
    primary sample divided by the mean of the best competitor's sample,
    which is positive. *)
Theorem perc_difference_best_competitor_defined (data : Dict)
    (primary : string) (args : Namespace) (own : Sample)
    (k : string) (v : Sample) :
  use_mean args = false ->
  get primary data = Ok own -> own <> [] ->
  1 <= expected_runs args ->
  (forall c, c ∈ candidates primary data ->
             c.2 <> [] /\ Forall (Z.le 0) c.2) ->
  (k, v) ∈ candidates primary data -> Exists (Z.lt 0) v ->
  exists (best : string * Sample) (mpr mbc : Q),
    search Py.median Py.mean primary data (none_competitor args) = Ok best
    /\ best ∈ candidates primary data
    /\ Py.median own = Ok mpr
    /\ Py.mean best.2 = Ok mbc
    /\ (0 < mbc)%Q
    /\ exists p : Q,
         perc_difference data primary None args
         = Ok (Some (p, (mpr / mbc)%Q)).
Proof.
  intros Hmean Hown Hne Hruns Hsamples Hin Hpos.
  assert (Horder : (Py.median = Py.median /\ Py.mean = Py.mean)
                   \/ (Py.median = Py.mean /\ Py.mean = Py.median))
    by (left; auto).
  destruct (none_competitor_below Py.median Py.mean args k v Horder Hruns)
    as (Hnone & _ & Hbelow); [apply (Hsamples (k, v) Hin) | exact Hpos |].
  destruct (search_first_maximum Py.median Py.mean primary data
              (none_competitor args) Hnone)
    as (best & Hsearch & Hmax).
  { intros c Hc. apply rated_nonempty; [exact Horder | apply Hsamples, Hc]. }
  destruct Hmax as [[_ Hmax]|(before & after & Hcands & Hlt & _)].
  { exfalso. exact (Hmax (k, v) Hin Hbelow). }
  assert (Hbest : best ∈ candidates primary data)
    by (rewrite Hcands; apply elem_of_app; right; left).
  destruct (Hsamples best Hbest) as [Hbne Hbnonneg].
  assert (Hbpos : Exists (Z.lt 0) best.2).
  { destruct (statistics_all_zero (none_competitor args).2)
      as [(mz & Hmz & Hmz0) (sz & Hsz & Hsz0)];
      [apply zeros_nonempty, Hruns | apply zeros_all_zero |].
    unfold lex_lt, score, value_of in Hlt. cbn [fst snd] in Hlt.
    rewrite Hmz, Hsz in Hlt.
    destruct Hlt as [Hlt|[_ Hlt]].
    - apply median_pos_value; [exact Hbne|]. unfold value_of. lra.
    - destruct (Py.mean best.2) as [m|e] eqn:Hm; [|lra].
      destruct (decide (Exists (Z.lt 0) best.2)) as [H|H]; [exact H|].
      exfalso. assert (Hz : Forall (eq 0) best.2).
      { apply Forall_forall. intros x Hx.
        rewrite Forall_forall in Hbnonneg. specialize (Hbnonneg x Hx).
        destruct (decide (0 < x)) as [Hx0|Hx0]; [|lia].
        exfalso. apply H. apply Exists_exists. eauto. }
      destruct (statistics_all_zero best.2 Hbne Hz) as [_ (m' & Hm' & Hm0)].
      rewrite Hm in Hm'. injection Hm' as <-. lra. }
  destruct (mean_pos best.2 Hbnonneg Hbpos) as (mbc & Hmbc & Hmbc0).
  destruct (rated_nonempty Py.median Py.mean own Horder Hne) as [Hmpr _].
  destruct (not_raises_ok _ Hmpr) as [mpr Hmpr'].
  exists best, mpr, mbc. repeat (split; [assumption|]).
  eexists. unfold perc_difference.
  rewrite (get_has_key _ _ _ Hown), Hmean. cbn [negb truthy].
  rewrite Hsearch, result_bind_Ok, Hmbc, !result_bind_Ok.
  rewrite Hown, result_bind_Ok, Hmpr', result_bind_Ok.
  replace (Qeq_bool mbc 0) with false; [reflexivity|].
  symmetry. apply Qeq_bool_false. lra.
Qed.

Lemma perc_difference_best_competitor_defined_witness :
  exists (best : string * Sample) (mpr mbc : Q),
    search Py.median Py.mean "new_fuzzer" example_two_fuzzers
           (none_competitor example_args) = Ok best
    /\ best ∈ candidates "new_fuzzer" example_two_fuzzers
    /\ Py.median [1111; 1112; 1113] = Ok mpr
    /\ Py.mean best.2 = Ok mbc
    /\ (0 < mbc)%Q
    /\ exists p : Q,
         perc_difference example_two_fuzzers "new_fuzzer" None example_args
         = Ok (Some (p, (mpr / mbc)%Q)).
Proof.
  apply (perc_difference_best_competitor_defined example_two_fuzzers
           "new_fuzzer" example_args [1111; 1112; 1113]
           "aflpp" [1000; 1001; 1002]).
  - reflexivity.
  - reflexivity.
  - discriminate.
  - cbn. lia.
  - intros c Hc. unfold candidates, example_two_fuzzers in Hc. cbn in Hc.
    set_unfold. destruct Hc as [->|[]].
    split; [discriminate | repeat constructor; lia].
  - unfold candidates, example_two_fuzzers. cbn. constructor.
  - constructor. lia.
Defined.

(** With [use_mean] the best competitor is rated by its mean and the
    division is by its median, which can be 0. *)
Example perc_difference_use_mean_example :
  perc_difference example_zero_median "new_fuzzer" None example_use_mean
  = Raise ZeroDivisionError
  /\ exists p f : Q,
       perc_difference example_zero_median "new_fuzzer" None example_args
       = Ok (Some (p, f))
       /\ (p == 260)%Q /\ (f == 18 # 5)%Q.
Proof.
  split; [reflexivity|]. eexists _, _. split; [reflexivity|].
  split; reflexivity.
Qed.

End Improvement.

(** ** The subcommands and the table *)

Section Main.
Import StatisticalTests.


Lemma calls_bind {A B : Type} (m : io A) (k : A -> io B) :
  calls (m ≫= k)
  = calls m ++ match outcome m with Ok a => calls (k a) | Raise _ => [] end.
Proof.
  destruct m as [t [a|e]].
  - rewrite io_bind_ok. reflexivity.
  - simpl. rewrite app_nil_r. reflexivity.
Qed.

Lemma main_targets_improvement (P : providers) (R_Script : option string)
    (items : list (string * Dict)) (args : Options)
    (cov_percs factors : list Q) :
  subcommand args = "improvement"%string ->
  calls (main_targets P R_Script items args cov_percs factors) = [].
Proof.
  intros Hsub. revert cov_percs factors.
  induction items as [|[target target_data] items IH];
    intros cov_percs factors; [reflexivity|].
  cbn [main_targets].
  destruct (not_selected target args); [apply IH|].
  destruct (len target_data =? 1); [apply IH|].
  rewrite Hsub. cbn [String.eqb Ascii.eqb Bool.eqb].
  rewrite calls_bind_lift.
  destruct (perc_difference _ _ _ _) as [[[cov_perc fac]|]|e];
    [apply IH | apply IH | reflexivity].
Qed.

(** The subcommand [improvement] computes from the data alone: [main]
    calls neither SciPy nor the R script. *)
Theorem main_improvement_no_calls (P : providers) (script : string)
    (args : Options) (data : list (string * Dict)) :
  subcommand args = "improvement"%string ->
  calls (main P script args data) = [].
Proof.
  intros Hsub. unfold main. rewrite Hsub.
  cbn [String.eqb Ascii.eqb Bool.eqb].
  rewrite calls_bind_ret. apply main_targets_improvement, Hsub.
Qed.

Lemma main_improvement_no_calls_witness :
  calls (main example_providers "stat" (example_options "improvement" None)
           [("Example 1"%string, example_two_fuzzers);
            ("Example 2"%string, example_zero_coverage)])
  = [].
Proof. apply main_improvement_no_calls. reflexivity. Defined.

Lemma main_targets_skipped (P : providers) (R_Script : option string)
    (items : list (string * Dict)) (args : Options)
    (cov_percs factors : list Q) :
  (forall t, t ∈ items -> skipped args t = true) ->
  main_targets P R_Script items args cov_percs factors
  = IO [] (Ok (cov_percs, factors)).
Proof.
  induction items as [|[target target_data] items IH]; intros Hskip;
    [reflexivity|].
  cbn [main_targets].
  assert (Hrest : forall t, t ∈ items -> skipped args t = true)
    by (intros t Ht; apply Hskip; right; exact Ht).
  pose proof (Hskip (target, target_data) ltac:(left)) as Hhead.
  unfold skipped in Hhead. cbn [fst snd] in Hhead.
  destruct (not_selected target args); [apply IH, Hrest|].
  simpl in Hhead. rewrite Hhead. apply IH, Hrest.
Qed.

(** For every subcommand but [gen-table], [main] passes over a target
    that is not among the selected ones or that has the data of exactly
    one fuzzer; when all targets are such, it returns without a provider
    call, whatever the subcommand is. *)
Theorem main_skipped_targets (P : providers) (script : string)
    (args : Options) (data : list (string * Dict)) :
  subcommand args <> "gen-table"%string ->
  (forall t, t ∈ data ->
             not_selected t.1 args = true \/ length t.2 = 1%nat) ->
  main P script args data = IO [] (Ok tt).
Proof.
  intros Hsub Hskip. unfold main.
  replace (String.eqb (subcommand args) "gen-table") with false
    by (symmetry; apply String.eqb_neq; exact Hsub).
  rewrite main_targets_skipped; [reflexivity|].
  intros [target target_data] Ht. unfold skipped. cbn [fst snd].
  apply orb_true_iff.
  destruct (Hskip _ Ht) as [H|H]; cbn [fst snd] in H; [left; exact H|].
  right. apply Z.eqb_eq. unfold len. rewrite H. reflexivity.
Qed.

Lemma main_skipped_targets_witness :
  main example_providers "stat"
    (example_options "best-competitor" (Some ["Example 2"%string]))
    [("Example 1"%string, example_two_fuzzers);
     ("Example 2"%string, [("new_fuzzer"%string, [1; 2; 3])])]
  = IO [] (Ok tt).
Proof.
  apply main_skipped_targets.
  - discriminate.
  - intros t Ht. set_unfold. destruct Ht as [->|[->|[]]].
    + left. reflexivity.
    + right. reflexivity.
Defined.




(** When the best competitor of the first target has another number of
    runs than the focal fuzzer, [gen_paper_table] does not reach its own
    check of the two lengths unless [no_effect_size] is set: the
    assertion of [a12] in [test_twoway] fails first. With
    [no_effect_size] the target gives no row and the table goes on with
    the other targets. *)
Theorem gen_paper_table_run_mismatch (P : providers) (script : string)
    (target : string) (target_data : Dict) (rest : list (string * Dict))
    (args : Options) (own : Sample) (best : string * Sample) (s c d : Q) :
  not_selected target args = false ->
  get (tweak args) target_data = Ok own ->
  2 <= len target_data ->
  search Py.median Py.mean (tweak args) target_data (none_competitor args)
  = Ok best ->
  best.1 <> tweak args ->
  length best.2 <> length own ->
  dec_twosamplecomparison P own best.2 = Ok [s; c; d] ->
  (no_effect_size args = false ->
   gen_paper_table P (Some script) ((target, target_data) :: rest) args
   = IO [CallTwoSampleComparison own best.2] (Raise AssertionError))
  /\ (no_effect_size args = true ->
      gen_paper_table P (Some script) ((target, target_data) :: rest) args
      = IO (CallTwoSampleComparison own best.2
              :: calls (gen_paper_table P (Some script) rest args))
           (outcome (gen_paper_table P (Some script) rest args))).
Proof.
  intros Hsel Hown Hlen Hsearch Hne Hruns Hanswer.
  assert (Hstart :
    gen_paper_table P (Some script) ((target, target_data) :: rest) args
    = (test_best_competitor P (Some script) target_data (tweak args) args
       ≫= fun res =>
       match res with
       | None => gen_paper_table_rows P (Some script) rest args []
       | Some (bc, bc_cov, dec) =>
           lift (get (tweak args) target_data) ≫= fun own =>
           if negb (len bc_cov =? len own) then
             gen_paper_table_rows P (Some script) rest args []
           else
             lift (get (tweak args) target_data) ≫= fun own =>
             lift (A12.a12 bc_cov own) ≫= fun eff_sz =>
             lift (A12.effect_size_latex_table_field eff_sz) ≫= fun field =>
             gen_paper_table_rows P (Some script) rest args
               ([] ++ [{| row_target := target; row_competitor := bc;
                          row_category := field.1;
                          row_effect_size := field.2;
                          row_significant := dec |}])
       end)).
  { unfold gen_paper_table. cbn [gen_paper_table_rows].
    rewrite Hsel, (get_has_key _ _ _ Hown). cbn [negb].
    replace (len target_data <? 2) with false
      by (symmetry; apply Z.ltb_ge; exact Hlen).
    reflexivity. }
  rewrite Hstart.
  rewrite (test_best_competitor_run P script target_data (tweak args) args
             own best eq_refl Hown Hsearch Hne).
  split; intros Heffect.
  - rewrite (twoway_outcome_mismatch P args own best.2 s c d); auto.
  - rewrite (twoway_outcome_decision P args own best.2 s c d); auto.
    rewrite result_bind_Ok, io_bind_ok, Hown, bind_lift_ok.
    replace (len best.2 =? len own) with false
      by (symmetry; apply Z.eqb_neq; unfold len; lia).
    reflexivity.
Qed.

Lemma gen_paper_table_run_mismatch_witness :
  (no_effect_size example_args = false ->
   gen_paper_table example_providers (Some "stat"%string)
     [("Example 1"%string,
       [("aflpp"%string, [1000; 1001]);
        ("new_fuzzer"%string, [1111; 1112; 1113])])]
     (example_options "gen-table" None)
   = IO [CallTwoSampleComparison [1111; 1112; 1113] [1000; 1001]]
        (Raise AssertionError))
  /\ (no_effect_size example_args = true ->
      gen_paper_table example_providers (Some "stat"%string)
        [("Example 1"%string,
          [("aflpp"%string, [1000; 1001]);
           ("new_fuzzer"%string, [1111; 1112; 1113])])]
        (example_options "gen-table" None)
      = IO (CallTwoSampleComparison [1111; 1112; 1113] [1000; 1001]
              :: calls (gen_paper_table example_providers
                          (Some "stat"%string) []
                          (example_options "gen-table" None)))
           (outcome (gen_paper_table example_providers (Some "stat"%string)
                       []
                       (example_options "gen-table" None)))).
Proof.
  apply (gen_paper_table_run_mismatch example_providers "stat" "Example 1"
           [("aflpp"%string, [1000; 1001]);
            ("new_fuzzer"%string, [1111; 1112; 1113])] []
           (example_options "gen-table" None)
           [1111; 1112; 1113] ("aflpp"%string, [1000; 1001])
           (3 # 2) (2 # 1) 0).
  - reflexivity.
  - reflexivity.
  - unfold len. simpl length. lia.
  - reflexivity.
  - discriminate.
  - discriminate.
  - reflexivity.
Defined.

End Main.
